(** * Deep Lake / MMSegmentation integration: a shallow embedding

    The development follows [deeplake/integrations/mmseg/mmseg_.py]:
    [MMSegDataset.evaluate], [transform], [build_pipeline],
    [build_dataloader] and [_train_segmentor].  Python dictionaries are
    finite maps, exceptions are an error type, and the calls into the
    training framework, the storage layer and the data-loading engine are
    fields of an environment record or variables of a section. *)

From stdpp Require Import gmap strings list fin_maps pretty.
From Stdlib Require Import ZArith Ascii String.

Set Warnings "-register-all".
Local Open Scope string_scope.
Local Open Scope list_scope.
Local Open Scope Z_scope.

(* ===================================================================== *)
(** * Python values, exceptions and the effect monad *)
(* ===================================================================== *)

(** The values that occur in a configuration and in keyword arguments. *)
Inductive pyval :=
| VNone
| VBool (b : bool)
| VInt (z : Z)
| VStr (s : string)
| VList (l : list pyval)
| VDict (d : gmap string pyval).

(** Python truthiness ([if x:]). *)
Definition truthy (v : pyval) : bool :=
  match v with
  | VNone => false
  | VBool b => b
  | VInt z => negb (z =? 0)
  | VStr s => negb (Nat.eqb (String.length s) 0)
  | VList l => negb (Nat.eqb (List.length l) 0)
  | VDict d => negb (Nat.eqb (size d) 0)
  end.

Definition is_none (v : pyval) : bool :=
  match v with VNone => true | _ => false end.

Inductive exn :=
| KeyError (msg : string)
| ValueError (msg : string)
| NotImplementedError (msg : string)
| Exception (msg : string)
| AttributeError (msg : string)
| TypeError (msg : string)
| IndexError (msg : string)
| UnboundLocalError (msg : string)
| AssertionError (msg : string)
| ExternalError (msg : string).

Inductive result (A : Type) :=
| Ok (a : A)
| Raise (e : exn).
Arguments Ok {A} a.
Arguments Raise {A} e.

(** What a run leaves behind, in order: warnings, printed lines, the
    calls made to collaborators outside this module, attributes set on
    their objects, the entries into [build_dataloader] with the arguments
    bound there, and the data loaders a backend was asked to construct
    (the backend, the dataset object and the keyword arguments). *)
Inductive event :=
| EWarn (msg : string)
| EPrint (msg : string)
| EPrintTable (header : list string)
| EExt (name : string)
| ESetAttr (obj attr : string)
| EBuildDataloader (dataset : nat) (images_tensor masks_tensor : pyval)
    (implementation : string) (mode : pyval)
| ELoader (backend : string) (dataset : nat) (kwargs : gmap string pyval).

Module Eff.

(** A state-and-exception monad: a failing computation keeps the state
    reached when the exception was raised. *)
Definition M (S A : Type) : Type := S → result A * S.

Definition ret {S A} (a : A) : M S A := λ s, (Ok a, s).

Definition raise {S A} (e : exn) : M S A := λ s, (Raise e, s).

Definition bind {S A B} (m : M S A) (f : A → M S B) : M S B :=
  λ s, match m s with
       | (Ok a, s') => f a s'
       | (Raise e, s') => (Raise e, s')
       end.

Definition get {S} : M S S := λ s, (Ok s, s).

Definition modify {S} (f : S → S) : M S unit := λ s, (Ok tt, f s).

(** Lifting a pure fallible step. *)
Definition lift {S A} (r : result A) : M S A := λ s, (r, s).

(** [for x in l: body x]. *)
Fixpoint for_each {S A} (l : list A) (body : A → M S unit) : M S unit :=
  match l with
  | [] => ret tt
  | x :: t => bind (body x) (λ _, for_each t body)
  end.

(** A list comprehension whose element expression may raise. *)
Fixpoint map_m {S A B} (f : A → M S B) (l : list A) : M S (list B) :=
  match l with
  | [] => ret []
  | x :: t => bind (f x) (λ y, bind (map_m f t) (λ ys, ret (y :: ys)))
  end.

End Eff.

Declare Scope eff_scope.
Delimit Scope eff_scope with eff.
Notation "'let!' x ':=' m 'in' k" := (Eff.bind m (λ x, k))
  (at level 10, x name, m at level 100, k at level 200) : eff_scope.
Notation "'let!' ' p ':=' m 'in' k" := (Eff.bind m (λ x, match x with p => k end))
  (at level 10, p pattern, m at level 100, k at level 200) : eff_scope.
Notation "m ;;; k" := (Eff.bind m (λ _, k))
  (at level 100, k at level 200, right associativity) : eff_scope.

(* ===================================================================== *)
(** * Strided slices and the reordering of multi-GPU results *)
(* ===================================================================== *)

(** [l[skip::step]] for a positive step: drop [skip] elements, keep one,
    then keep every [step]-th element after it. *)
Fixpoint slice_step {A} (skip step : nat) (l : list A) : list A :=
  match l with
  | [] => []
  | x :: t =>
      match skip with
      | O => x :: slice_step (Nat.pred step) step t
      | S k => slice_step k step t
      end
  end.

(** Lines 222-226 of [evaluate]:
<<
    if self.num_gpus > 1:
        results_ordered = []
        for i in range(self.num_gpus):
            results_ordered += results[i :: self.num_gpus]
        results = results_ordered
>> *)
Definition results_ordered {A} (num_gpus : Z) (results : list A) : list A :=
  if 1 <? num_gpus then
    foldl (λ acc i, acc ++ slice_step i (Z.to_nat num_gpus) results)
          [] (seq 0 (Z.to_nat num_gpus))
  else results.


(* ===================================================================== *)
(** * [MMSegDataset.evaluate] *)
(* ===================================================================== *)

(** Appending to the log of a run. *)
Definition log (e : event) : Eff.M (list event) unit :=
  Eff.modify (λ l, l ++ [e]).

(** The [metric] argument: [str | list[str]]. *)
Inductive metric_arg :=
| MetricStr (s : string)
| MetricList (l : list string).

Definition allowed_metrics : list string := ["mIoU"; "mDice"; "mFscore"].

(** [set(metric).issubset(set(allowed_metrics))]. *)
Definition issubset (metric allowed : list string) : bool :=
  forallb (λ m, bool_decide (m ∈ allowed)) metric.

(** [repr] of a list of plain strings: the names are taken to hold no
    apostrophe, backslash or control character, which Python quotes or
    escapes in another way. *)
Definition repr_str_list (l : list string) : string :=
  "[" +:+ String.concat ", " (map (λ s, "'" +:+ s +:+ "'") l) +:+ "]".

(** [OrderedDict.pop(key, None)] on a dictionary kept in insertion order. *)
Definition remove_key {V} (key : string) (d : list (string * V)) : list (string * V) :=
  filter (λ kv, kv.1 ≠ key) d.

(** Key of a summary entry, lines 296-300. *)
Definition summary_key (key : string) : string :=
  if decide (key = "aAcc") then key else "m" +:+ key.

(** Key of a per-class entry, line 306. *)
Definition class_key (key name : string) : string := key +:+ "." +:+ name.

Section Evaluate.

(** Floating-point numbers and the numpy operations on them are not
    interpreted: [nanmean] is [np.nanmean] on a one-dimensional array,
    [fmul] and [fdiv] are [*] and [/], [hundred] is the constant [100]
    and [around x d] is [np.round(x, d)]. *)
Context {F : Type}.
Variable nanmean : list F → F.
Variable fmul fdiv : F → F → F.
Variable hundred : F.
Variable around : F → Z → F.

(** Prediction arrays, pre-evaluation tuples and ground-truth maps. *)
Context {Arr Pre Mask : Type}.

Inductive result_item :=
| RArray (a : Arr)
| RFile (name : string)
| RPreEval (t : Pre).

(** A value of the metrics dictionary: [aAcc] is a scalar, the others
    are arrays with one entry per class. *)
Inductive mvalue :=
| MScalar (x : F)
| MArray (xs : list F).

Definition mvalue_map (f : F → F) (v : mvalue) : mvalue :=
  match v with
  | MScalar x => MScalar (f x)
  | MArray xs => MArray (map f xs)
  end.

Definition mvalue_nanmean (v : mvalue) : F :=
  match v with
  | MScalar x => nanmean [x]
  | MArray xs => nanmean xs
  end.

(** [value[idx]]. *)
Definition mvalue_index (v : mvalue) (idx : nat) : result F :=
  match v with
  | MScalar _ => Raise (IndexError "invalid index to scalar variable.")
  | MArray xs =>
      match xs !! idx with
      | Some x => Ok x
      | None => Raise (IndexError "index out of bounds")
      end
  end.

(** The fields of [self] read by [evaluate]. *)
Record MMSegDataset := {
  num_gpus : Z;
  ignore_index : Z;
  reduce_zero_label : bool;
  CLASSES : option (list string);
  masks_data : list Mask;
  self_len : nat;
}.

(** [upcast_array], [eval_metrics] and [pre_eval_to_metrics] are
    imported; the ground-truth maps reach [eval_metrics] as a generator
    whose items may raise. *)
Variable upcast_array : Mask → Mask.
Variable eval_metrics :
  list result_item → list (result Mask) → nat → Z → list string → bool →
  result (list (string * mvalue)).
Variable pre_eval_to_metrics :
  list result_item → list string → result (list (string * mvalue)).

(** Lines 156-157. *)
Definition get_gt_seg_maps (self : MMSegDataset) : list (result Mask) :=
  map (λ idx, match masks_data self !! idx with
              | Some m => Ok (upcast_array m)
              | None => Raise (IndexError "list index out of range")
              end)
      (seq 0 (self_len self)).

(** [mmcv.is_list_of(results, np.ndarray)], [mmcv.is_list_of(results, str)]. *)
Definition is_list_of_ndarray (rs : list result_item) : bool :=
  forallb (λ r, match r with RArray _ => true | _ => false end) rs.
Definition is_list_of_str (rs : list result_item) : bool :=
  forallb (λ r, match r with RFile _ => true | _ => false end) rs.

(** Lines 234-251: the metrics dictionary and, when the first branch
    ran, the local [num_classes]. *)
Definition compute_metrics (self : MMSegDataset) (results : list result_item)
    (metric : list string) (gt_seg_maps : option (list (result Mask)))
  : Eff.M (list event) (list (string * mvalue) * option nat) :=
  (if is_list_of_ndarray results || is_list_of_str results then
     let gt_seg_maps :=
       match gt_seg_maps with
       | None => get_gt_seg_maps self
       | Some g => g
       end in
     let! num_classes :=
       match CLASSES self with
       | Some c => Eff.ret (List.length c)
       | None => Eff.raise (TypeError "object of type 'NoneType' has no len()")
       end in
     log (EExt "eval_metrics") ;;;
     let! ret_metrics :=
       Eff.lift (eval_metrics results gt_seg_maps num_classes
                   (ignore_index self) metric (reduce_zero_label self)) in
     Eff.ret (ret_metrics, Some num_classes)
   else
     log (EExt "pre_eval_to_metrics") ;;;
     let! ret_metrics := Eff.lift (pre_eval_to_metrics results metric) in
     Eff.ret (ret_metrics, None))%eff.

(** Lines 303-309, one key of [ret_metrics_class]: the dictionary
    comprehension is evaluated, then merged into [eval_results]. *)
Definition class_entries (key : string) (value : mvalue)
    (class_names : list string) : result (list (string * F)) :=
  foldr (λ '(idx, name) rest,
           match mvalue_index value idx, rest with
           | Ok x, Ok entries => Ok ((class_key key name, fdiv x hundred) :: entries)
           | Raise e, _ => Raise e
           | _, Raise e => Raise e
           end)
        (Ok []) (imap (λ idx name, (idx, name)) class_names).

Definition update {V} (d : gmap string V) (entries : list (string * V)) : gmap string V :=
  foldl (λ acc kv, <[kv.1 := kv.2]> acc) d entries.

Fixpoint update_classes (eval_results : gmap string F)
    (ret_metrics_class : list (string * mvalue)) (class_names : list string)
  : result (gmap string F) :=
  match ret_metrics_class with
  | [] => Ok eval_results
  | (key, value) :: rest =>
      match class_entries key value class_names with
      | Ok entries => update_classes (update eval_results entries) rest class_names
      | Raise e => Raise e
      end
  end.

(** Lines 204-311.  The two [PrettyTable]s of lines 279-293 are taken to
    be built and printed: [add_column] raising on columns of unequal
    length is not modelled. *)
Definition evaluate (self : MMSegDataset) (results : list result_item)
    (metric : metric_arg) (gt_seg_maps : option (list (result Mask)))
  : Eff.M (list event) (gmap string F) :=
  (let results := results_ordered (num_gpus self) results in
   let metric :=
     match metric with
     | MetricStr s => [s]
     | MetricList l => l
     end in
   if negb (issubset metric allowed_metrics) then
     Eff.raise (KeyError ("metric " +:+ repr_str_list metric +:+ " is not supported"))
   else
     let! '(ret_metrics, num_classes) :=
       compute_metrics self results metric gt_seg_maps in
     let! class_names :=
       match CLASSES self with
       | None =>
           match num_classes with
           | Some n => Eff.ret (map (λ i : nat, pretty i) (seq 0 n))
           | None =>
               Eff.raise (UnboundLocalError
                 "local variable 'num_classes' referenced before assignment")
           end
       | Some c => Eff.ret c
       end in
     (* summary table *)
     let ret_metrics_summary :=
       map (λ kv, (kv.1, around (fmul (mvalue_nanmean kv.2) hundred) 2))
           ret_metrics in
     (* each class table *)
     let ret_metrics := remove_key "aAcc" ret_metrics in
     let ret_metrics_class :=
       map (λ kv, (kv.1, mvalue_map (λ x, around (fmul x hundred) 2) kv.2))
           ret_metrics in
     (* the "Class" column replaces a metric of that name and is popped
        again on line 302 *)
     let ret_metrics_class := remove_key "Class" ret_metrics_class in
     log (EPrint "per class results:") ;;;
     log (EPrintTable ("Class" :: map fst ret_metrics_class)) ;;;
     log (EPrint "Summary:") ;;;
     log (EPrintTable (map (λ kv, summary_key kv.1) ret_metrics_summary)) ;;;
     (* each metric dict *)
     let eval_results :=
       update ∅ (map (λ kv, (summary_key kv.1, fdiv kv.2 hundred))
                     ret_metrics_summary) in
     Eff.lift (update_classes eval_results ret_metrics_class class_names))%eff.

End Evaluate.

(* ===================================================================== *)
(** * [transform] *)
(* ===================================================================== *)

(** A numpy array: its shape and its elements in row-major order. *)
Record ndarray (A : Type) := NDArray {
  shape : list nat;
  data : list A;
}.
Arguments NDArray {A} shape data.
Arguments shape {A} n.
Arguments data {A} n.

Definition ndim {A} (a : ndarray A) : nat := List.length (shape a).

Definition size_of (sh : list nat) : nat := foldr Nat.mul 1%nat sh.

(** [a[i0, i1, ...]] for a full index. *)
Fixpoint offset (sh idx : list nat) : option nat :=
  match sh, idx with
  | [], [] => Some 0%nat
  | n :: sh', i :: idx' =>
      if (i <? n)%nat then
        match offset sh' idx' with
        | Some o => Some (i * size_of sh' + o)%nat
        | None => None
        end
      else None
  | _, _ => None
  end.

Definition item {A} (a : ndarray A) (idx : list nat) : option A :=
  match offset (shape a) idx with
  | Some o => data a !! o
  | None => None
  end.

(** [np.expand_dims(a, -1)]. *)
Definition expand_dims_last {A} (a : ndarray A) : ndarray A :=
  NDArray (shape a ++ [1%nat]) (data a).

(** Gathering: element [i] of the output is element [src i] of the input. *)
Definition gather {A} (src : nat → nat) (n : nat) (l : list A) : list A :=
  omap (λ i, l !! src i) (seq 0 n).

(** [a[..., ::-1]]: the last axis reversed. *)
Definition flip_last {A} (a : ndarray A) : result (ndarray A) :=
  match last (shape a) with
  | None => Raise (IndexError "too many indices for array")
  | Some c =>
      Ok (NDArray (shape a)
            (gather (λ i, (i / c) * c + (c - 1 - i mod c))%nat
                    (List.length (data a)) (data a)))
  end.

(** [np.repeat(a, reps, axis=2)]. *)
Definition repeat_axis2 {A} (reps : nat) (a : ndarray A) : result (ndarray A) :=
  match shape a with
  | s0 :: s1 :: s2 :: rest =>
      let inner := size_of rest in
      Ok (NDArray (s0 :: s1 :: (reps * s2)%nat :: rest)
            (gather (λ j, (((j / (inner * (reps * s2))) * s2
                            + ((j / inner) mod (reps * s2)) / reps) * inner
                           + j mod inner))%nat
                    (s0 * (s1 * ((reps * s2) * inner)))%nat (data a)))
  | _ => Raise (ValueError "axis 2 is out of bounds for array")
  end.

(** [np.ascontiguousarray(a, dtype=...)]. *)
Definition astype {A B} (cast : A → B) (a : ndarray A) : ndarray B :=
  NDArray (shape a) (map cast (data a)).

Section Transform.

(** The stored element type, [float32] and what the pipeline returns. *)
Context {Px F32 Out : Type}.
Variable to_float32 : Px → F32.

(** Lines 344-353. *)
Record pipeline_dict := {
  img : ndarray F32;
  img_fields : list string;
  filename : option string;
  ori_filename : option string;
  img_shape : list nat;
  ori_shape : list nat;
  gt_semantic_seg : ndarray Px;
  seg_fields : list string;
}.

(** Lines 336-342: the image as handed to the pipeline, before the cast. *)
Definition convert_image (img : ndarray Px) : result (ndarray Px) :=
  let img := if Nat.eqb (ndim img) 2 then expand_dims_last img else img in
  match flip_last img with
  | Raise e => Raise e
  | Ok img =>
      match shape img !! 2%nat with
      | None => Raise (IndexError "tuple index out of range")
      | Some c => if Nat.eqb c 1 then repeat_axis2 3 img else Ok img
      end
  end.

(** A sample is a dictionary from tensor names to arrays. *)
Definition transform (sample_in : gmap string (ndarray Px))
    (images_tensor masks_tensor : string)
    (pipeline : pipeline_dict → result Out) : result Out :=
  match sample_in !! images_tensor with
  | None => Raise (KeyError images_tensor)
  | Some img =>
      match sample_in !! masks_tensor with
      | None => Raise (KeyError masks_tensor)
      | Some mask =>
          match convert_image img with
          | Raise e => Raise e
          | Ok img =>
              let shape := shape img in
              pipeline
                {| img := astype to_float32 img;
                   img_fields := ["img"];
                   filename := None;
                   ori_filename := None;
                   img_shape := shape;
                   ori_shape := shape;
                   gt_semantic_seg := mask;
                   seg_fields := ["gt_semantic_seg"] |}
          end
      end
  end.

End Transform.

(* ===================================================================== *)
(** * Dictionaries, configurations and datasets *)
(* ===================================================================== *)

(** [v[key]] for a string key. *)
Definition py_getitem (v : pyval) (key : string) : result pyval :=
  match v with
  | VDict d =>
      match d !! key with
      | Some x => Ok x
      | None => Raise (KeyError key)
      end
  | VStr _ => Raise (TypeError "string indices must be integers")
  | VList _ => Raise (TypeError "list indices must be integers or slices, not str")
  | _ => Raise (TypeError "object is not subscriptable")
  end.

(** [v.get(key, dflt)]. *)
Definition py_get (v : pyval) (key : string) (dflt : pyval) : result pyval :=
  match v with
  | VDict d => Ok (default dflt (d !! key))
  | _ => Raise (AttributeError "object has no attribute 'get'")
  end.

(** Attribute access on an [mmcv.ConfigDict]: a key that is absent
    raises [AttributeError]. *)
Definition cfg_attr (v : pyval) (name : string) : result pyval :=
  match v with
  | VDict d =>
      match d !! name with
      | Some x => Ok x
      | None =>
          Raise (AttributeError
                   ("'ConfigDict' object has no attribute '" +:+ name +:+ "'"))
      end
  | _ => Raise (AttributeError ("object has no attribute '" +:+ name +:+ "'"))
  end.

(** [v.name = x] on a [ConfigDict] and [v[name] = x] on a dictionary. *)
Definition cfg_set (v : pyval) (name : string) (x : pyval) : result pyval :=
  match v with
  | VDict d => Ok (VDict (<[name := x]> d))
  | _ => Raise (AttributeError ("object has no attribute '" +:+ name +:+ "'"))
  end.

Definition py_setitem (v : pyval) (key : string) (x : pyval) : result pyval :=
  match v with
  | VDict d => Ok (VDict (<[key := x]> d))
  | _ => Raise (TypeError "object does not support item assignment")
  end.

(** [key in v]. *)
Definition py_contains (v : pyval) (key : string) : result bool :=
  match v with
  | VDict d => Ok (bool_decide (is_Some (d !! key)))
  | VList l =>
      Ok (existsb (λ x, match x with VStr s => bool_decide (s = key) | _ => false end) l)
  | VStr s =>
      Ok (existsb (λ i, bool_decide (substring i (String.length key) s = key))
                  (seq 0 (S (String.length s))))
  | _ => Raise (TypeError "argument is not iterable")
  end.

(** [len(v)]. *)
Definition py_len (v : pyval) : result Z :=
  match v with
  | VList l => Ok (Z.of_nat (List.length l))
  | VDict d => Ok (Z.of_nat (size d))
  | VStr s => Ok (Z.of_nat (String.length s))
  | _ => Raise (TypeError "object has no len()")
  end.

(** [v[i]] for an integer index into a list. *)
Definition py_index (v : pyval) (i : Z) : result pyval :=
  match v with
  | VList l =>
      let n := Z.of_nat (List.length l) in
      let j := if i <? 0 then i + n else i in
      if (0 <=? j) && (j <? n) then
        match l !! Z.to_nat j with
        | Some x => Ok x
        | None => Raise (IndexError "list index out of range")
        end
      else Raise (IndexError "list index out of range")
  | VDict d => Raise (KeyError "integer key")
  | _ => Raise (TypeError "object is not subscriptable")
  end.

(** Iterating over a value: a list yields its items, a dictionary its
    keys, a string its characters. *)
Definition py_iter (v : pyval) : result (list pyval) :=
  match v with
  | VList l => Ok l
  | VDict d => Ok (map (λ kv, VStr kv.1) (map_to_list d))
  | VStr s => Ok (map (λ c, VStr (String c EmptyString)) (list_ascii_of_string s))
  | _ => Raise (TypeError "object is not iterable")
  end.

(** [**v] inside a dictionary display or a call. *)
Definition py_mapping (v : pyval) : result (gmap string pyval) :=
  match v with
  | VDict d => Ok d
  | _ => Raise (TypeError "object is not a mapping")
  end.

(** [{**a, **b}]: the entries of [b] override those of [a]. *)
Definition merge_dicts (a b : gmap string pyval) : gmap string pyval := b ∪ a.

(** [str.lower] on the ASCII range. *)
Definition lower_ascii (c : ascii) : ascii :=
  let n := nat_of_ascii c in
  if (65 <=? n)%nat && (n <=? 90)%nat then ascii_of_nat (n + 32) else c.

Fixpoint lower (s : string) : string :=
  match s with
  | EmptyString => EmptyString
  | String c t => String (lower_ascii c) (lower t)
  end.

(** [v.lower()]. *)
Definition py_lower (v : pyval) : result string :=
  match v with
  | VStr s => Ok (lower s)
  | _ => Raise (AttributeError "object has no attribute 'lower'")
  end.

(** Modelled from the spec: the storage layer's dataset class is not in
    this module.  The spec describes "a tensor-based dataset object
    exposing named-tensor indexing and per-tensor metadata (class-name
    lists)"; the object also carries the attribute [CLASSES] that
    [build_dataloader] assigns ([None] while it is unset). *)
Record tensor := {
  htype : string;
  class_names : list string;
}.

Record dataset := {
  tensors : gmap string tensor;
  ds_CLASSES : option (list string);
}.

(** [dataset[name]] and [dataset[name].info.class_names]. *)
Definition dataset_getitem (ds : dataset) (name : pyval) : result tensor :=
  match name with
  | VStr s =>
      match tensors ds !! s with
      | Some t => Ok t
      | None => Raise (ExternalError ("TensorDoesNotExistError: " +:+ s))
      end
  | _ => Raise (ExternalError "InvalidKeyTypeError")
  end.

Definition dataset_class_names (ds : dataset) (name : pyval) : result (list string) :=
  match dataset_getitem ds name with
  | Ok t => Ok (class_names t)
  | Raise e => Raise e
  end.

(** The objects a run can reach: the datasets, by reference, and the log. *)
Record world := {
  w_datasets : gmap nat dataset;
  w_log : list event;
}.

(** The collaborators outside this module.  [ext_raises name history]
    tells whether the call named [name], made after the events of
    [history], raises. *)
Record Env := {
  indra_available : bool;
  ext_raises : string → list event → option exn;
  load_ds_from_cfg : pyval → result dataset;
  find_tensor_with_htype : dataset → string → string → pyval;
  get_collect_keys : pyval → list string;
  is_epoch_based_runner : pyval → bool;
  find_latest_checkpoint : pyval → pyval;
}.

(* ===================================================================== *)
(** * [build_pipeline], [MMSegDataset.__init__] and [build_dataloader] *)
(* ===================================================================== *)

Definition wlog (e : event) : Eff.M world unit :=
  Eff.modify (λ w, {| w_datasets := w_datasets w; w_log := w_log w ++ [e] |}).

(** [obj.CLASSES = classes] on a dataset object. *)
Definition set_CLASSES (ds : nat) (classes : list string) : Eff.M world unit :=
  Eff.modify (λ w,
    {| w_datasets :=
         alter (λ d, {| tensors := tensors d; ds_CLASSES := Some classes |})
               ds (w_datasets w);
       w_log := w_log w |}).

(** Reading through a reference to a dataset. *)
Definition deref (ds : nat) : Eff.M world dataset :=
  λ w, match w_datasets w !! ds with
       | Some d => (Ok d, w)
       | None => (Raise (ExternalError "dangling reference"), w)
       end.

(** The fields [MMSegDataset.__init__] assigns; [md_CLASSES] is [None]
    while the attribute is unset. *)
Record mmseg_dataset := {
  md_dataset : nat;
  md_mode : pyval;
  md_num_gpus : pyval;
  md_batch_size : pyval;
  md_ignore_index : Z;
  md_reduce_zero_label : bool;
  md_CLASSES : option (list string);
}.

(** What [build_dataloader] returns. *)
Record loader := {
  ld_backend : string;
  ld_dataset : nat;
  ld_kwargs : gmap string pyval;
  ld_mmseg : mmseg_dataset;
  ld_CLASSES : list string;
}.

Definition python_dist_message : string :=
  "Distributed training is not supported by the python data loader. Set deeplake_dataloader_type='c++' to use the C++ dtaloader instead.".

Definition persistent_workers_message : string :=
  "Persistent workers are not supported for OSS dataloader. persistent_workers=False will be used instead.".

Section Loader.

Variable E : Env.

(** A call to a collaborator: it is logged, then it may raise. *)
Definition ext (name : string) : Eff.M world unit :=
  λ w, let w' := {| w_datasets := w_datasets w; w_log := w_log w ++ [EExt name] |} in
       match ext_raises E name (w_log w) with
       | Some e => (Raise e, w')
       | None => (Ok tt, w')
       end.

(** A backend is asked for a loader. *)
Definition construct_loader (backend : string) (ds : nat)
    (kwargs : gmap string pyval) : Eff.M world unit :=
  λ w, let w' := {| w_datasets := w_datasets w;
                    w_log := w_log w ++ [ELoader backend ds kwargs] |} in
       match ext_raises E backend (w_log w) with
       | Some e => (Raise e, w')
       | None => (Ok tt, w')
       end.

(** Lines 675-682. *)
Fixpoint build_steps (steps : list pyval) : Eff.M world (list pyval) :=
  (match steps with
   | [] => Eff.ret []
   | step :: rest =>
       let! ty := Eff.lift (py_getitem step "type") in
       let! keep :=
         match ty with
         | VStr s => Eff.ret (negb (bool_decide (s ∈ ["LoadImageFromFile"; "LoadAnnotations"])))
         | VList _ | VDict _ => Eff.raise (TypeError "unhashable type")
         | _ => Eff.ret true
         end in
       if keep : bool then
         ext "build_from_cfg" ;;;
         let! built := build_steps rest in
         Eff.ret (step :: built)
       else build_steps rest
   end)%eff.

Definition build_pipeline (steps : pyval) : Eff.M world (list pyval) :=
  (let! steps := Eff.lift (py_iter steps) in
   let! built := build_steps steps in
   ext "Compose" ;;;
   Eff.ret built)%eff.

(** Lines 99-125, as called from [build_dataloader]: [ignore_index] and
    [reduce_zero_label] keep their defaults. *)
Definition MMSegDataset_init (ds : nat) (tensors_dict : gmap string pyval)
    (mode num_gpus batch_size : pyval) : Eff.M world mmseg_dataset :=
  (ext "TorchDataset.__init__" ;;;
   let self := {| md_dataset := ds; md_mode := mode; md_num_gpus := num_gpus;
                  md_batch_size := batch_size; md_ignore_index := 255;
                  md_reduce_zero_label := false; md_CLASSES := None |} in
   if match mode with
      | VStr m => bool_decide (m ∈ ["val"; "test"])
      | _ => false
      end
   then
     let! d := deref ds in
     let! images_tensor := Eff.lift (py_getitem (VDict tensors_dict) "images_tensor") in
     let! _ := Eff.lift (dataset_getitem d images_tensor) in
     let masks_tensor := default VNone (tensors_dict !! "masks_tensor") in
     let! _ := (if is_none masks_tensor then Eff.ret tt
                else let! _ := Eff.lift (dataset_getitem d masks_tensor) in
                     Eff.ret tt) in
     let! classes := Eff.lift (py_getitem (VDict tensors_dict) "masks_tensor") in
     let! classes := Eff.lift (dataset_class_names d classes) in
     wlog (EPrint "Loading annotations into memory") ;;;
     ext "Tensor.numpy" ;;;
     wlog (EPrint "Annotations are loaded into memory") ;;;
     Eff.ret {| md_dataset := ds; md_mode := mode; md_num_gpus := num_gpus;
                md_batch_size := batch_size; md_ignore_index := 255;
                md_reduce_zero_label := false; md_CLASSES := Some classes |}
   else Eff.ret self)%eff.

(** [d.get(key)] followed by [if x is None: x = d[fallback]]. *)
Definition get_or_required (d : gmap string pyval) (key fallback : string)
  : result pyval :=
  let x := default VNone (d !! key) in
  if is_none x then py_getitem (VDict d) fallback else Ok x.

(** Lines 706-799: the loader, once the arguments have been accepted.
    The keyword arguments recorded for a backend are the data ones; the
    callables ([transform], [collate_fn], [pipeline]) are left out. *)
Definition make_loader (dataset : nat) (images_tensor masks_tensor : pyval)
    (implementation : string) (mode : pyval)
    (train_loader_config : gmap string pyval) (classes : list string)
    (persistent_workers dist : pyval) : Eff.M world loader :=
  (let! num_workers :=
     Eff.lift (get_or_required train_loader_config "num_workers" "workers_per_gpu") in
   let shuffle := default (VBool true) (train_loader_config !! "shuffle") in
   let tensors_dict : gmap string pyval := {[ "images_tensor" := images_tensor ]} in
   let tensors := [images_tensor] in
   let '(tensors, tensors_dict) :=
     if is_none masks_tensor then (tensors, tensors_dict)
     else (tensors ++ [masks_tensor],
           <["masks_tensor" := masks_tensor]> tensors_dict) in
   let! batch_size :=
     Eff.lift (get_or_required train_loader_config "batch_size" "samples_per_gpu") in
   let decode_method := VList [images_tensor; VStr "numpy"] in
   if bool_decide (implementation = "python") then
     (if truthy persistent_workers
      then wlog (EWarn persistent_workers_message)
      else Eff.ret tt) ;;;
     let kwargs : gmap string pyval :=
       {[ "tensors_dict" := VDict tensors_dict;
          "num_workers" := num_workers;
          "shuffle" := shuffle;
          "tensors" := VList tensors;
          "batch_size" := batch_size;
          "mode" := mode;
          "decode_method" := decode_method ]} in
     construct_loader "dataset.pytorch" dataset kwargs ;;;
     let! num_gpus := Eff.lift (py_getitem (VDict train_loader_config) "num_gpus") in
     let! mmseg_ds := MMSegDataset_init dataset tensors_dict mode num_gpus batch_size in
     wlog (ESetAttr "loader.dataset" "mmseg_dataset") ;;;
     wlog (ESetAttr "loader.dataset" "pipeline") ;;;
     wlog (ESetAttr "loader.dataset" "evaluate") ;;;
     wlog (ESetAttr "loader.dataset" "CLASSES") ;;;
     Eff.ret {| ld_backend := "python"; ld_dataset := dataset;
                ld_kwargs := kwargs; ld_mmseg := mmseg_ds;
                ld_CLASSES := classes |}
   else
     let kwargs : gmap string pyval :=
       {[ "shuffle" := shuffle;
          "batch_size" := batch_size;
          "num_workers" := num_workers;
          "tensors" := VList tensors;
          "distributed" := dist;
          "decode_method" := decode_method;
          "persistent_workers" := persistent_workers ]} in
     construct_loader "dataloader" dataset kwargs ;;;
     let! num_gpus := Eff.lift (py_getitem (VDict train_loader_config) "num_gpus") in
     let! mmseg_ds := MMSegDataset_init dataset tensors_dict mode num_gpus batch_size in
     wlog (ESetAttr "loader" "dataset") ;;;
     wlog (ESetAttr "loader.dataset" "CLASSES") ;;;
     Eff.ret {| ld_backend := "c++"; ld_dataset := dataset;
                ld_kwargs := kwargs;
                ld_mmseg :=
                  {| md_dataset := dataset; md_mode := md_mode mmseg_ds;
                     md_num_gpus := md_num_gpus mmseg_ds;
                     md_batch_size := md_batch_size mmseg_ds;
                     md_ignore_index := md_ignore_index mmseg_ds;
                     md_reduce_zero_label := md_reduce_zero_label mmseg_ds;
                     md_CLASSES := Some classes |};
                ld_CLASSES := classes |})%eff.

(** Lines 685-705, then [make_loader]. *)
Definition build_dataloader (dataset : nat) (images_tensor masks_tensor : pyval)
    (implementation : string) (pipeline : pyval) (mode : pyval)
    (train_loader_config : gmap string pyval) : Eff.M world loader :=
  (wlog (EBuildDataloader dataset images_tensor masks_tensor implementation mode) ;;;
   let! d := deref dataset in
   let! classes := Eff.lift (dataset_class_names d masks_tensor) in
   set_CLASSES dataset classes ;;;
   let! pipeline := build_pipeline pipeline in
   let persistent_workers :=
     default (VBool false) (train_loader_config !! "persistent_workers") in
   let ignore_index := default VNone (train_loader_config !! "ignore_index") in
   let reduce_zero_label :=
     default VNone (train_loader_config !! "reduce_zero_label") in
   let! dist := Eff.lift (py_getitem (VDict train_loader_config) "dist") in
   if truthy dist && bool_decide (implementation = "python") then
     Eff.raise (NotImplementedError python_dist_message)
   else
     make_loader dataset images_tensor masks_tensor implementation mode
       train_loader_config classes persistent_workers dist)%eff.

(** The call [build_dataloader(ds, images, masks, pipeline=...,
    implementation=..., **kwargs)]: a keyword of [kwargs] that names a
    parameter already given is a [TypeError]; [mode] is bound from
    [kwargs] when present. *)
Definition call_build_dataloader (dataset : nat) (images_tensor masks_tensor : pyval)
    (pipeline : pyval) (implementation : string) (kwargs : gmap string pyval)
  : Eff.M world loader :=
  if existsb (λ k, bool_decide (is_Some (kwargs !! k)))
       ["dataset"; "images_tensor"; "masks_tensor"; "pipeline"; "implementation"]
  then Eff.raise (TypeError "build_dataloader() got multiple values for argument")
  else build_dataloader dataset images_tensor masks_tensor implementation pipeline
         (default (VStr "train") (kwargs !! "mode")) (delete "mode" kwargs).

End Loader.

(* ===================================================================== *)
(** * [_train_segmentor] *)
(* ===================================================================== *)

Definition no_validation_dataset_message : string :=
  "Validation dataset is not specified even though validate = True. Please set validate = False or specify a validation dataset.".

Definition dataset_given_twice_message : string :=
  "A Deep Lake dataset was specified in the cfg as well as inthe dataset input to train_detector. The dataset input to train_detector will be used in the workflow.".

Definition shuffle_ignored_message : string :=
  "shuffle argument for validation dataset will be ignored.".

Definition dataloader_type_message : string :=
  "`deeplake_dataloader_type` should be one of ['auto', 'c++', 'python'].".

Section Train.

Variable E : Env.

(** [cfg.a.b]. *)
Definition cfg_attr2 (cfg : pyval) (a b : string) : result pyval :=
  match cfg_attr cfg a with
  | Ok x => cfg_attr x b
  | Raise e => Raise e
  end.

(** A dataset returned by a collaborator becomes a new object. *)
Definition alloc (d : dataset) : Eff.M world nat :=
  λ w, let r := fresh (dom (w_datasets w)) in
       (Ok r, {| w_datasets := <[r := d]> (w_datasets w); w_log := w_log w |}).

Definition load_ds (c : pyval) : Eff.M world nat :=
  (ext E "load_ds_from_cfg" ;;;
   let! d := Eff.lift (load_ds_from_cfg E c) in
   alloc d)%eff.

(** Lines 428-436: the training dataset and its tensors dictionary. *)
Definition load_train_dataset (cfg : pyval) (ds_train : option nat)
    (ds_train_tensors : pyval) : Eff.M world (nat * pyval) :=
  (match ds_train with
   | None =>
       let! train := Eff.lift (cfg_attr2 cfg "data" "train") in
       let! ds := load_ds train in
       let! train := Eff.lift (cfg_attr2 cfg "data" "train") in
       let! tensors := Eff.lift (py_get train "deeplake_tensors" (VDict ∅)) in
       Eff.ret (ds, tensors)
   | Some ds =>
       let! train := Eff.lift (cfg_attr2 cfg "data" "train") in
       let! cfg_data := Eff.lift (py_get train "deeplake_path" VNone) in
       (if truthy cfg_data then wlog (EWarn dataset_given_twice_message)
        else Eff.ret tt) ;;;
       Eff.ret (ds, ds_train_tensors)
   end)%eff.

(** Lines 439-450: the data-loading backend. *)
Definition select_dl_impl (cfg : pyval) : Eff.M world string :=
  (let! flag := Eff.lift (py_get cfg "deeplake_dataloader_type" (VStr "auto")) in
   let! dl_impl := Eff.lift (py_lower flag) in
   let! dl_impl :=
     if bool_decide (dl_impl = "auto") then
       ext E "indra_available" ;;;
       Eff.ret (if indra_available E then "c++" else "python")
     else if bool_decide (dl_impl = "cpp") then Eff.ret "c++"
     else Eff.ret dl_impl in
   if negb (bool_decide (dl_impl ∈ ["c++"; "python"])) then
     Eff.raise (ValueError dataloader_type_message)
   else Eff.ret dl_impl)%eff.

(** Lines 457-464 and 620-626: tensors found by their htype. *)
Definition find_tensors (cfg : pyval) (ds : nat) : Eff.M world (pyval * pyval) :=
  (let! d := deref ds in
   ext E "find_tensor_with_htype" ;;;
   let images_tensor := find_tensor_with_htype E d "image" "img" in
   ext E "get_collect_keys" ;;;
   let collection_keys := get_collect_keys E cfg in
   if bool_decide ("gt_semantic_seg" ∈ collection_keys) then
     ext E "find_tensor_with_htype" ;;;
     Eff.ret (images_tensor, find_tensor_with_htype E d "segment_mask" "gt_semantic_seg")
   else Eff.ret (images_tensor, VNone))%eff.

(** Lines 452-464. *)
Definition train_tensors (cfg : pyval) (ds_train : nat) (ds_train_tensors : pyval)
  : Eff.M world (pyval * pyval) :=
  (if truthy ds_train_tensors then
     let! train_images_tensor := Eff.lift (py_getitem ds_train_tensors "img") in
     let! train_masks_tensor :=
       Eff.lift (py_get ds_train_tensors "gt_semantic_seg" VNone) in
     Eff.ret (train_images_tensor, train_masks_tensor)
   else
     wlog (EPrint "ds_train: ") ;;;
     find_tensors cfg ds_train)%eff.

(** Lines 66-95. *)
Definition build_ddp (device : pyval) : Eff.M world unit :=
  (match device with
   | VStr "cuda" =>
       ext E "model.cuda" ;;;
       ext E "ddp_factory[device]"
   | VStr "mlu" =>
       ext E "import MLUDistributedDataParallel" ;;;
       ext E "model.mlu" ;;;
       ext E "ddp_factory[device]"
   | _ => Eff.raise (AssertionError "Only available for cuda or mlu devices.")
   end)%eff.

(** Lines 489-509. *)
Definition put_model_on_gpus (cfg : pyval) (local_rank : Z) (distributed : bool)
  : Eff.M world unit :=
  (if distributed then
     let! find_unused_parameters :=
       Eff.lift (py_get cfg "find_unused_parameters" (VBool false)) in
     let! gpu_ids := Eff.lift (cfg_attr cfg "gpu_ids") in
     let! _ := Eff.lift (py_index gpu_ids local_rank) in
     ext E "force_cudnn_initialization" ;;;
     let! gpu_ids := Eff.lift (cfg_attr cfg "gpu_ids") in
     let! _ := Eff.lift (py_len gpu_ids) in
     ext E "ddp_setup" ;;;
     let! device := Eff.lift (cfg_attr cfg "device") in
     let! gpu_ids := Eff.lift (cfg_attr cfg "gpu_ids") in
     let! _ := Eff.lift (py_index gpu_ids local_rank) in
     build_ddp device
   else
     let! device := Eff.lift (cfg_attr cfg "device") in
     let! gpu_ids := Eff.lift (cfg_attr cfg "gpu_ids") in
     ext E "build_dp")%eff.

(** Lines 520-564: optimizer, runner and training hooks; the
    configuration is returned with the runner type renamed. *)
Definition build_runner_and_hooks (cfg : pyval) (distributed : bool)
  : Eff.M world pyval :=
  (let! optimizer := Eff.lift (cfg_attr cfg "optimizer") in
   ext E "build_optimizer" ;;;
   let! cfg :=
     Eff.lift (cfg_set cfg "custom_imports"
       (VDict {[ "imports" := VList [VStr "deeplake.integrations.mmdet.mmdet_runners"];
                 "allow_failed_imports" := VBool false ]})) in
   let! runner := Eff.lift (cfg_attr cfg "runner") in
   let! runner_type := Eff.lift (cfg_attr runner "type") in
   let! cfg :=
     match runner_type with
     | VStr "IterBasedRunner" =>
         let! runner := Eff.lift (cfg_set runner "type" (VStr "DeeplakeIterBasedRunner")) in
         Eff.lift (cfg_set cfg "runner" runner)
     | VStr "EpochBasedRunner" =>
         let! runner := Eff.lift (cfg_set runner "type" (VStr "DeeplakeEpochBasedRunner")) in
         Eff.lift (cfg_set cfg "runner" runner)
     | _ => Eff.ret cfg
     end in
   let! runner := Eff.lift (cfg_attr cfg "runner") in
   let! work_dir := Eff.lift (cfg_attr cfg "work_dir") in
   ext E "build_runner" ;;;
   wlog (ESetAttr "runner" "timestamp") ;;;
   let! optimizer_config := Eff.lift (cfg_attr cfg "optimizer_config") in
   (if distributed then
      let! has_type := Eff.lift (py_contains optimizer_config "type") in
      if negb has_type then
        let! _ := Eff.lift (py_mapping optimizer_config) in
        ext E "OptimizerHook"
      else Eff.ret tt
    else Eff.ret tt) ;;;
   let! lr_config := Eff.lift (cfg_attr cfg "lr_config") in
   let! checkpoint_config := Eff.lift (cfg_attr cfg "checkpoint_config") in
   let! log_config := Eff.lift (cfg_attr cfg "log_config") in
   let! momentum_config := Eff.lift (py_get cfg "momentum_config" VNone) in
   ext E "runner.register_training_hooks" ;;;
   (if distributed then
      if is_epoch_based_runner E runner then
        ext E "DistSamplerSeedHook" ;;;
        ext E "runner.register_hook"
      else Eff.ret tt
    else Eff.ret tt) ;;;
   Eff.ret cfg)%eff.

(** Lines 591-614: the validation dataset and its tensors dictionary. *)
Definition resolve_val_dataset (cfg : pyval) (ds_val : option nat)
    (ds_val_tensors : pyval) : Eff.M world (nat * pyval) :=
  (let! '(ds_val, ds_val_tensors) :=
     match ds_val with
     | None =>
         let! data := Eff.lift (cfg_attr cfg "data") in
         let! cfg_ds_val := Eff.lift (py_get data "val" VNone) in
         if is_none cfg_ds_val then
           Eff.raise (Exception no_validation_dataset_message)
         else
           let! deeplake_path := Eff.lift (py_get cfg_ds_val "deeplake_path" VNone) in
           if is_none deeplake_path then
             Eff.raise (Exception no_validation_dataset_message)
           else
             let! val := Eff.lift (cfg_attr2 cfg "data" "val") in
             let! ds := load_ds val in
             let! val := Eff.lift (cfg_attr2 cfg "data" "val") in
             let! tensors := Eff.lift (py_get val "deeplake_tensors" (VDict ∅)) in
             Eff.ret (Some ds, tensors)
     | Some ds =>
         let! val := Eff.lift (cfg_attr2 cfg "data" "val") in
         let! cfg_data := Eff.lift (py_get val "deeplake_path" VNone) in
         (if negb (is_none cfg_data) then wlog (EWarn dataset_given_twice_message)
          else Eff.ret tt) ;;;
         Eff.ret (Some ds, ds_val_tensors)
     end in
   match ds_val with
   | None => Eff.raise (Exception no_validation_dataset_message)
   | Some ds => Eff.ret (ds, ds_val_tensors)
   end)%eff.

(** Lines 616-626. *)
Definition val_tensors (cfg : pyval) (ds_val : nat)
    (ds_val_tensors ds_train_tensors : pyval) : Eff.M world (pyval * pyval) :=
  (if truthy ds_val_tensors then
     let! val_images_tensor := Eff.lift (py_getitem ds_val_tensors "img") in
     let! val_masks_tensor :=
       Eff.lift (py_get ds_train_tensors "gt_semantic_seg" VNone) in
     Eff.ret (val_images_tensor, val_masks_tensor)
   else find_tensors cfg ds_val)%eff.

(** Lines 568-582: the keyword arguments of the validation loader. *)
Definition val_dataloader_args (cfg : pyval) (batch_size num_workers : pyval)
    (distributed : bool) (ignore_index reduce_zero_label : pyval)
  : result (gmap string pyval) :=
  match cfg_attr cfg "gpu_ids" with
  | Raise e => Raise e
  | Ok gpu_ids =>
      match py_len gpu_ids with
      | Raise e => Raise e
      | Ok num_gpus =>
          let val_dataloader_default_args : gmap string pyval :=
            {[ "samples_per_gpu" := batch_size;
               "workers_per_gpu" := num_workers;
               "dist" := VBool distributed;
               "shuffle" := VBool false;
               "mode" := VStr "val";
               "num_gpus" := VInt num_gpus;
               "ignore_index" := ignore_index;
               "reduce_zero_label" := reduce_zero_label ]} in
          match cfg_attr2 cfg "data" "val" with
          | Raise e => Raise e
          | Ok val =>
              match py_get val "deeplake_dataloader" (VDict ∅) with
              | Raise e => Raise e
              | Ok user =>
                  match py_mapping user with
                  | Raise e => Raise e
                  | Ok user => Ok (merge_dicts user val_dataloader_default_args)
                  end
              end
          end
      end
  end.

(** Lines 567-644: the body of [if validate:]. *)
Definition register_eval_hooks (cfg : pyval) (eval_cfg : pyval)
    (ds_val : option nat) (ds_val_tensors ds_train_tensors : pyval)
    (distributed : bool) (dl_impl : string)
    (batch_size num_workers ignore_index reduce_zero_label : pyval)
    (train_loader_cfg : gmap string pyval) : Eff.M world unit :=
  (let! val_dataloader_args :=
     Eff.lift (val_dataloader_args cfg batch_size num_workers distributed
                 ignore_index reduce_zero_label) in
   let train_persistent_workers :=
     default (VBool false) (train_loader_cfg !! "persistent_workers") in
   let val_persistent_workers :=
     default (VBool false) (val_dataloader_args !! "persistent_workers") in
   ext E "check_persistent_workers" ;;;
   (if truthy (default (VBool false) (val_dataloader_args !! "shuffle"))
    then wlog (EWarn shuffle_ignored_message)
    else Eff.ret tt) ;;;
   let! '(ds_val, ds_val_tensors) := resolve_val_dataset cfg ds_val ds_val_tensors in
   let! '(val_images_tensor, val_masks_tensor) :=
     val_tensors cfg ds_val ds_val_tensors ds_train_tensors in
   let! test_pipeline := Eff.lift (py_get cfg "test_pipeline" (VList [])) in
   let! val_dataloader :=
     call_build_dataloader E ds_val val_images_tensor val_masks_tensor
       test_pipeline dl_impl val_dataloader_args in
   let! runner := Eff.lift (cfg_attr cfg "runner") in
   let! runner_type := Eff.lift (py_getitem runner "type") in
   let by_epoch :=
     match runner_type with
     | VStr "DeeplakeIterBasedRunner" => false
     | _ => true
     end in
   let! eval_cfg := Eff.lift (py_setitem eval_cfg "by_epoch" (VBool by_epoch)) in
   let! eval_cfg := Eff.lift (py_setitem eval_cfg "pre_eval" (VBool false)) in
   ext E (if distributed then "DistEvalHook" else "EvalHook") ;;;
   ext E "runner.register_hook")%eff.

(** Lines 646-660.  The registry [HOOKS] of line 659 is a name this file
    does not import; looking it up belongs to the collaborator call
    [build_from_cfg(hook_cfg, HOOKS)], which the environment may make
    raise. *)
Definition register_custom_hooks (cfg : pyval) : Eff.M world unit :=
  (let! custom_hooks := Eff.lift (py_get cfg "custom_hooks" VNone) in
   if truthy custom_hooks then
     let! custom_hooks := Eff.lift (cfg_attr cfg "custom_hooks") in
     match custom_hooks with
     | VList hooks =>
         Eff.for_each hooks (λ hook_cfg,
           match hook_cfg with
           | VDict _ =>
               ext E "build_from_cfg(hook_cfg, HOOKS)" ;;;
               ext E "runner.register_hook"
           | _ =>
               Eff.raise (AssertionError
                 "Each item in custom_hooks expects dict type")
           end)
     | _ => Eff.raise (AssertionError "custom_hooks expect list type")
     end
   else Eff.ret tt)%eff.

(** Lines 662-672. *)
Definition resume_and_run (cfg : pyval) : Eff.M world unit :=
  (let! cfg_resume_from := Eff.lift (cfg_attr cfg "resume_from") in
   let! auto_resume :=
     if is_none cfg_resume_from
     then Eff.lift (py_get cfg "auto_resume" VNone)
     else Eff.ret VNone in
   let! resume_from :=
     if is_none cfg_resume_from && truthy auto_resume then
       let! work_dir := Eff.lift (cfg_attr cfg "work_dir") in
       ext E "find_latest_checkpoint" ;;;
       Eff.ret (find_latest_checkpoint E work_dir)
     else Eff.ret VNone in
   let! cfg :=
     if negb (is_none resume_from)
     then Eff.lift (cfg_set cfg "resume_from" resume_from)
     else Eff.ret cfg in
   let! cfg_resume_from := Eff.lift (cfg_attr cfg "resume_from") in
   (if truthy cfg_resume_from then ext E "runner.resume"
    else
      let! load_from := Eff.lift (cfg_attr cfg "load_from") in
      if truthy load_from then ext E "runner.load_checkpoint"
      else Eff.ret tt) ;;;
   let! workflow := Eff.lift (cfg_attr cfg "workflow") in
   ext E "runner.run")%eff.

(** Lines 408-672. *)
Definition _train_segmentor (local_rank : Z) (cfg : pyval)
    (ds_train : option nat) (ds_train_tensors : pyval)
    (ds_val : option nat) (ds_val_tensors : pyval)
    (distributed validate : bool) : Eff.M world unit :=
  (let! data := Eff.lift (cfg_attr cfg "data") in
   let! batch_size := Eff.lift (py_get data "samples_per_gpu" (VInt 256)) in
   let! num_workers := Eff.lift (py_get data "workers_per_gpu" (VInt 1)) in
   let! ignore_index := Eff.lift (py_get cfg "ignore_index" (VInt 255)) in
   let! reduce_zero_label := Eff.lift (py_get cfg "reduce_zero_label" (VBool false)) in
   let! '(ds_train, ds_train_tensors) :=
     load_train_dataset cfg ds_train ds_train_tensors in
   let! eval_cfg := Eff.lift (py_get cfg "evaluation" (VDict ∅)) in
   let! dl_impl := select_dl_impl cfg in
   let! '(train_images_tensor, train_masks_tensor) :=
     train_tensors cfg ds_train ds_train_tensors in
   let! d := deref ds_train in
   let! _ := Eff.lift (dataset_class_names d train_masks_tensor) in
   wlog (ESetAttr "model" "CLASSES") ;;;
   let! log_level := Eff.lift (cfg_attr cfg "log_level") in
   ext E "get_root_logger" ;;;
   let! has_runner := Eff.lift (py_contains cfg "runner") in
   let! runner_type :=
     if negb has_runner then Eff.ret (VStr "EpochBasedRunner")
     else
       let! runner := Eff.lift (cfg_attr cfg "runner") in
       Eff.lift (py_getitem runner "type") in
   let! gpu_ids := Eff.lift (cfg_attr cfg "gpu_ids") in
   let! num_gpus := Eff.lift (py_len gpu_ids) in
   let! seed := Eff.lift (cfg_attr cfg "seed") in
   let train_dataloader_default_args : gmap string pyval :=
     {[ "samples_per_gpu" := batch_size;
        "workers_per_gpu" := num_workers;
        "num_gpus" := VInt num_gpus;
        "dist" := VBool distributed;
        "seed" := seed;
        "runner_type" := runner_type;
        "ignore_index" := ignore_index;
        "reduce_zero_label" := reduce_zero_label ]} in
   let! train_dataloader := Eff.lift (py_get data "train_dataloader" (VDict ∅)) in
   let! train_dataloader := Eff.lift (py_mapping train_dataloader) in
   let! train := Eff.lift (cfg_attr data "train") in
   let! deeplake_dataloader := Eff.lift (py_get train "deeplake_dataloader" (VDict ∅)) in
   let! deeplake_dataloader := Eff.lift (py_mapping deeplake_dataloader) in
   let train_loader_cfg :=
     merge_dicts (merge_dicts train_dataloader_default_args train_dataloader)
                 deeplake_dataloader in
   put_model_on_gpus cfg local_rank distributed ;;;
   let! train_pipeline := Eff.lift (py_get cfg "train_pipeline" (VList [])) in
   let! data_loader :=
     call_build_dataloader E ds_train train_images_tensor train_masks_tensor
       train_pipeline dl_impl train_loader_cfg in
   let! cfg := build_runner_and_hooks cfg distributed in
   (if validate then
      register_eval_hooks cfg eval_cfg ds_val ds_val_tensors ds_train_tensors
        distributed dl_impl batch_size num_workers ignore_index
        reduce_zero_label train_loader_cfg
    else Eff.ret tt) ;;;
   register_custom_hooks cfg ;;;
   resume_and_run cfg)%eff.

End Train.

(* ===================================================================== *)
(** * Sample inputs *)
(* ===================================================================== *)

Definition dict (entries : list (string * pyval)) : pyval :=
  VDict (list_to_map entries).

(** A dataset with an image tensor and a mask tensor of two classes. *)
Definition sample_dataset : dataset :=
  {| tensors :=
       {[ "images" := {| htype := "image"; class_names := [] |};
          "masks" := {| htype := "segment_mask"; class_names := ["bg"; "cat"] |} ]};
     ds_CLASSES := None |}.

(** An environment in which no collaborator raises. *)
Definition quiet_env (indra : bool) : Env :=
  {| indra_available := indra;
     ext_raises := λ _ _, None;
     load_ds_from_cfg := λ _, Ok sample_dataset;
     find_tensor_with_htype :=
       λ _ h _, if bool_decide (h = "image") then VStr "images" else VStr "masks";
     get_collect_keys := λ _, ["img"; "gt_semantic_seg"];
     is_epoch_based_runner := λ _, false;
     find_latest_checkpoint := λ _, VNone |}.

Definition sample_world : world :=
  {| w_datasets := {[ 0%nat := sample_dataset ]}; w_log := [] |}.

Definition empty_world : world := {| w_datasets := ∅; w_log := [] |}.

(** A training configuration; [val] is what goes under [cfg.data] besides
    the training entries, [top] what goes at the top level. *)
Definition sample_cfg (val top : list (string * pyval)) : pyval :=
  dict (top ++
        [("data",
          dict (val ++
                [("samples_per_gpu", VInt 2);
                 ("workers_per_gpu", VInt 1);
                 ("train",
                  dict [("deeplake_path", VStr "hub://org/train");
                        ("deeplake_tensors",
                         dict [("img", VStr "images");
                               ("gt_semantic_seg", VStr "masks")])])]));
         ("gpu_ids", VList [VInt 0]);
         ("seed", VNone);
         ("log_level", VStr "INFO");
         ("device", VStr "cuda");
         ("optimizer", dict []);
         ("runner", dict [("type", VStr "IterBasedRunner")]);
         ("work_dir", VStr "work_dir");
         ("optimizer_config", dict []);
         ("lr_config", dict []);
         ("checkpoint_config", dict []);
         ("log_config", dict []);
         ("resume_from", VNone);
         ("load_from", VNone);
         ("workflow", VList [])]).

(** Keyword arguments of a distributed call of [build_dataloader]. *)
Definition dist_loader_config : gmap string pyval :=
  {[ "dist" := VBool true;
     "samples_per_gpu" := VInt 2;
     "workers_per_gpu" := VInt 1;
     "num_gpus" := VInt 2 ]}.

(** The new events of a run. *)
Definition new_events (before after : world) : list event :=
  drop (List.length (w_log before)) (w_log after).


(* ===================================================================== *)
(** * Auxiliary notions used in the statements and proofs *)
(* ===================================================================== *)

(** Does position [m] belong to the slice that starts at [skip]? *)
Definition hits (skip step m : nat) : bool :=
  (skip <=? m)%nat && Nat.eqb ((m - skip) mod step) 0.

(** The same dataset wrapper on a single GPU. *)
Definition with_num_gpus {Mask} (n : Z) (self : @MMSegDataset Mask) : @MMSegDataset Mask :=
  {| num_gpus := n;
     ignore_index := ignore_index self;
     reduce_zero_label := reduce_zero_label self;
     CLASSES := CLASSES self;
     masks_data := masks_data self;
     self_len := self_len self |}.

(** The names asked for by a [metric] argument (line 228-229). *)
Definition metric_names (metric : metric_arg) : list string :=
  match metric with
  | MetricStr s => [s]
  | MetricList l => l
  end.

Definition unsupported_metric_message (names : list string) : string :=
  "metric " +:+ repr_str_list names +:+ " is not supported".

(** Does a key contain a dot? *)
Fixpoint has_dot (s : string) : bool :=
  match s with
  | EmptyString => false
  | String c t => bool_decide (c = "."%char) || has_dot t
  end.

(** The pipeline input in the words of the specification: the channel of
    the stored image that output channel [c] shows (the channel axis
    reversed, a single channel repeated), and the stored pixel, a
    two-dimensional image having one channel. *)
Definition source_channel (chans c : nat) : nat :=
  if Nat.eqb chans 1 then 0%nat else (chans - 1 - c)%nat.

Definition output_channels (chans : nat) : nat :=
  if Nat.eqb chans 1 then 3%nat else chans.

Definition stored_pixel {A} (image : ndarray A) (h w c : nat) : option A :=
  match shape image with
  | [_; _] => item image [h; w]
  | _ => item image [h; w; c]
  end.

(** [obeys R P X Q m]: every run of [m] relates the datasets before and
    after by [R], appends to the log only events that satisfy [P], raises
    only exceptions that satisfy [X] and returns only values that
    satisfy [Q]. *)
Definition obeys {A} (R : relation (gmap nat dataset)) (P : event → Prop)
    (X : exn → Prop) (Q : A → Prop) (m : Eff.M world A) : Prop :=
  ∀ w r w', m w = (r, w') →
    R (w_datasets w) (w_datasets w')
    ∧ (∃ new, w_log w' = w_log w ++ new ∧ Forall P new)
    ∧ match r with
      | Ok a => Q a
      | Raise e => X e
      end.

(** The exceptions other than the one [build_dataloader] raises itself. *)
Definition not_NotImplementedError (e : exn) : Prop :=
  ∀ msg, e ≠ NotImplementedError msg.

(** Events and exceptions that a property of runs leaves unconstrained:
    calls to collaborators, printed lines, attribute assignments, and
    every exception apart from [NotImplementedError]. *)
Record lenient (P : event → Prop) (X : exn → Prop) : Prop := {
  lenient_ext : ∀ name, P (EExt name);
  lenient_print : ∀ msg, P (EPrint msg);
  lenient_setattr : ∀ obj attr, P (ESetAttr obj attr);
  lenient_exn : ∀ e, not_NotImplementedError e → X e;
}.

(** The collaborators raise only exceptions that satisfy [X]. *)
Definition env_within (E : Env) (X : exn → Prop) : Prop :=
  (∀ name history e, ext_raises E name history = Some e → X e)
  ∧ (∀ c e, load_ds_from_cfg E c = Raise e → X e).

Definition is_ELoader (ev : event) : Prop :=
  match ev with
  | ELoader _ _ _ => True
  | _ => False
  end.

Definition is_EBuildDataloader (ev : event) : Prop :=
  match ev with
  | EBuildDataloader _ _ _ _ _ => True
  | _ => False
  end.

(** The world in which [build_dataloader] builds its pipeline: the call
    is logged and [dataset.CLASSES] is assigned. *)
Definition entered_build_dataloader (w : world) (dataset : nat)
    (images_tensor masks_tensor : pyval) (implementation : string) (mode : pyval)
    (classes : list string) : world :=
  {| w_datasets :=
       alter (λ d, {| tensors := tensors d; ds_CLASSES := Some classes |})
             dataset (w_datasets w);
     w_log := w_log w ++
              [EBuildDataloader dataset images_tensor masks_tensor implementation mode] |}.

(** The backend a flag value stands for, in the words of the
    specification: ['auto'] is the C++ backend exactly when the engine is
    available, ['cpp'] is the C++ backend, anything else stands for
    itself. *)
Definition resolve_dl_impl (indra : bool) (flag : string) : string :=
  if bool_decide (flag = "auto") then (if indra then "c++" else "python")
  else if bool_decide (flag = "cpp") then "c++"
  else flag.

(** What [select_dl_impl] may return for a configuration. *)
Definition dl_impl_spec (E : Env) (cfg : pyval) (dl_impl : string) : Prop :=
  ∃ flag,
    py_get cfg "deeplake_dataloader_type" (VStr "auto") = Ok (VStr flag)
    ∧ dl_impl = resolve_dl_impl (indra_available E) (lower flag)
    ∧ dl_impl ∈ ["c++"; "python"].

(** The validation tensors dictionary in effect on line 616: the argument
    when a validation dataset was passed, otherwise the one of the
    configuration. *)
Definition tensors_in_effect (cfg : pyval) (ds_val : option nat)
    (ds_val_tensors tensors : pyval) : Prop :=
  match ds_val with
  | Some _ => tensors = ds_val_tensors
  | None =>
      ∃ val, cfg_attr2 cfg "data" "val" = Ok val
             ∧ py_get val "deeplake_tensors" (VDict ∅) = Ok tensors
  end.

(** The tensor names the validation loader is built with. *)
Definition val_tensors_spec (cfg : pyval) (ds_val : option nat)
    (ds_val_tensors ds_train_tensors images_tensor masks_tensor : pyval) : Prop :=
  ∃ tensors,
    tensors_in_effect cfg ds_val ds_val_tensors tensors
    ∧ (truthy tensors = true →
       py_getitem tensors "img" = Ok images_tensor
       ∧ py_get ds_train_tensors "gt_semantic_seg" VNone = Ok masks_tensor).

(** The claim that a refused distributed call leaves the dataset as it
    was. *)
Definition dataset_unchanged_on_dist_error : Prop :=
  ∀ E ds images masks impl pipeline mode cfg w w',
    build_dataloader E ds images masks impl pipeline mode cfg w =
      (Raise (NotImplementedError python_dist_message), w') →
    w_datasets w' = w_datasets w.

(* ===================================================================== *)
(** * Sample inputs for [evaluate] and [transform] *)
(* ===================================================================== *)

(** Numbers as integers: the mean of a list, no rounding. *)
Definition sample_nanmean (xs : list Z) : Z :=
  foldr Z.add 0 xs / Z.of_nat (List.length xs).

Definition sample_around (x : Z) (decimals : Z) : Z := x.

(** A metrics table for two classes, as a metric function returns it. *)
Definition sample_table : list (string * @mvalue Z) :=
  [("aAcc", MScalar 9); ("IoU", MArray [8; 6]); ("Acc", MArray [9; 7])].

Definition sample_self : @MMSegDataset (ndarray Z) :=
  {| num_gpus := 2;
     ignore_index := 255;
     reduce_zero_label := false;
     CLASSES := Some ["bg"; "cat"];
     masks_data := [];
     self_len := 0 |}.

Definition sample_results : list (@result_item (ndarray Z) unit) :=
  [RPreEval tt; RPreEval tt; RPreEval tt].

Definition sample_evaluate (metric : metric_arg)
  : result (gmap string Z) * list event :=
  evaluate sample_nanmean Z.mul Z.div 100 sample_around (λ m, m)
    (λ _ _ _ _ _ _, Ok sample_table) (λ _ _, Ok sample_table)
    sample_self sample_results metric None [].

(** A sample with a 1x2 colour image and its mask. *)
Definition sample_in : gmap string (ndarray Z) :=
  {[ "images" := NDArray [1; 2; 3]%nat [10; 20; 30; 40; 50; 60];
     "masks" := NDArray [1; 2]%nat [0; 1] ]}.

(** The validation entry of a configuration whose user asks for
    shuffling and names a masks tensor of its own. *)
Definition sample_val_entry : list (string * pyval) :=
  [("val",
    dict [("deeplake_path", VStr "hub://org/val");
          ("deeplake_dataloader", dict [("shuffle", VBool true)]);
          ("deeplake_tensors",
           dict [("img", VStr "images");
                 ("gt_semantic_seg", VStr "labels")])])].

(** The validation block on the sample configuration. *)
Definition sample_validation : result unit * world :=
  register_eval_hooks (quiet_env false) (sample_cfg sample_val_entry [])
    (dict []) None VNone
    (dict [("img", VStr "images"); ("gt_semantic_seg", VStr "masks")])
    false "python" (VInt 2) (VInt 1) (VInt 255) (VBool false) ∅ empty_world.

(** Modelled from the claim: the slice [results[i::n]] holds, in order,
    the elements of [results] at the positions [i], [i + n], [i + 2n],
    ... that exist. *)
Definition strided_slice_spec {A} (i n : nat) (results : list A) : list A :=
  omap (λ k, results !! (i + k * n)%nat) (seq 0 (List.length results)).

(** Modelled from the claim: the slices that start at [0], ...,
    [num_gpus - 1], one after the other. *)
Definition reordered_spec {A} (num_gpus : nat) (results : list A) : list A :=
  List.concat (map (λ i, strided_slice_spec i num_gpus results) (seq 0 num_gpus)).

(** Six results, as two processes would interleave them. *)
Definition sample_files : list (@result_item (ndarray Z) unit) :=
  [RFile "a0"; RFile "b0"; RFile "a1"; RFile "b1"; RFile "a2"; RFile "b2"].

(** The claim that a call with a true [dist] flag and the ['python']
    implementation always ends in the documented error. *)
Definition python_dist_always_documented_error : Prop :=
  ∀ E ds images masks pipeline mode (cfg : gmap string pyval) dist w,
    cfg !! "dist" = Some dist →
    truthy dist = true →
    ∃ w', build_dataloader E ds images masks "python" pipeline mode cfg w
          = (Raise (NotImplementedError python_dist_message), w').

(** A pipeline configuration whose only step has no type. *)
Definition untyped_pipeline : pyval := VList [dict [("size", VInt 512)]].

(* ===================================================================== *)
(** * Further notions and sample inputs *)
(* ===================================================================== *)

(** The name under which [build_dataloader] asks a backend for a loader:
    [dataset.pytorch] for the python implementation, [dataloader(...)]
    for every other one. *)
Definition backend_call (implementation : string) : string :=
  if bool_decide (implementation = "python") then "dataset.pytorch" else "dataloader".

(** A loader configuration for one process. *)
Definition single_loader_config : gmap string pyval :=
  {[ "dist" := VBool false;
     "samples_per_gpu" := VInt 2;
     "workers_per_gpu" := VInt 1;
     "num_gpus" := VInt 1;
     "ignore_index" := VInt 0;
     "reduce_zero_label" := VBool true ]}.

(** The tensors dictionary [build_dataloader] hands to [MMSegDataset]. *)
Definition sample_tensors_dict : gmap string pyval :=
  {[ "images_tensor" := VStr "images"; "masks_tensor" := VStr "masks" ]}.

(** Line 680: the steps [build_pipeline] leaves out. *)
Definition is_loading_step (step : pyval) : bool :=
  match py_getitem step "type" with
  | Ok (VStr s) => bool_decide (s ∈ ["LoadImageFromFile"; "LoadAnnotations"])
  | _ => false
  end.

(** A step whose ["type"] can be read and looked up in a set. *)
Definition has_hashable_type (step : pyval) : bool :=
  match py_getitem step "type" with
  | Ok (VList _) | Ok (VDict _) | Raise _ => false
  | Ok _ => true
  end.

(** The steps that reach [build_from_cfg]. *)
Definition kept_steps (steps : list pyval) : list pyval :=
  List.filter (λ step, negb (is_loading_step step)) steps.

(** A pipeline configuration with both loading steps. *)
Definition sample_pipeline : pyval :=
  VList [dict [("type", VStr "LoadImageFromFile")];
         dict [("type", VStr "Resize"); ("keep_ratio", VBool true)];
         dict [("type", VStr "LoadAnnotations")];
         dict [("type", VStr "Normalize")]].

(** The sample dataset wrapper before [CLASSES] is assigned. *)
Definition sample_self_unset : @MMSegDataset (ndarray Z) :=
  {| num_gpus := 2;
     ignore_index := 255;
     reduce_zero_label := false;
     CLASSES := None;
     masks_data := [];
     self_len := 0 |}.

(** A pipeline configuration with a step that has no type. *)
Definition untyped_step : gmap string pyval := {[ "size" := VInt 512 ]}.

(** Lines 483-487 and 717: the [shuffle] of the training loader.  The
    entry of [cfg.data.train.deeplake_dataloader] comes first, then the
    one of [cfg.data.train_dataloader], then [True]; the defaults of lines
    471-481 have no such key. *)
Definition train_loader_shuffle (cfg : pyval) : result pyval :=
  match cfg_attr cfg "data" with
  | Raise e => Raise e
  | Ok data =>
      match py_get data "train_dataloader" (VDict ∅) with
      | Raise e => Raise e
      | Ok train_dataloader =>
          match py_mapping train_dataloader with
          | Raise e => Raise e
          | Ok train_dataloader =>
              match cfg_attr data "train" with
              | Raise e => Raise e
              | Ok train =>
                  match py_get train "deeplake_dataloader" (VDict ∅) with
                  | Raise e => Raise e
                  | Ok deeplake_dataloader =>
                      match py_mapping deeplake_dataloader with
                      | Raise e => Raise e
                      | Ok deeplake_dataloader =>
                          Ok (default
                                (default (VBool true) (train_dataloader !! "shuffle"))
                                (deeplake_dataloader !! "shuffle"))
                      end
                  end
              end
          end
      end
  end.

(** A loader is asked for with the training [shuffle] or, in the
    validation block, without shuffling. *)
Definition shuffles_as_configured (cfg : pyval) (validate : bool) (ev : event)
  : Prop :=
  match ev with
  | ELoader _ _ kwargs =>
      (∃ s, train_loader_shuffle cfg = Ok s ∧ kwargs !! "shuffle" = Some s)
      ∨ (validate = true ∧ kwargs !! "shuffle" = Some (VBool false))
  | _ => True
  end.

(** A configuration whose training loader is told not to shuffle. *)
Definition unshuffled_cfg : pyval :=
  sample_cfg [("train_dataloader", dict [("shuffle", VBool false)])] [].

(** Lines 528-531: the runner type after [_train_segmentor] has replaced
    the two mmcv runners by the Deep Lake ones. *)
Definition deeplake_runner_type (ty : pyval) : pyval :=
  match ty with
  | VStr "IterBasedRunner" => VStr "DeeplakeIterBasedRunner"
  | VStr "EpochBasedRunner" => VStr "DeeplakeEpochBasedRunner"
  | _ => ty
  end.

(** Line 524. *)
Definition deeplake_custom_imports : pyval :=
  VDict {[ "imports" := VList [VStr "deeplake.integrations.mmdet.mmdet_runners"];
           "allow_failed_imports" := VBool false ]}.

(* ===================================================================== *)
(** * [pre_eval] *)
(* ===================================================================== *)

(** An argument that is a list or a single value (lines 177-180). *)
Inductive one_or_list (A : Type) :=
| One (a : A)
| Many (l : list A).
Arguments One {A} a.
Arguments Many {A} l.

Definition as_list {A} (x : one_or_list A) : list A :=
  match x with
  | One a => [a]
  | Many l => l
  end.

(** [l[i]] on a Python list: a negative index counts from the end. *)
Definition list_getitem {A} (l : list A) (i : Z) : result A :=
  let n := Z.of_nat (List.length l) in
  let j := if i <? 0 then i + n else i in
  if (0 <=? j) && (j <? n) then
    match l !! Z.to_nat j with
    | Some x => Ok x
    | None => Raise (IndexError "list index out of range")
    end
  else Raise (IndexError "list index out of range").

Section PreEval.

(** Predictions, masks and what [intersect_and_union] returns; that
    function and [upcast_array] are imported.  The dataset is one built
    in ['val'] or ['test'] mode, where [masks_data] is set. *)
Context {Mask Pred Areas : Type}.
Variable upcast_array : Mask → Mask.
Variable intersect_and_union : Pred → Mask → nat → Z → bool → result Areas.

(** Lines 159-161. *)
Definition get_gt_seg_map_by_idx (self : @MMSegDataset Mask) (index : Z)
  : result Mask :=
  match list_getitem (masks_data self) index with
  | Ok m => Ok (upcast_array m)
  | Raise e => Raise e
  end.

(** Lines 184-200: one iteration appends to [pre_eval_results]. *)
Fixpoint pre_eval_loop (self : @MMSegDataset Mask) (pairs : list (Pred * Z))
  : result (list Areas) :=
  match pairs with
  | [] => Ok []
  | (pred, index) :: rest =>
      match get_gt_seg_map_by_idx self index with
      | Raise e => Raise e
      | Ok seg_map =>
          match CLASSES self with
          | None => Raise (TypeError "object of type 'NoneType' has no len()")
          | Some classes =>
              match intersect_and_union pred seg_map (List.length classes)
                      (ignore_index self) (reduce_zero_label self) with
              | Raise e => Raise e
              | Ok areas =>
                  match pre_eval_loop self rest with
                  | Raise e => Raise e
                  | Ok results => Ok (areas :: results)
                  end
              end
          end
      end
  end.

(** Lines 163-202. *)
Definition pre_eval (self : @MMSegDataset Mask) (preds : one_or_list Pred)
    (indices : one_or_list Z) : result (list Areas) :=
  pre_eval_loop self (zip (as_list preds) (as_list indices)).

End PreEval.

(** A dataset wrapper with two masks in memory. *)
Definition sample_val_self : @MMSegDataset (ndarray Z) :=
  {| num_gpus := 1;
     ignore_index := 255;
     reduce_zero_label := false;
     CLASSES := Some ["bg"; "cat"];
     masks_data := [NDArray [1; 2]%nat [0; 1]; NDArray [1; 2]%nat [1; 1]];
     self_len := 2 |}.

(** A stand-in for [intersect_and_union]: the prediction, the first label
    of the mask and the number of classes. *)
Definition sample_areas (pred : Z) (seg_map : ndarray Z) (num_classes : nat)
    (ignore_index : Z) (reduce_zero_label : bool) : result (Z * Z * nat) :=
  Ok (pred, default 0 (head (data seg_map)), num_classes).


(* ===================================================================== *)
(** * Facts about strided slices and the reordering *)
(* ===================================================================== *)

Section SliceFacts.

Context {A : Type}.
Implicit Types l : list A.

(** Element [k] of [l[skip::step]] is element [skip + k * step] of [l]. *)
Lemma slice_step_lookup l : ∀ skip step k,
  (0 < step)%nat →
  slice_step skip step l !! k = l !! (skip + k * step)%nat.
Proof.
  induction l as [|x t IH]; intros skip step k Hstep.
  - simpl. by rewrite !lookup_nil.
  - destruct skip as [|s]; simpl.
    + destruct k as [|k]; simpl; [done|].
      rewrite IH by done.
      replace (step + k * step)%nat with (S (Nat.pred step + k * step)) by lia.
      done.
    + by rewrite IH.
Qed.

Lemma hits_shift step m :
  (0 < step)%nat → hits (Nat.pred step) step m = hits 0 step (S m).
Proof.
  intros Hstep. unfold hits.
  replace (0 <=? S m)%nat with true by (symmetry; apply Nat.leb_le; lia).
  rewrite Nat.sub_0_r.
  destruct (Nat.leb_spec (Nat.pred step) m) as [Hle|Hlt]; cbn [andb].
  - replace (S m) with ((m - Nat.pred step) + 1 * step)%nat at 1 by lia.
    by rewrite Nat.Div0.mod_add.
  - symmetry. apply Nat.eqb_neq.
    rewrite Nat.mod_small by lia. lia.
Qed.

Lemma hits_succ skip step m : hits (S skip) step (S m) = hits skip step m.
Proof. reflexivity. Qed.

Lemma slice_step_snoc l x : ∀ skip step,
  (0 < step)%nat →
  slice_step skip step (l ++ [x]) =
  slice_step skip step l ++ (if hits skip step (List.length l) then [x] else []).
Proof.
  induction l as [|y t IH]; intros skip step Hstep.
  - destruct skip; [|done].
    cbn. unfold hits. cbn [Nat.leb andb Nat.sub List.length].
    by rewrite Nat.Div0.mod_0_l.
  - destruct skip as [|s]; cbn [slice_step app List.length].
    + rewrite IH by done. by rewrite hits_shift.
    + rewrite IH by done. by rewrite hits_succ.
Qed.

Lemma hits_residue i step m :
  (i < step)%nat → hits i step m = bool_decide (m mod step = i)%nat.
Proof.
  intros Hi. unfold hits.
  destruct (Nat.leb_spec i m) as [Hle|Hlt]; cbn [andb].
  - destruct (decide (m mod step = i)%nat) as [Hm|Hm].
    + rewrite bool_decide_eq_true_2 by done. apply Nat.eqb_eq.
      rewrite (Nat.div_mod_eq m step) at 1. rewrite Hm.
      replace (step * (m / step) + i - i)%nat with ((m / step) * step)%nat by lia.
      apply Nat.Div0.mod_mul.
    + rewrite bool_decide_eq_false_2 by done. apply Nat.eqb_neq.
      intros H0. apply Hm.
      apply Nat.Div0.div_exact in H0.
      replace m with (i + ((m - i) / step) * step)%nat at 1 by lia.
      rewrite Nat.Div0.mod_add. by apply Nat.mod_small.
  - symmetry. apply bool_decide_eq_false.
    rewrite Nat.mod_small by lia. lia.
Qed.

(** The slices taken in turn, as one list. *)
Lemma foldl_slices l step : ∀ (starts : list nat) acc,
  foldl (λ acc i, acc ++ slice_step i step l) acc starts =
  acc ++ List.concat (map (λ i, slice_step i step l) starts).
Proof.
  induction starts as [|i starts IH]; intros acc; simpl.
  - by rewrite app_nil_r.
  - rewrite IH. by rewrite app_assoc.
Qed.

(** Among the residues below [step], exactly one receives position [m]. *)
Lemma concat_hits_one (x : A) step m : ∀ lo n,
  (lo ≤ m mod step < lo + n)%nat ∨ ¬ (lo ≤ m mod step < lo + n)%nat →
  List.concat (map (λ i, if bool_decide (m mod step = i)%nat then [x] else [])
              (seq lo n)) =
  if bool_decide (lo ≤ m mod step < lo + n)%nat then [x] else [].
Proof.
  intros lo n _. revert lo.
  induction n as [|n IH]; intros lo; simpl.
  - rewrite bool_decide_eq_false_2 by lia. done.
  - rewrite IH. repeat case_bool_decide; simpl; try done; lia.
Qed.

Lemma slices_snoc l x step :
  (0 < step)%nat →
  List.concat (map (λ i, slice_step i step (l ++ [x])) (seq 0 step)) ≡ₚ
  List.concat (map (λ i, slice_step i step l) (seq 0 step)) ++ [x].
Proof.
  intros Hstep.
  transitivity
    (List.concat (map (λ i, slice_step i step l) (seq 0 step)) ++
     List.concat (map (λ i, if bool_decide (List.length l mod step = i)%nat
                       then [x] else []) (seq 0 step))).
  - assert (Hgen : ∀ starts, Forall (λ i, i < step)%nat starts →
      List.concat (map (λ i, slice_step i step (l ++ [x])) starts) ≡ₚ
      List.concat (map (λ i, slice_step i step l) starts) ++
      List.concat (map (λ i, if bool_decide (List.length l mod step = i)%nat
                        then [x] else []) starts)).
    { induction 1 as [|i starts Hi _ IH]; simpl; [done|].
      rewrite slice_step_snoc by done. rewrite hits_residue by done.
      rewrite IH. rewrite <- !app_assoc. f_equiv.
      rewrite !app_assoc. f_equiv. apply Permutation_app_comm. }
    apply Hgen. apply Forall_forall. intros i Hi.
    apply elem_of_seq in Hi. lia.
  - f_equiv. rewrite concat_hits_one by lia.
    rewrite bool_decide_eq_true_2; [done|].
    pose proof (Nat.mod_upper_bound (List.length l) step). lia.
Qed.

Lemma slices_permutation l step :
  (0 < step)%nat →
  List.concat (map (λ i, slice_step i step l) (seq 0 step)) ≡ₚ l.
Proof.
  intros Hstep. induction l as [|x l IH] using rev_ind.
  - assert (Hnil : ∀ starts : list nat,
              List.concat (map (λ i, slice_step i step (@nil A)) starts) = []).
    { induction starts; simpl; done. }
    by rewrite Hnil.
  - rewrite slices_snoc by done. by rewrite IH.
Qed.

Lemma results_ordered_unfold (n : Z) l :
  results_ordered n l =
  if 1 <? n
  then List.concat (map (λ i, slice_step i (Z.to_nat n) l) (seq 0 (Z.to_nat n)))
  else l.
Proof.
  unfold results_ordered. destruct (1 <? n); [|done].
  by rewrite foldl_slices.
Qed.

Lemma results_ordered_perm (n : Z) l : results_ordered n l ≡ₚ l.
Proof.
  rewrite results_ordered_unfold.
  destruct (Z.ltb_spec 1 n); [|done].
  apply slices_permutation. lia.
Qed.

End SliceFacts.

Section StridedFacts.

Context {A : Type}.
Implicit Types l : list A.

Lemma omap_seq_lookup {B} (f : nat → option B) : ∀ m a k,
  (∀ j, f j = None → f (S j) = None) →
  (∀ j, (a + m ≤ j)%nat → f j = None) →
  omap f (seq a m) !! k = f (a + k)%nat.
Proof.
  induction m as [|m IH]; intros a k Hclosed Hend.
  - cbn. symmetry. apply Hend. lia.
  - cbn [seq]. cbn. destruct (f a) as [y|] eqn:Hfa.
    + destruct k as [|k]; cbn.
      * by rewrite Nat.add_0_r.
      * rewrite IH; [f_equal; lia|done|]. intros j Hj. apply Hend. lia.
    + assert (Hnone : ∀ j, f (a + j)%nat = None).
      { induction j as [|j IHj]; [by rewrite Nat.add_0_r|].
        replace (a + S j)%nat with (S (a + j)) by lia. by apply Hclosed. }
      rewrite IH; [|done|intros j Hj; apply Hend; lia].
      replace (S a + k)%nat with (a + S k)%nat by lia.
      by rewrite !Hnone.
Qed.

(** Element [k] of the slice that starts at [i] is element [i + k * n]
    of the list. *)
Lemma strided_slice_spec_lookup l (i n k : nat) :
  (0 < n)%nat →
  strided_slice_spec i n l !! k = l !! (i + k * n)%nat.
Proof.
  intros Hn. unfold strided_slice_spec.
  rewrite omap_seq_lookup; [done| |].
  - intros j Hj. apply lookup_ge_None in Hj. apply lookup_ge_None. lia.
  - intros j Hj. apply lookup_ge_None. nia.
Qed.

(** The slice the code takes is the slice of the claim. *)
Lemma slice_step_strided l (i n : nat) :
  (0 < n)%nat → slice_step i n l = strided_slice_spec i n l.
Proof.
  intros Hn. apply list_eq. intros k.
  by rewrite slice_step_lookup, strided_slice_spec_lookup.
Qed.

Lemma results_ordered_reordered_spec (n : Z) l :
  1 < n → results_ordered n l = reordered_spec (Z.to_nat n) l.
Proof.
  intros Hn. rewrite results_ordered_unfold.
  destruct (Z.ltb_spec 1 n); [|lia].
  unfold reordered_spec. f_equal. apply map_ext. intros i.
  apply slice_step_strided. lia.
Qed.

End StridedFacts.

(* ===================================================================== *)
(** * Facts about keys and dictionary updates *)
(* ===================================================================== *)

Lemma has_dot_app s t : has_dot (s +:+ t) = has_dot s || has_dot t.
Proof.
  induction s as [|c s IH]; simpl; [done|].
  rewrite IH. by rewrite orb_assoc.
Qed.

Lemma summary_key_no_dot key : has_dot key = false → has_dot (summary_key key) = false.
Proof.
  intros Hk. unfold summary_key. case_decide; [done|].
  rewrite has_dot_app. by rewrite Hk.
Qed.

Lemma class_key_has_dot key name : has_dot (class_key key name) = true.
Proof.
  unfold class_key. rewrite !has_dot_app. simpl. by rewrite orb_true_r.
Qed.

Lemma summary_key_inj k1 k2 : summary_key k1 = summary_key k2 → k1 = k2.
Proof.
  unfold summary_key. intros Heq.
  repeat case_decide; subst; simpl in Heq; try done.
  cbn in Heq. by injection Heq.
Qed.

(** A key without a dot is determined by a per-class key built from it. *)
Lemma class_key_inj k1 k2 n1 n2 :
  has_dot k1 = false → has_dot k2 = false →
  class_key k1 n1 = class_key k2 n2 → k1 = k2 ∧ n1 = n2.
Proof.
  unfold class_key. revert k2.
  induction k1 as [|c k1 IH]; intros [|c2 k2] H1 H2 Heq; cbn in H1, H2, Heq.
  - by simplify_eq.
  - injection Heq as <- _. apply orb_false_elim in H2 as [H2 _].
    by apply bool_decide_eq_false in H2.
  - injection Heq as -> _. apply orb_false_elim in H1 as [H1 _].
    by apply bool_decide_eq_false in H1.
  - injection Heq as -> Heq.
    apply orb_false_elim in H1 as [_ H1]. apply orb_false_elim in H2 as [_ H2].
    by destruct (IH k2 H1 H2 Heq) as [-> ->].
Qed.

Section UpdateFacts.

Context {V : Type}.
Implicit Types (d : gmap string V) (entries : list (string * V)).

Lemma update_app d e1 e2 : update (update d e1) e2 = update d (e1 ++ e2).
Proof. unfold update. by rewrite foldl_app. Qed.

Lemma update_lookup_notin entries : ∀ d k,
  k ∉ entries.*1 → update d entries !! k = d !! k.
Proof.
  induction entries as [|[k' v'] entries IH]; intros d k Hk; [done|].
  simpl in *. apply not_elem_of_cons in Hk as [Hne Hk].
  unfold update in *. simpl. rewrite IH by done.
  by rewrite lookup_insert_ne.
Qed.

(** The last entry written under a key is the one read back. *)
Lemma update_lookup_last d e1 e2 k v :
  k ∉ e2.*1 → update d (e1 ++ (k, v) :: e2) !! k = Some v.
Proof.
  intros Hk. rewrite <- update_app.
  change (update (update d e1) ((k, v) :: e2))
    with (update (<[k := v]> (update d e1)) e2).
  rewrite update_lookup_notin by done.
  apply lookup_insert_eq.
Qed.

End UpdateFacts.
Section EvaluateFacts.

Context {F : Type}.
Variable nanmean : list F → F.
Variable fmul fdiv : F → F → F.
Variable hundred : F.
Variable around : F → Z → F.
Context {Arr Pre Mask : Type}.
Variable upcast_array : Mask → Mask.
Variable eval_metrics :
  list (@result_item Arr Pre) → list (result Mask) → nat → Z → list string → bool →
  result (list (string * @mvalue F)).
Variable pre_eval_to_metrics :
  list (@result_item Arr Pre) → list string → result (list (string * @mvalue F)).

Abbreviation evaluate' :=
  (evaluate nanmean fmul fdiv hundred around upcast_array eval_metrics
            pre_eval_to_metrics).
(** C8. [evaluate] first reorders the results of a multi-GPU run.  For
    [num_gpus > 1] the list it works on is the concatenation of the
    slices [results[0::num_gpus]], ..., [results[num_gpus-1::num_gpus]],
    where element [k] of the slice that starts at [i] is
    [results[i + k * num_gpus]]; for [num_gpus] at most 1 the list is
    left as it is; the reordered list is a permutation of the input of
    the same length; and everything [evaluate] computes, it computes from
    the reordered list, as a single-GPU evaluation would. *)
Theorem evaluate_reorders_results (self : @MMSegDataset Mask)
    (results : list (@result_item Arr Pre)) (metric : metric_arg)
    (gt_seg_maps : option (list (result Mask))) :
  let n := num_gpus self in
  (1 < n → results_ordered n results = reordered_spec (Z.to_nat n) results)
  ∧ (1 < n → ∀ i k,
       strided_slice_spec i (Z.to_nat n) results !! k
       = results !! (i + k * Z.to_nat n)%nat)
  ∧ (n ≤ 1 → results_ordered n results = results)
  ∧ results_ordered n results ≡ₚ results
  ∧ List.length (results_ordered n results) = List.length results
  ∧ results_ordered 1 results = results
  ∧ evaluate' self results metric gt_seg_maps =
    evaluate' (with_num_gpus 1 self) (results_ordered n results) metric gt_seg_maps.
Proof.
  intros n. split_and!.
  - apply results_ordered_reordered_spec.
  - intros Hn i k. apply strided_slice_spec_lookup. lia.
  - intros Hn. unfold results_ordered. by destruct (Z.ltb_spec 1 n); [lia|].
  - apply results_ordered_perm.
  - apply Permutation_length, results_ordered_perm.
  - reflexivity.
  - reflexivity.
Qed.
Abbreviation compute_metrics' :=
  (compute_metrics upcast_array eval_metrics pre_eval_to_metrics).

(** Running [evaluate] past the check of the metric names. *)
Lemma evaluate_checked self results metric gt_seg_maps l :
  issubset (metric_names metric) allowed_metrics = true →
  ∀ r l', evaluate' self results metric gt_seg_maps l = (r, l') →
  match compute_metrics' self (results_ordered (num_gpus self) results)
          (metric_names metric) gt_seg_maps l with
  | (Raise e, l1) => r = Raise e ∧ l' = l1
  | (Ok (ret_metrics, num_classes), l1) =>
      match CLASSES self, num_classes with
      | None, None => ∃ msg, r = Raise (UnboundLocalError msg)
      | None, Some n =>
          r = update_classes fdiv hundred
                (update ∅ (map (λ kv, (summary_key kv.1, fdiv kv.2 hundred))
                   (map (λ kv, (kv.1, around (fmul (mvalue_nanmean nanmean kv.2) hundred) 2))
                        ret_metrics)))
                (remove_key "Class"
                   (map (λ kv, (kv.1, mvalue_map (λ x, around (fmul x hundred) 2) kv.2))
                        (remove_key "aAcc" ret_metrics)))
                (map (λ i : nat, pretty i) (seq 0 n))
      | Some class_names, _ =>
          r = update_classes fdiv hundred
                (update ∅ (map (λ kv, (summary_key kv.1, fdiv kv.2 hundred))
                   (map (λ kv, (kv.1, around (fmul (mvalue_nanmean nanmean kv.2) hundred) 2))
                        ret_metrics)))
                (remove_key "Class"
                   (map (λ kv, (kv.1, mvalue_map (λ x, around (fmul x hundred) 2) kv.2))
                        (remove_key "aAcc" ret_metrics)))
                class_names
      end
  end.
Proof.
  intros Hsub r l' Hrun.
  unfold evaluate in Hrun.
  change (match metric with MetricStr s => [s] | MetricList l0 => l0 end)
    with (metric_names metric) in Hrun.
  rewrite Hsub in Hrun. cbn [negb] in Hrun.
  unfold Eff.bind at 1 in Hrun.
  destruct (compute_metrics' _ _ _ _ l) as [[[ret_metrics num_classes]|e] l1];
    [|by simplify_eq].
  unfold Eff.bind, Eff.ret, Eff.raise, Eff.lift, log, Eff.modify in Hrun.
  destruct (CLASSES self) as [class_names|]; [by simplify_eq|].
  destruct num_classes as [n|]; simplify_eq; eauto.
Qed.

Lemma issubset_true names allowed :
  issubset names allowed = true ↔ ∀ m, m ∈ names → m ∈ allowed.
Proof.
  unfold issubset. rewrite forallb_forall. split.
  - intros H m Hm. apply list_elem_of_In in Hm.
    specialize (H m Hm). by apply bool_decide_eq_true in H.
  - intros H m Hm. apply bool_decide_eq_true_2, H. by apply list_elem_of_In.
Qed.

Lemma issubset_false names allowed :
  (∃ m, m ∈ names ∧ m ∉ allowed) → issubset names allowed = false.
Proof.
  intros (m & Hm & Hnot). apply not_true_is_false. intros Hsub.
  apply Hnot. by apply (proj1 (issubset_true _ _) Hsub).
Qed.

(** The only exceptions raised while the per-class entries are written
    are index errors. *)
Lemma class_entries_raise key value class_names e :
  class_entries fdiv hundred key value class_names = Raise e →
  ∃ msg, e = IndexError msg.
Proof.
  unfold class_entries.
  generalize (imap (λ (idx : nat) (name : string), (idx, name)) class_names).
  intros pairs. induction pairs as [|[idx name] pairs IH]; simpl; [done|].
  destruct value as [x|xs]; simpl.
  - intros [= <-]. eauto.
  - destruct (xs !! idx); simpl.
    + destruct (foldr _ _ pairs); [done|]. intros [= <-]. by apply IH.
    + intros [= <-]. eauto.
Qed.

Lemma update_classes_raise ret_metrics_class : ∀ eval_results class_names e,
  update_classes fdiv hundred eval_results ret_metrics_class class_names = Raise e →
  ∃ msg, e = IndexError msg.
Proof.
  induction ret_metrics_class as [|[key value] rest IH]; intros er names e; simpl;
    [done|].
  destruct (class_entries _ _ _ _ _) eqn:Hentries.
  - apply IH.
  - intros [= <-]. by eapply class_entries_raise.
Qed.

(** What [compute_metrics] returns is what the imported metric function
    returned. *)
Lemma compute_metrics_source self results names gt_seg_maps l r l1 :
  compute_metrics' self results names gt_seg_maps l = (r, l1) →
  (∃ msg, r = Raise (TypeError msg))
  ∨ (∃ g n, CLASSES self = Some g.2 ∧ n = List.length g.2 ∧
       match eval_metrics results g.1 n (ignore_index self) names
               (reduce_zero_label self) with
       | Ok ret_metrics => r = Ok (ret_metrics, Some n)
       | Raise e => r = Raise e
       end)
  ∨ match pre_eval_to_metrics results names with
    | Ok ret_metrics => r = Ok (ret_metrics, None)
    | Raise e => r = Raise e
    end.
Proof.
  unfold compute_metrics. intros Hrun.
  destruct (_ || _).
  - unfold Eff.bind, Eff.ret, Eff.raise, Eff.lift, log, Eff.modify in Hrun.
    destruct (CLASSES self) as [c|] eqn:Hc; [|left; simplify_eq; eauto].
    right; left.
    exists (match gt_seg_maps with
            | Some g => g
            | None => get_gt_seg_maps upcast_array self
            end, c), (List.length c).
    split_and!; [done..|]. cbn [fst snd].
    destruct (eval_metrics _ _ _ _ _ _); by simplify_eq.
  - right; right.
    unfold Eff.bind, Eff.ret, Eff.raise, Eff.lift, log, Eff.modify in Hrun.
    destruct (pre_eval_to_metrics _ _); by simplify_eq.
Qed.

(** C3. A metric argument (a string or a list of strings) naming anything
    outside ['mIoU'], ['mDice'], ['mFscore'] makes [evaluate] raise
    [KeyError] at once: the log of the run is untouched, so no metric
    function has been called.  When every name is supported, this error is
    not raised: a [KeyError] can then only be one that the imported metric
    function itself raised. *)
Theorem evaluate_unsupported_metric (self : @MMSegDataset Mask)
    (results : list (@result_item Arr Pre)) (metric : metric_arg)
    (gt_seg_maps : option (list (result Mask))) (l : list event) :
  let names := metric_names metric in
  let ordered := results_ordered (num_gpus self) results in
  ((∃ m, m ∈ names ∧ m ∉ allowed_metrics) →
   evaluate' self results metric gt_seg_maps l =
     (Raise (KeyError (unsupported_metric_message names)), l))
  ∧ ((∀ m, m ∈ names → m ∈ allowed_metrics) →
     ∀ msg, (evaluate' self results metric gt_seg_maps l).1 = Raise (KeyError msg) →
       (∃ g n, eval_metrics ordered g n (ignore_index self) names
                 (reduce_zero_label self) = Raise (KeyError msg))
       ∨ pre_eval_to_metrics ordered names = Raise (KeyError msg)).
Proof.
  intros names ordered. split.
  - intros Hbad. apply issubset_false in Hbad.
    unfold evaluate.
    change (match metric with MetricStr s => [s] | MetricList l0 => l0 end)
      with names.
    by rewrite Hbad.
  - intros Hall msg Hres.
    apply issubset_true in Hall.
    destruct (evaluate' self results metric gt_seg_maps l) as [r l'] eqn:Hrun.
    simpl in Hres. subst r.
    pose proof (evaluate_checked _ _ _ _ _ Hall _ _ Hrun) as Hc.
    fold names ordered in Hc.
    destruct (compute_metrics' self ordered names gt_seg_maps l)
      as [[[ret_metrics num_classes]|e] l1] eqn:Hcm.
    + exfalso.
      destruct (CLASSES self) as [c|], num_classes as [n|].
      * symmetry in Hc. by apply update_classes_raise in Hc as [? ?].
      * symmetry in Hc. by apply update_classes_raise in Hc as [? ?].
      * symmetry in Hc. by apply update_classes_raise in Hc as [? ?].
      * by destruct Hc as [? ?].
    + destruct Hc as [[= <-] _].
      apply compute_metrics_source in Hcm as [[? ?]|[(g & n & _ & _ & Hg)|Hp]];
        [simplify_eq| |].
      * left. exists g.1, n.
        destruct (eval_metrics _ _ _ _ _ _); by simplify_eq.
      * right. destruct (pre_eval_to_metrics _ _); by simplify_eq.
Qed.

Lemma mvalue_index_map (f : F → F) value idx y :
  mvalue_index (mvalue_map f value) idx = Ok y →
  ∃ x, mvalue_index value idx = Ok x ∧ y = f x.
Proof.
  destruct value as [x|xs]; simpl; [done|].
  rewrite list_lookup_fmap.
  destruct (xs !! idx) as [x|]; simpl; [|done].
  intros [= <-]. eauto.
Qed.

(** The entries written for one metric, in the order of the classes. *)
Lemma class_entries_gen key value : ∀ (names : list string) (g : nat → nat) entries,
  foldr (λ '(idx, name) rest,
           match mvalue_index value idx, rest with
           | Ok x, Ok entries => Ok ((class_key key name, fdiv x hundred) :: entries)
           | Raise e, _ => Raise e
           | _, Raise e => Raise e
           end)
        (Ok []) (imap (λ idx name, (g idx, name)) names) = Ok entries →
  entries.*1 = map (class_key key) names ∧
  ∀ idx name, names !! idx = Some name →
    ∃ x, mvalue_index value (g idx) = Ok x ∧
         entries !! idx = Some (class_key key name, fdiv x hundred).
Proof.
  induction names as [|name0 names IH]; intros g entries; simpl.
  - intros [= <-]. split; [done|]. intros idx name. by rewrite lookup_nil.
  - destruct (mvalue_index value (g 0%nat)) as [x0|] eqn:Hx0; [|done].
    destruct (foldr _ _ _) as [rest|] eqn:Hrest; [|done].
    intros [= <-].
    apply (IH (g ∘ S)) in Hrest as [Hkeys Hitems].
    split; [by rewrite fmap_cons, Hkeys|].
    intros [|idx] name Hname; simpl in *.
    + simplify_eq. eauto.
    + by apply Hitems.
Qed.

Lemma class_entries_spec key value class_names entries :
  class_entries fdiv hundred key value class_names = Ok entries →
  entries.*1 = map (class_key key) class_names ∧
  ∀ idx name, class_names !! idx = Some name →
    ∃ x, mvalue_index value idx = Ok x ∧
         entries !! idx = Some (class_key key name, fdiv x hundred).
Proof. apply (class_entries_gen key value class_names id). Qed.

Lemma update_classes_spec class_names ret_metrics_class :
  ∀ eval_results res,
  update_classes fdiv hundred eval_results ret_metrics_class class_names = Ok res →
  ∃ written,
    Forall2 (λ kv entries,
               class_entries fdiv hundred kv.1 kv.2 class_names = Ok entries)
            ret_metrics_class written
    ∧ res = update eval_results (List.concat written).
Proof.
  induction ret_metrics_class as [|[key value] rest IH]; intros er res; simpl.
  - intros [= <-]. exists []. by split.
  - destruct (class_entries _ _ _ _ _) as [entries|] eqn:Hentries; [|done].
    intros Hrest. apply IH in Hrest as (written & Hall & ->).
    exists (entries :: written). split; [by constructor|].
    simpl. by rewrite update_app.
Qed.

Lemma elem_of_split_last_key {V} (l : list (string * V)) k v :
  NoDup l.*1 → (k, v) ∈ l → ∃ l1 l2, l = l1 ++ (k, v) :: l2 ∧ k ∉ l2.*1.
Proof.
  intros Hnd Hin. apply list_elem_of_split in Hin as (l1 & l2 & ->).
  exists l1, l2. split; [done|].
  rewrite fmap_app, fmap_cons in Hnd.
  apply NoDup_app in Hnd as (_ & _ & Hnd). simpl in Hnd.
  by apply NoDup_cons in Hnd as [? _].
Qed.

Lemma remove_key_elem {V} key (d : list (string * V)) k v :
  (k, v) ∈ remove_key key d ↔ (k, v) ∈ d ∧ k ≠ key.
Proof. unfold remove_key. rewrite list_elem_of_filter. simpl. tauto. Qed.

Lemma remove_key_keys {V} key (d : list (string * V)) :
  (remove_key key d).*1 = filter (λ k, k ≠ key) d.*1.
Proof.
  unfold remove_key. induction d as [|[k v] d IH]; [done|].
  rewrite fmap_cons. cbn [fst]. rewrite !filter_cons. cbn [fst].
  destruct (decide (k ≠ key)); [|exact IH].
  rewrite fmap_cons. cbn [fst]. by rewrite IH.
Qed.

Lemma remove_key_NoDup {V} key (d : list (string * V)) :
  NoDup d.*1 → NoDup (remove_key key d).*1.
Proof. rewrite remove_key_keys. apply NoDup_filter. Qed.

(** Keys of the per-class entries of a run of metrics. *)
Lemma written_keys class_names ret_metrics_class written ck :
  Forall2 (λ kv entries,
             class_entries fdiv hundred kv.1 kv.2 class_names = Ok entries)
          ret_metrics_class written →
  ck ∈ (List.concat written).*1 →
  ∃ key name, key ∈ ret_metrics_class.*1 ∧ ck = class_key key name.
Proof.
  induction 1 as [|[key value] entries rest written Hent _ IH]; simpl.
  - by intros ?%elem_of_nil.
  - rewrite fmap_app, elem_of_app. intros [Hin|Hin].
    + apply class_entries_spec in Hent as [Hkeys _]. simpl in Hkeys.
      rewrite Hkeys in Hin. apply list_elem_of_fmap in Hin as (name & -> & _).
      exists key, name. split; [left|done].
    + destruct (IH Hin) as (key' & name & Hk & ->).
      exists key', name. split; [by right|done].
Qed.

(** C4. In the dictionary returned by a successful [evaluate], the
    summary entry of each metric of the metrics table is the nan-mean of
    its values times 100, rounded to two decimals, divided by 100, under
    the key ['m' + name] (['aAcc'] keeps its name); and the entry
    ['name.classname'] of a per-class metric is that class's value times
    100, rounded to two decimals, divided by 100, where a class name that
    occurs more than once denotes its last occurrence.  The metrics table
    is the one the imported metric function returned: a dictionary (its
    keys are distinct) whose metric names contain no dot. *)
Theorem evaluate_entries (self : @MMSegDataset Mask)
    (results : list (@result_item Arr Pre)) (metric : metric_arg)
    (gt_seg_maps : option (list (result Mask))) (l l' l1 : list event)
    (res : gmap string F) (ret_metrics : list (string * @mvalue F))
    (num_classes : option nat) :
  evaluate' self results metric gt_seg_maps l = (Ok res, l') →
  compute_metrics' self (results_ordered (num_gpus self) results)
    (metric_names metric) gt_seg_maps l = (Ok (ret_metrics, num_classes), l1) →
  NoDup ret_metrics.*1 →
  (∀ key, key ∈ ret_metrics.*1 → has_dot key = false) →
  ∃ class_names,
    CLASSES self = Some class_names
    ∧ (∀ key value, (key, value) ∈ ret_metrics →
         res !! summary_key key =
         Some (fdiv (around (fmul (mvalue_nanmean nanmean value) hundred) 2) hundred))
    ∧ (∀ key value idx name,
         (key, value) ∈ ret_metrics → key ≠ "aAcc" → key ≠ "Class" →
         class_names !! idx = Some name →
         (∀ j, (idx < j)%nat → class_names !! j ≠ Some name) →
         ∃ x, mvalue_index value idx = Ok x ∧
              res !! class_key key name =
              Some (fdiv (around (fmul x hundred) 2) hundred))
    ∧ summary_key "aAcc" = "aAcc"
    ∧ (∀ key, key ≠ "aAcc" → summary_key key = "m" +:+ key).
Proof.
  intros Hrun Hcm Hnd Hdots.
  assert (Hsub : issubset (metric_names metric) allowed_metrics = true).
  { destruct (issubset _ _) eqn:Hsub; [done|].
    unfold evaluate in Hrun.
    change (match metric with MetricStr s => [s] | MetricList l0 => l0 end)
      with (metric_names metric) in Hrun.
    by rewrite Hsub in Hrun. }
  pose proof (evaluate_checked _ _ _ _ _ Hsub _ _ Hrun) as Hc.
  rewrite Hcm in Hc.
  assert (∃ class_names, CLASSES self = Some class_names) as [class_names Hcls].
  { destruct (CLASSES self) as [c|] eqn:Hcls; [eauto|].
    destruct num_classes as [n|]; [|by destruct Hc as [? ?]].
    apply compute_metrics_source in Hcm
      as [[? ?]|[(g & n' & Hg & _ & _)|Hp]]; [done|congruence|].
    destruct (pre_eval_to_metrics _ _); by simplify_eq. }
  rewrite Hcls in Hc. symmetry in Hc.
  apply update_classes_spec in Hc as (written & Hwritten & ->).
  rewrite update_app.
  set (round := λ x, around (fmul x hundred) 2) in *.
  set (per_class := remove_key "Class"
         (map (λ kv, (kv.1, mvalue_map round kv.2)) (remove_key "aAcc" ret_metrics)))
    in *.
  assert (Hpc_keys : ∀ key, key ∈ per_class.*1 → key ∈ ret_metrics.*1).
  { intros key. unfold per_class. rewrite remove_key_keys.
    rewrite list_elem_of_filter. intros [_ Hin].
    rewrite <- list_fmap_compose in Hin.
    apply list_elem_of_fmap in Hin as ([k v] & -> & Hin). simpl.
    apply remove_key_elem in Hin as [Hin _].
    apply list_elem_of_fmap. by exists (k, v). }
  exists class_names. split_and!; [done| | |done|].
  - (* summary entries *)
    intros key value Hin.
    destruct (elem_of_split_last_key _ _ _ Hnd Hin) as (m1 & m2 & -> & Hlast).
    rewrite !map_app. simpl. rewrite <- app_assoc. simpl.
    apply update_lookup_last.
    rewrite fmap_app, not_elem_of_app. split.
    + rewrite <- !list_fmap_compose. intros Hk.
      apply list_elem_of_fmap in Hk as ([k v] & Heq & Hk). simpl in Heq.
      apply summary_key_inj in Heq as <-.
      apply Hlast. apply list_elem_of_fmap. by exists (key, v).
    + intros Hk.
      destruct (written_keys _ _ _ _ Hwritten Hk) as (k' & name & _ & Heq).
      assert (has_dot (summary_key key) = true) as Hdot
        by (rewrite Heq; apply class_key_has_dot).
      rewrite summary_key_no_dot in Hdot; [done|].
      apply Hdots. apply list_elem_of_fmap. by exists (key, value).
  - (* per-class entries *)
    intros key value idx name Hin HaAcc HClass Hname Hlater.
    assert (Hin' : (key, mvalue_map round value) ∈ per_class).
    { unfold per_class. apply remove_key_elem. split; [|done].
      apply list_elem_of_fmap. exists (key, value). split; [done|].
      by apply remove_key_elem. }
    assert (Hnd' : NoDup per_class.*1).
    { unfold per_class. apply remove_key_NoDup.
      rewrite <- list_fmap_compose.
      erewrite list_fmap_ext; [by apply (remove_key_NoDup "aAcc")|].
      by intros ? [? ?] ?. }
    destruct (elem_of_split_last_key _ _ _ Hnd' Hin') as (p1 & p2 & Hsplit & Hp2).
    rewrite Hsplit in Hwritten.
    apply Forall2_app_inv_l in Hwritten as (w1 & w' & Hw1 & Hw' & ->).
    apply Forall2_cons_inv_l in Hw' as (entries & w2 & Hent & Hw2 & ->).
    simpl in Hent.
    apply class_entries_spec in Hent as [Hkeys Hitems].
    destruct (Hitems idx name Hname) as (y & Hy & Hentry).
    apply mvalue_index_map in Hy as (x & Hx & ->).
    exists x. split; [done|].
    rewrite <- (take_drop_middle _ _ _ Hentry).
    rewrite concat_app. simpl. rewrite <- !app_assoc. simpl.
    rewrite !app_assoc.
    apply update_lookup_last.
    rewrite fmap_app, not_elem_of_app. split.
    + rewrite fmap_drop, Hkeys. intros Hk.
      apply list_elem_of_lookup in Hk as [j Hj].
      rewrite lookup_drop, list_lookup_fmap in Hj.
      destruct (class_names !! (S idx + j)%nat) as [name'|] eqn:Hname'; [|done].
      simpl in Hj. injection Hj as Hj.
      apply class_key_inj in Hj as [_ ->].
      * by apply (Hlater (S idx + j)%nat); [lia|].
      * apply Hdots. apply list_elem_of_fmap. by exists (key, value).
      * apply Hdots. apply list_elem_of_fmap. by exists (key, value).
    + intros Hk.
      destruct (written_keys _ _ _ _ Hw2 Hk) as (k' & name' & Hk' & Heq).
      apply class_key_inj in Heq as [<- _].
      * done.
      * apply Hdots. apply list_elem_of_fmap. by exists (key, value).
      * apply Hdots, Hpc_keys. rewrite Hsplit, fmap_app, fmap_cons.
        apply elem_of_app. right. by right.
  - intros key Hkey. unfold summary_key. by rewrite decide_False.
Qed.

End EvaluateFacts.

(* ===================================================================== *)
(** * Facts about [transform] *)
(* ===================================================================== *)

Section GatherFacts.

Context {A : Type}.
Implicit Types l : list A.

Lemma gather_Forall2 (src : nat → nat) l : ∀ (indices : list nat),
  Forall (λ i, src i < List.length l)%nat indices →
  Forall2 (λ i y, l !! src i = Some y) indices (omap (λ i, l !! src i) indices).
Proof.
  induction 1 as [|i indices Hi _ IH]; simpl; [constructor|].
  apply lookup_lt_is_Some_2 in Hi as [y Hy].
  rewrite Hy. by constructor.
Qed.

(** Element [i] of a gathered list is element [src i] of the input. *)
Lemma gather_lookup (src : nat → nat) n l i :
  (∀ j, j < n → src j < List.length l)%nat →
  (i < n)%nat →
  gather src n l !! i = l !! src i.
Proof.
  intros Hsrc Hi.
  assert (Hall : Forall (λ i, src i < List.length l)%nat (seq 0 n)).
  { apply Forall_forall. intros j Hj. apply elem_of_seq in Hj. apply Hsrc. lia. }
  pose proof (gather_Forall2 src l _ Hall) as Hf.
  assert (Hseq : seq 0 n !! i = Some i) by (by apply lookup_seq_lt).
  destruct (Forall2_lookup_l _ _ _ _ _ Hf Hseq) as (y & Hy & Hsrcy).
  unfold gather. by rewrite Hy.
Qed.

Lemma gather_length (src : nat → nat) n l :
  (∀ j, j < n → src j < List.length l)%nat →
  List.length (gather src n l) = n.
Proof.
  intros Hsrc.
  assert (Hall : Forall (λ i, src i < List.length l)%nat (seq 0 n)).
  { apply Forall_forall. intros j Hj. apply elem_of_seq in Hj. apply Hsrc. lia. }
  pose proof (gather_Forall2 src l _ Hall) as Hf.
  apply Forall2_length in Hf. unfold gather. rewrite <- Hf. apply length_seq.
Qed.

End GatherFacts.

Lemma split_index (q c n : nat) :
  (c < n)%nat → ((q * n + c) / n = q ∧ (q * n + c) mod n = c)%nat.
Proof.
  intros Hc. split.
  - symmetry. apply (Nat.div_unique _ _ _ c); lia.
  - symmetry. apply (Nat.mod_unique _ _ q); lia.
Qed.

Lemma item_3d {A} (H W C : nat) (d : list A) (h w c : nat) :
  (h < H)%nat → (w < W)%nat → (c < C)%nat →
  item (NDArray [H; W; C] d) [h; w; c] = d !! ((h * W + w) * C + c)%nat.
Proof.
  intros Hh Hw Hc. unfold item. simpl.
  destruct (Nat.ltb_spec h H); [|lia].
  destruct (Nat.ltb_spec w W); [|lia].
  destruct (Nat.ltb_spec c C); [|lia].
  f_equal. lia.
Qed.

Lemma item_2d {A} (H W : nat) (d : list A) (h w : nat) :
  (h < H)%nat → (w < W)%nat →
  item (NDArray [H; W] d) [h; w] = d !! (h * W + w)%nat.
Proof.
  intros Hh Hw. unfold item. simpl.
  destruct (Nat.ltb_spec h H); [|lia].
  destruct (Nat.ltb_spec w W); [|lia].
  f_equal. lia.
Qed.

Lemma index_bound (H W C h w c : nat) :
  (h < H)%nat → (w < W)%nat → (c < C)%nat →
  ((h * W + w) * C + c < H * W * C)%nat.
Proof.
  intros Hh Hw Hc.
  assert (h * W + w + 1 ≤ H * W)%nat by nia.
  nia.
Qed.

Section ConvertFacts.

Context {Px : Type}.

Lemma flip_index_bound (C n j : nat) :
  (j < n * C)%nat → ((j / C) * C + (C - 1 - j mod C) < n * C)%nat.
Proof.
  intros Hj.
  assert (0 < C)%nat by (destruct C; lia).
  assert (j / C < n)%nat by (apply Nat.Div0.div_lt_upper_bound; lia).
  pose proof (Nat.mod_upper_bound j C). nia.
Qed.

(** [a[..., ::-1]] on a three-dimensional array. *)
Lemma flip_last_3d (H W C : nat) (d : list Px) :
  List.length d = (H * W * C)%nat →
  ∃ d', flip_last (NDArray [H; W; C] d) = Ok (NDArray [H; W; C] d')
        ∧ List.length d' = (H * W * C)%nat
        ∧ ∀ q c, (q < H * W)%nat → (c < C)%nat →
            d' !! (q * C + c)%nat = d !! (q * C + (C - 1 - c))%nat.
Proof.
  intros Hlen. eexists. split; [reflexivity|].
  assert (Hb : ∀ j, (j < List.length d)%nat →
             ((j / C) * C + (C - 1 - j mod C) < List.length d)%nat).
  { intros j Hj. rewrite Hlen in *. by apply flip_index_bound. }
  split.
  - cbn [data]. rewrite gather_length; [done|exact Hb].
  - intros q c Hq Hc. cbn [data].
    rewrite gather_lookup; [|exact Hb|rewrite Hlen; nia].
    destruct (split_index q c C Hc) as [-> ->]. done.
Qed.

(** [np.repeat(a, 3, axis=2)] on an array with a single channel. *)
Lemma repeat_single_channel (H W : nat) (d : list Px) :
  List.length d = (H * W)%nat →
  ∃ d', repeat_axis2 3 (NDArray [H; W; 1%nat] d) = Ok (NDArray [H; W; 3%nat] d')
        ∧ ∀ q c, (q < H * W)%nat → (c < 3)%nat →
            d' !! (q * 3 + c)%nat = d !! q.
Proof.
  intros Hlen. eexists. split; [reflexivity|].
  intros q c Hq Hc. cbn [data size_of foldr].
  assert (Hsrc : ∀ j,
    (((j / (1 * (3 * 1))) * 1 + ((j / 1) mod (3 * 1)) / 3) * 1 + j mod 1
     = j / 3)%nat).
  { intros j. rewrite Nat.div_1_r, Nat.mod_1_r.
    change (1 * (3 * 1))%nat with 3%nat. change (3 * 1)%nat with 3%nat.
    rewrite (Nat.div_small (j mod 3) 3) by (apply Nat.mod_upper_bound; lia).
    lia. }
  rewrite gather_lookup.
  - rewrite Hsrc. by destruct (split_index q c 3 Hc) as [-> _].
  - intros j Hj. rewrite Hsrc, Hlen.
    apply Nat.Div0.div_lt_upper_bound. lia.
  - change (3 * 1 * 1)%nat with 3%nat. nia.
Qed.

Lemma convert_image_2d (H W : nat) (d : list Px) :
  convert_image (NDArray [H; W] d) = convert_image (NDArray [H; W; 1%nat] d).
Proof. reflexivity. Qed.

(** Lines 336-342 on a three-dimensional image, element by element. *)
Lemma convert_image_3d (H W C : nat) (d : list Px) :
  List.length d = (H * W * C)%nat →
  ∃ d', convert_image (NDArray [H; W; C] d) =
          Ok (NDArray [H; W; output_channels C] d')
        ∧ ∀ h w c, (h < H)%nat → (w < W)%nat → (c < output_channels C)%nat →
            d' !! ((h * W + w) * output_channels C + c)%nat =
            d !! ((h * W + w) * C + source_channel C c)%nat.
Proof.
  intros Hlen.
  destruct (flip_last_3d H W C d Hlen) as (d1 & Hflip & Hlen1 & Hd1).
  unfold convert_image. cbn [ndim shape List.length Nat.eqb].
  rewrite Hflip. cbn [shape lookup list_lookup].
  unfold output_channels, source_channel.
  destruct (Nat.eqb_spec C 1) as [->|HC].
  - destruct (repeat_single_channel H W d1) as (d2 & Hrep & Hd2); [lia|].
    rewrite Hrep.
    exists d2. split; [done|].
    intros h w c Hh Hw Hc.
    rewrite Hd2 by nia.
    replace (h * W + w)%nat with ((h * W + w) * 1 + 0)%nat at 1 by lia.
    rewrite Hd1 by nia. f_equal; lia.
  - exists d1. split; [done|].
    intros h w c Hh Hw Hc. apply Hd1; [nia|done].
Qed.

End ConvertFacts.

Section TransformFacts.

Context {Px F32 Out : Type}.
Variable to_float32 : Px → F32.

(** C5. For a sample that stores a two- or three-dimensional image under
    [images_tensor] and a mask under [masks_tensor], [transform] hands the
    pipeline a dictionary whose ['img'] is the stored image with the
    channel axis reversed, a two-dimensional image being given a trailing
    channel axis first and a single channel being repeated three times,
    every element cast to [float32]; whose ['img_shape'] and
    ['ori_shape'] are the shape of that image; and whose
    ['gt_semantic_seg'] is the stored mask. *)
Theorem transform_pipeline_input (sample_in : gmap string (ndarray Px))
    (images_tensor masks_tensor : string)
    (pipeline : @pipeline_dict Px F32 → result Out)
    (image mask : ndarray Px) (H W chans : nat) :
  sample_in !! images_tensor = Some image →
  sample_in !! masks_tensor = Some mask →
  List.length (data image) = size_of (shape image) →
  (shape image = [H; W] ∧ chans = 1%nat) ∨ shape image = [H; W; chans] →
  ∃ d : @pipeline_dict Px F32,
    transform to_float32 sample_in images_tensor masks_tensor pipeline = pipeline d
    ∧ shape (img d) = [H; W; output_channels chans]
    ∧ (∀ h w c, (h < H)%nat → (w < W)%nat → (c < output_channels chans)%nat →
         ∃ p, stored_pixel image h w (source_channel chans c) = Some p
              ∧ item (img d) [h; w; c] = Some (to_float32 p))
    ∧ img_shape d = shape (img d)
    ∧ ori_shape d = shape (img d)
    ∧ gt_semantic_seg d = mask
    ∧ img_fields d = ["img"]
    ∧ seg_fields d = ["gt_semantic_seg"]
    ∧ filename d = None
    ∧ ori_filename d = None.
Proof.
  intros Himg Hmask Hlen Hshape.
  destruct image as [sh d0]. cbn [shape data] in *.
  assert (Hconv : ∃ d',
    convert_image (NDArray sh d0) = Ok (NDArray [H; W; output_channels chans] d')
    ∧ ∀ h w c, (h < H)%nat → (w < W)%nat → (c < output_channels chans)%nat →
        ∃ p, stored_pixel (NDArray sh d0) h w (source_channel chans c) = Some p
             ∧ d' !! ((h * W + w) * output_channels chans + c)%nat = Some p).
  { destruct Hshape as [[-> ->] | ->].
    - rewrite convert_image_2d.
      destruct (convert_image_3d H W 1 d0) as (d' & Hc & Hd').
      { rewrite Hlen. cbn. lia. }
      exists d'. split; [done|].
      intros h w c Hh Hw Hc'.
      assert (h * W + w < List.length d0)%nat as [p Hp]%lookup_lt_is_Some_2
        by (rewrite Hlen; cbn; nia).
      exists p. split.
      + unfold stored_pixel. cbn [shape]. by rewrite item_2d.
      + rewrite Hd' by done. rewrite <- Hp. f_equal.
        unfold source_channel. cbn. lia.
    - destruct (convert_image_3d H W chans d0) as (d' & Hc & Hd').
      { rewrite Hlen. cbn. lia. }
      exists d'. split; [done|].
      intros h w c Hh Hw Hc'.
      assert (Hsrc : (source_channel chans c < chans)%nat).
      { revert Hc'. unfold source_channel, output_channels.
        destruct (Nat.eqb_spec chans 1); intros; lia. }
      assert ((h * W + w) * chans + source_channel chans c < List.length d0)%nat
        as [p Hp]%lookup_lt_is_Some_2.
      { rewrite Hlen. cbn [size_of foldr].
        pose proof (index_bound H W chans h w _ Hh Hw Hsrc). lia. }
      exists p. split.
      + unfold stored_pixel. cbn [shape]. by rewrite item_3d.
      + by rewrite Hd'. }
  destruct Hconv as (d' & Hconv & Hd').
  eexists. split.
  { unfold transform. rewrite Himg, Hmask, Hconv. reflexivity. }
  cbn [img img_shape ori_shape gt_semantic_seg img_fields seg_fields
       filename ori_filename astype shape data].
  split_and!; try done.
  intros h w c Hh Hw Hc.
  destruct (Hd' h w c Hh Hw Hc) as (p & Hp & Hd).
  exists p. split; [done|].
  unfold astype. cbn [shape data].
  rewrite item_3d by done. rewrite list_lookup_fmap, Hd. done.
Qed.

End TransformFacts.

(* ===================================================================== *)
(** * Reasoning about runs *)
(* ===================================================================== *)

Section Obeys.

Context (R : relation (gmap nat dataset)) `{!PreOrder R}.
Context (P : event → Prop) (X : exn → Prop).

Lemma obeys_ret {A} (Q : A → Prop) a : Q a → obeys R P X Q (Eff.ret a).
Proof.
  intros Ha w r w' [= <- <-]. split_and!; [done| |done].
  exists []. by rewrite app_nil_r.
Qed.

Lemma obeys_raise {A} (Q : A → Prop) e : X e → obeys R P X Q (Eff.raise e).
Proof.
  intros He w r w' [= <- <-]. split_and!; [done| |done].
  exists []. by rewrite app_nil_r.
Qed.

Lemma obeys_lift {A} (Q : A → Prop) (r : result A) :
  match r with Ok a => Q a | Raise e => X e end → obeys R P X Q (Eff.lift r).
Proof.
  intros Hr w r' w' [= <- <-]. split_and!; [done| |done].
  exists []. by rewrite app_nil_r.
Qed.

Lemma obeys_bind {A B} (Q1 : A → Prop) (Q2 : B → Prop) m (f : A → Eff.M world B) :
  obeys R P X Q1 m →
  (∀ a, Q1 a → obeys R P X Q2 (f a)) →
  obeys R P X Q2 (Eff.bind m f).
Proof.
  intros Hm Hf w r w' Hrun. unfold Eff.bind in Hrun.
  destruct (m w) as [[a|e] w1] eqn:Hmw.
  - destruct (Hm _ _ _ Hmw) as (HR1 & (new1 & Hlog1 & HP1) & Ha).
    destruct (Hf a Ha _ _ _ Hrun) as (HR2 & (new2 & Hlog2 & HP2) & Hr).
    split_and!; [by etrans| |done].
    exists (new1 ++ new2). split; [|by apply Forall_app].
    by rewrite Hlog2, Hlog1, app_assoc.
  - simplify_eq. destruct (Hm _ _ _ Hmw) as (HR1 & Hlog & He).
    by split_and!.
Qed.

Lemma obeys_weaken {A} (Q Q' : A → Prop) m :
  obeys R P X Q m → (∀ a, Q a → Q' a) → obeys R P X Q' m.
Proof.
  intros Hm HQ w r w' Hrun.
  destruct (Hm _ _ _ Hrun) as (HR & Hlog & Hr).
  split_and!; [done..|]. destruct r; auto.
Qed.

Lemma obeys_wlog (Q : unit → Prop) ev : P ev → Q tt → obeys R P X Q (wlog ev).
Proof.
  intros Hev HQ w r w' [= <- <-]. split_and!; [done| |done].
  exists [ev]. split; [done|]. by constructor.
Qed.

Lemma obeys_ext E (Q : unit → Prop) name :
  P (EExt name) → env_within E X → Q tt → obeys R P X Q (ext E name).
Proof.
  intros Hev HE HQ w r w' Hrun. unfold ext in Hrun.
  destruct (ext_raises E name (w_log w)) as [e|] eqn:Hraise; simplify_eq.
  - split_and!; [done| |by eapply (proj1 HE)].
    exists [EExt name]. split; [done|]. by constructor.
  - split_and!; [done| |done].
    exists [EExt name]. split; [done|]. by constructor.
Qed.

Lemma obeys_construct_loader E (Q : unit → Prop) backend ds kwargs :
  P (ELoader backend ds kwargs) → env_within E X → Q tt →
  obeys R P X Q (construct_loader E backend ds kwargs).
Proof.
  intros Hev HE HQ w r w' Hrun. unfold construct_loader in Hrun.
  destruct (ext_raises E backend (w_log w)) as [e|] eqn:Hraise; simplify_eq.
  - split_and!; [done| |by eapply (proj1 HE)].
    eexists [_]. split; [done|]. by constructor.
  - split_and!; [done| |done].
    eexists [_]. split; [done|]. by constructor.
Qed.

Lemma obeys_deref (Q : dataset → Prop) ds :
  X (ExternalError "dangling reference") → (∀ d, Q d) → obeys R P X Q (deref ds).
Proof.
  intros HX HQ w r w' Hrun. unfold deref in Hrun.
  destruct (w_datasets w !! ds); simplify_eq.
  - split_and!; [done| |done]. exists []. by rewrite app_nil_r.
  - split_and!; [done| |done]. exists []. by rewrite app_nil_r.
Qed.

Lemma obeys_for_each {A} (body : A → Eff.M world unit) (l : list A) :
  (∀ x, obeys R P X (λ _, True) (body x)) →
  obeys R P X (λ _, True) (Eff.for_each l body).
Proof.
  intros Hbody. induction l as [|x l IH]; simpl.
  - by apply obeys_ret.
  - eapply obeys_bind; [apply Hbody|]. intros _ _. apply IH.
Qed.

End Obeys.

(** Running one step after another, with the relation on datasets left
    open. *)
Lemma obeys_any_datasets {A} P X (Q : A → Prop) R `{!PreOrder R} m :
  obeys R P X Q m → obeys (λ _ _, True) P X Q m.
Proof.
  intros Hm w r w' Hrun. destruct (Hm _ _ _ Hrun) as (_ & Hlog & Hr).
  by split_and!.
Qed.

#[local] Instance any_datasets_preorder : PreOrder (λ _ _ : gmap nat dataset, True).
Proof. by split. Qed.

Lemma obeys_set_CLASSES P X (Q : unit → Prop) ds classes :
  Q tt → obeys (λ _ _, True) P X Q (set_CLASSES ds classes).
Proof.
  intros HQ w r w' [= <- <-]. split_and!; [done| |done].
  exists []. by rewrite app_nil_r.
Qed.

Lemma obeys_alloc P X (Q : nat → Prop) d :
  (∀ r, Q r) → obeys (λ _ _, True) P X Q (alloc d).
Proof.
  intros HQ w r w' [= <- <-]. split_and!; [done| |done].
  exists []. by rewrite app_nil_r.
Qed.

(** The new events of a run, from the log it leaves. *)
Lemma new_events_app w w' new :
  w_log w' = w_log w ++ new → new_events w w' = new.
Proof. intros Hlog. unfold new_events. rewrite Hlog. by rewrite drop_app_length. Qed.

(** A pure step raises none of the exceptions a property singles out. *)
Lemma obeys_lift_pure R `{!PreOrder R} P X {A} (r : result A) :
  lenient P X →
  (∀ e, r = Raise e → not_NotImplementedError e) →
  obeys R P X (λ _, True) (Eff.lift r).
Proof.
  intros HL Hr. apply obeys_lift; [done|].
  destruct r as [a|e]; [done|]. apply (lenient_exn _ _ HL). by apply Hr.
Qed.

Ltac pure_exn :=
  let e := fresh "e" in
  let He := fresh "He" in
  let msg := fresh "msg" in
  intros e He msg ->;
  unfold val_dataloader_args, get_or_required, dataset_class_names,
    cfg_attr2 in He;
  unfold py_getitem, py_get, cfg_attr, cfg_set, py_setitem, py_contains,
    py_len, py_index, py_iter, py_mapping, py_lower, dataset_getitem in He;
  repeat (case_match; simplify_eq).

Ltac not_ni := unfold not_NotImplementedError; intros ?; discriminate.

Ltac obeys_step HL HE :=
  lazymatch goal with
  | |- obeys _ _ _ _ (Eff.bind _ _) =>
      eapply (obeys_bind _ _ _ (λ _, True)); [|intros ? _]
  | |- obeys _ _ _ _ (Eff.ret _) => apply obeys_ret; [apply _|done]
  | |- obeys _ _ _ _ (Eff.raise _) =>
      apply obeys_raise;
      [apply _|first [exact I|apply (lenient_exn _ _ HL); not_ni]]
  | |- obeys _ _ _ _ (Eff.lift _) =>
      apply obeys_lift_pure; [apply _|exact HL|pure_exn]
  | |- obeys _ _ _ _ (wlog (EPrint _)) =>
      apply obeys_wlog; [apply _|apply (lenient_print _ _ HL)|done]
  | |- obeys _ _ _ _ (wlog (ESetAttr _ _)) =>
      apply obeys_wlog; [apply _|apply (lenient_setattr _ _ HL)|done]
  | |- obeys _ _ _ _ (ext _ _) =>
      apply obeys_ext; [apply _|apply (lenient_ext _ _ HL)|exact HE|done]
  | |- obeys _ _ _ _ (deref _) =>
      apply obeys_deref;
      [apply _|first [exact I|apply (lenient_exn _ _ HL); not_ni]|done]
  | |- obeys _ _ _ _ (if ?b then _ else _) => destruct b eqn:?
  | |- obeys _ _ _ _ (match ?x with _ => _ end) => destruct x eqn:?
  end.

Section Phases.

Variable E : Env.
Context (P : event → Prop) (X : exn → Prop).
Hypothesis HL : lenient P X.
Hypothesis HE : env_within E X.

Section AnyRelation.

Context (R : relation (gmap nat dataset)) `{!PreOrder R}.

Lemma build_steps_obeys steps :
  obeys R P X (λ _, True) (build_steps E steps).
Proof.
  induction steps as [|step rest IH]; simpl.
  - by apply obeys_ret.
  - repeat obeys_step HL HE; apply IH.
Qed.

Lemma build_pipeline_obeys steps :
  obeys R P X (λ _, True) (build_pipeline E steps).
Proof.
  unfold build_pipeline.
  repeat first [apply build_steps_obeys | obeys_step HL HE].
Qed.

Lemma MMSegDataset_init_obeys ds tensors_dict mode num_gpus batch_size :
  obeys R P X (λ _, True)
    (MMSegDataset_init E ds tensors_dict mode num_gpus batch_size).
Proof. unfold MMSegDataset_init. repeat obeys_step HL HE. Qed.

End AnyRelation.

Lemma make_loader_obeys R `{!PreOrder R} ds images masks impl mode
    (cfg : gmap string pyval) classes persistent_workers dist :
  (∀ backend kwargs,
     kwargs !! "shuffle" = Some (default (VBool true) (cfg !! "shuffle")) →
     P (ELoader backend ds kwargs)) →
  P (EWarn persistent_workers_message) →
  obeys R P X (λ _, True)
    (make_loader E ds images masks impl mode cfg classes persistent_workers dist).
Proof.
  intros HLoad HWarn. unfold make_loader.
  repeat first
    [ apply MMSegDataset_init_obeys; apply _
    | apply obeys_wlog; [apply _|exact HWarn|done]
    | apply obeys_construct_loader;
      [apply _|apply HLoad; by simplify_map_eq|exact HE|done]
    | obeys_step HL HE ].
Qed.

(** [build_dataloader], whatever it does to the dataset: the call is
    logged, a loader is asked for with the [shuffle] of the keyword
    arguments (by default [True]). *)
Lemma build_dataloader_obeys ds images masks impl pipeline mode
    (cfg : gmap string pyval) :
  P (EBuildDataloader ds images masks impl mode) →
  (∀ backend kwargs,
     kwargs !! "shuffle" = Some (default (VBool true) (cfg !! "shuffle")) →
     P (ELoader backend ds kwargs)) →
  P (EWarn persistent_workers_message) →
  X (NotImplementedError python_dist_message) →
  obeys (λ _ _, True) P X (λ _, True)
    (build_dataloader E ds images masks impl pipeline mode cfg).
Proof.
  intros HBuild HLoad HWarn HNI. unfold build_dataloader.
  repeat first
    [ apply obeys_set_CLASSES; done
    | apply build_pipeline_obeys; apply _
    | apply make_loader_obeys; [apply _|exact HLoad|exact HWarn]
    | apply obeys_wlog; [apply _|exact HBuild|done]
    | apply obeys_raise; [apply _|exact HNI]
    | obeys_step HL HE ].
Qed.

Lemma call_build_dataloader_obeys ds images masks pipeline impl
    (kwargs : gmap string pyval) :
  (∀ mode, P (EBuildDataloader ds images masks impl mode)) →
  (∀ backend kw,
     kw !! "shuffle" = Some (default (VBool true) (kwargs !! "shuffle")) →
     P (ELoader backend ds kw)) →
  P (EWarn persistent_workers_message) →
  X (NotImplementedError python_dist_message) →
  obeys (λ _ _, True) P X (λ _, True)
    (call_build_dataloader E ds images masks pipeline impl kwargs).
Proof.
  intros HBuild HLoad HWarn HNI. unfold call_build_dataloader.
  destruct (existsb _ _).
  - apply obeys_raise; [apply _|]. apply (lenient_exn _ _ HL). not_ni.
  - apply build_dataloader_obeys; [done| |done..].
    intros backend kw Hkw. apply HLoad.
    by rewrite lookup_delete_ne in Hkw.
Qed.

End Phases.

(* ===================================================================== *)
(** * [build_dataloader]: the distributed python loader *)
(* ===================================================================== *)

Lemma lenient_no_loader X :
  (∀ e, not_NotImplementedError e → X e) →
  lenient (λ ev, ¬ is_ELoader ev) X.
Proof. intros HX. split; simpl; auto. Qed.

Lemma env_within_any E : env_within E (λ _, True).
Proof. by split. Qed.

Lemma dataset_class_names_raise d name e :
  dataset_class_names d name = Raise e → not_NotImplementedError e.
Proof. revert e. pure_exn. Qed.

Lemma py_getitem_raise v key e :
  py_getitem v key = Raise e → not_NotImplementedError e.
Proof. revert e. pure_exn. Qed.

(** Lines 685-700 of a run of [build_dataloader]: either one of them
    raises, or the guard of line 702 is reached in a world where only
    [dataset.CLASSES] has changed and no loader has been asked for. *)
Lemma build_dataloader_prefix E ds images masks impl pipeline mode
    (cfg : gmap string pyval) w r w' :
  env_within E not_NotImplementedError →
  build_dataloader E ds images masks impl pipeline mode cfg w = (r, w') →
  (∃ e, r = Raise e ∧ not_NotImplementedError e
        ∧ Forall (λ ev, ¬ is_ELoader ev) (new_events w w'))
  ∨ (∃ d classes built w2 dist,
       w_datasets w !! ds = Some d
       ∧ dataset_class_names d masks = Ok classes
       ∧ build_pipeline E pipeline
           (entered_build_dataloader w ds images masks impl mode classes)
         = (Ok built, w2)
       ∧ w_datasets w2 =
           alter (λ d, {| tensors := tensors d; ds_CLASSES := Some classes |})
                 ds (w_datasets w)
       ∧ Forall (λ ev, ¬ is_ELoader ev) (new_events w w2)
       ∧ cfg !! "dist" = Some dist
       ∧ (if truthy dist && bool_decide (impl = "python")
          then (r, w') = (Raise (NotImplementedError python_dist_message), w2)
          else make_loader E ds images masks impl mode cfg classes
                 (default (VBool false) (cfg !! "persistent_workers")) dist w2
               = (r, w'))).
Proof.
  intros HE Hrun. unfold build_dataloader in Hrun.
  unfold Eff.bind at 1 in Hrun. cbn [wlog Eff.modify] in Hrun.
  unfold Eff.bind at 1 in Hrun. unfold deref at 1 in Hrun. cbn [w_datasets] in Hrun.
  destruct (w_datasets w !! ds) as [d|] eqn:Hd.
  2:{ left. simplify_eq. eexists. split_and!; [done|not_ni|].
      unfold new_events. cbn [w_log]. rewrite drop_app_length. apply Forall_singleton; simpl; tauto. }
  unfold Eff.bind at 1 in Hrun. unfold Eff.lift at 1 in Hrun.
  destruct (dataset_class_names d masks) as [classes|e] eqn:Hclasses.
  2:{ left. simplify_eq. eexists. split_and!; [done| |].
      - by eapply dataset_class_names_raise.
      - unfold new_events. cbn [w_log]. rewrite drop_app_length.
        apply Forall_singleton; simpl; tauto. }
  unfold Eff.bind at 1 in Hrun. cbn [set_CLASSES Eff.modify w_datasets w_log] in Hrun.
  change {| w_datasets := _; w_log := _ |}
    with (entered_build_dataloader w ds images masks impl mode classes) in Hrun.
  set (w1 := entered_build_dataloader w ds images masks impl mode classes) in *.
  unfold Eff.bind at 1 in Hrun.
  destruct (build_pipeline E pipeline w1) as [[built|e] w2] eqn:Hpipe.
  2:{ left. simplify_eq.
      destruct (build_pipeline_obeys E (λ ev, ¬ is_ELoader ev) not_NotImplementedError
                  (lenient_no_loader _ (λ _ H, H)) HE eq pipeline _ _ _ Hpipe)
        as (_ & (new & Hlog & Hnew) & He).
      eexists. split_and!; [done|done|].
      unfold new_events. rewrite Hlog. unfold w1. cbn [w_log entered_build_dataloader].
      rewrite <- app_assoc, drop_app_length.
      apply Forall_app. split; [apply Forall_singleton; simpl; tauto|done]. }
  destruct (build_pipeline_obeys E (λ ev, ¬ is_ELoader ev) not_NotImplementedError
              (lenient_no_loader _ (λ _ H, H)) HE eq pipeline _ _ _ Hpipe)
    as (Hds & (new & Hlog & Hnew) & _).
  assert (Hnew2 : Forall (λ ev, ¬ is_ELoader ev) (new_events w w2)).
  { unfold new_events. rewrite Hlog. unfold w1. cbn [w_log entered_build_dataloader].
    rewrite <- app_assoc, drop_app_length.
    apply Forall_app. split; [apply Forall_singleton; simpl; tauto|done]. }
  unfold Eff.bind at 1 in Hrun. unfold Eff.lift at 1 in Hrun.
  cbn [py_getitem] in Hrun.
  destruct (cfg !! "dist") as [dist|] eqn:Hdist.
  2:{ left. simplify_eq. eexists. split_and!; [done|not_ni|done]. }
  right. exists d, classes, built, w2, dist.
  split_and!; [done..| by rewrite <- Hds | done | done |].
  destruct (truthy dist && bool_decide (impl = "python")); [|done].
  by unfold Eff.raise in Hrun.
Qed.

(** Whatever the earlier lines do, with a true [dist] flag and the
    ['python'] implementation the call raises and asks no backend for a
    loader. *)
Lemma python_dist_never_constructs_loader (E : Env) (w w' : world) (ds : nat)
    (images masks pipeline mode : pyval) (cfg : gmap string pyval)
    (dist : pyval) (r : result loader) :
  cfg !! "dist" = Some dist →
  truthy dist = true →
  build_dataloader E ds images masks "python" pipeline mode cfg w = (r, w') →
  (∃ e, r = Raise e) ∧ Forall (λ ev, ¬ is_ELoader ev) (new_events w w').
Proof.
  intros Hdist Htruthy Hrun.
  assert (Hobeys : obeys (λ _ _, True) (λ ev, ¬ is_ELoader ev) (λ _, True)
                     (λ _, False)
                     (build_dataloader E ds images masks "python" pipeline mode cfg)).
  { pose proof (lenient_no_loader (λ _, True) (λ _ _, I)) as HL.
    pose proof (env_within_any E) as HE.
    unfold build_dataloader.
    eapply (obeys_bind _ _ _ (λ _, True)); [by apply obeys_wlog; [apply _|simpl; tauto|]|].
    intros ? _.
    eapply (obeys_bind _ _ _ (λ _, True)); [obeys_step HL HE|]. intros d _.
    eapply (obeys_bind _ _ _ (λ _, True)); [obeys_step HL HE|]. intros classes _.
    eapply (obeys_bind _ _ _ (λ _, True)); [by apply obeys_set_CLASSES|]. intros ? _.
    eapply (obeys_bind _ _ _ (λ _, True)); [apply build_pipeline_obeys; done|].
    intros built _.
    eapply (obeys_bind _ _ _ (λ x, x = dist)).
    { apply obeys_lift; [apply _|]. cbn [py_getitem]. by rewrite Hdist. }
    intros ? ->. rewrite Htruthy, bool_decide_eq_true_2 by done. cbn [andb].
    apply obeys_raise; [apply _|done]. }
  destruct (Hobeys _ _ _ Hrun) as (_ & (new & Hlog & Hnew) & Hr).
  split.
  - destruct r; [done|eauto].
  - by rewrite (new_events_app _ _ _ Hlog).
Qed.

(** C1, as stated, fails: on the sample dataset, with a true [dist] flag
    and the ['python'] implementation, a pipeline step without a type
    makes line 697 raise [KeyError] before the check of line 702. *)
Lemma python_dist_call_raises_other_error : ¬ python_dist_always_documented_error.
Proof.
  intros Hclaim.
  destruct (Hclaim (quiet_env false) 0%nat (VStr "images") (VStr "masks")
              untyped_pipeline (VStr "train") dist_loader_config (VBool true)
              sample_world eq_refl eq_refl) as [w' Hrun].
  vm_compute in Hrun. discriminate.
Qed.

(** C1. A call of [build_dataloader] with a true [dist] flag and the
    ['python'] implementation always raises and asks no backend for a
    loader.  The error is the [NotImplementedError] whose message points
    to the C++ loader whenever lines 695-697 return, that is, the class
    names of the masks tensor are found and the pipeline is built;
    otherwise it is the error of the first of these lines that fails,
    raised before the check of line 702. *)
Theorem build_dataloader_python_dist (E : Env) (w w' : world) (ds : nat)
    (images masks pipeline mode : pyval) (cfg : gmap string pyval)
    (dist : pyval) (r : result loader) :
  cfg !! "dist" = Some dist →
  truthy dist = true →
  build_dataloader E ds images masks "python" pipeline mode cfg w = (r, w') →
  Forall (λ ev, ¬ is_ELoader ev) (new_events w w')
  ∧ ∃ e, r = Raise e
         ∧ match w_datasets w !! ds with
           | None => e = ExternalError "dangling reference"
           | Some d =>
               match dataset_class_names d masks with
               | Raise e' => e = e'
               | Ok classes =>
                   match build_pipeline E pipeline
                           (entered_build_dataloader w ds images masks "python"
                              mode classes) with
                   | (Raise e', w2) => e = e' ∧ w' = w2
                   | (Ok _, w2) =>
                       e = NotImplementedError python_dist_message ∧ w' = w2
                   end
               end
           end.
Proof.
  intros Hdist Htruthy Hrun.
  split; [exact (proj2 (python_dist_never_constructs_loader _ _ _ _ _ _ _ _ _ _ _
                          Hdist Htruthy Hrun))|].
  unfold build_dataloader in Hrun.
  unfold Eff.bind at 1 in Hrun. cbn [wlog Eff.modify] in Hrun.
  unfold Eff.bind at 1 in Hrun. unfold deref at 1 in Hrun. cbn [w_datasets] in Hrun.
  destruct (w_datasets w !! ds) as [d|] eqn:Hd.
  2:{ injection Hrun as <- <-. by eexists. }
  unfold Eff.bind at 1 in Hrun. unfold Eff.lift at 1 in Hrun.
  destruct (dataset_class_names d masks) as [classes|e] eqn:Hclasses.
  2:{ injection Hrun as <- <-. by eexists. }
  unfold Eff.bind at 1 in Hrun. cbn [set_CLASSES Eff.modify w_datasets w_log] in Hrun.
  change {| w_datasets := _; w_log := _ |}
    with (entered_build_dataloader w ds images masks "python" mode classes) in Hrun.
  unfold Eff.bind at 1 in Hrun.
  destruct (build_pipeline E pipeline _) as [[built|e] w2] eqn:Hpipe.
  2:{ injection Hrun as <- <-. by eexists. }
  unfold Eff.bind at 1 in Hrun. unfold Eff.lift at 1 in Hrun.
  cbn [py_getitem] in Hrun. rewrite Hdist, Htruthy in Hrun.
  cbn in Hrun. injection Hrun as <- <-. by eexists.
Qed.

(** C7, as the code has it.  When [build_dataloader] refuses the
    distributed python loader, [dataset.CLASSES] has already been assigned
    the class names of the masks tensor (line 696); nothing else of any
    dataset has changed and no backend has been asked for a loader.  The
    collaborators are taken not to raise [NotImplementedError]
    themselves. *)
Theorem build_dataloader_error_sets_CLASSES (E : Env) (w w' : world) (ds : nat)
    (images masks pipeline mode : pyval) (impl : string)
    (cfg : gmap string pyval) :
  env_within E not_NotImplementedError →
  build_dataloader E ds images masks impl pipeline mode cfg w
  = (Raise (NotImplementedError python_dist_message), w') →
  ∃ d classes,
    w_datasets w !! ds = Some d
    ∧ dataset_class_names d masks = Ok classes
    ∧ w_datasets w' =
        alter (λ d, {| tensors := tensors d; ds_CLASSES := Some classes |})
              ds (w_datasets w)
    ∧ w_datasets w' !! ds = Some {| tensors := tensors d; ds_CLASSES := Some classes |}
    ∧ Forall (λ ev, ¬ is_ELoader ev) (new_events w w').
Proof.
  intros HE Hrun.
  destruct (build_dataloader_prefix _ _ _ _ _ _ _ _ _ _ _ HE Hrun)
    as [(e & [= <-] & He & _)|
        (d & classes & built & w2 & dist & Hd & Hcl & _ & Hds & Hnew & _ & Hguard)].
  { by destruct (He python_dist_message). }
  destruct (truthy dist && bool_decide (impl = "python")).
  - injection Hguard as <-.
    exists d, classes. split_and!; [done..| |done].
    by rewrite Hds, lookup_alter_eq, Hd.
  - exfalso.
    pose proof (lenient_no_loader not_NotImplementedError (λ _ H, H)) as HL.
    assert (HL' : lenient (λ _, True) not_NotImplementedError) by (by split).
    destruct (make_loader_obeys E (λ _, True) not_NotImplementedError HL' HE
                (λ _ _, True) ds images masks impl mode cfg classes
                (default (VBool false) (cfg !! "persistent_workers")) dist
                (λ _ _ _, I) I _ _ _ Hguard) as (_ & _ & Hr).
    by destruct (Hr python_dist_message).
Qed.

(** C7, as stated, fails: a refused call on the sample dataset leaves its
    [CLASSES] attribute assigned. *)
Lemma build_dataloader_error_changes_dataset : ¬ dataset_unchanged_on_dist_error.
Proof.
  intros Hclaim.
  pose (run := build_dataloader (quiet_env false) 0 (VStr "images") (VStr "masks")
                 "python" (VList []) (VStr "train") dist_loader_config sample_world).
  assert (Hrun : run = (Raise (NotImplementedError python_dist_message), run.2))
    by (vm_compute; reflexivity).
  apply Hclaim in Hrun.
  apply (f_equal (λ m, ds_CLASSES <$> m !! 0%nat)) in Hrun.
  vm_compute in Hrun. discriminate.
Qed.

(* ===================================================================== *)
(** * The phases of [_train_segmentor] *)
(* ===================================================================== *)

Section TrainPhases.

Variable E : Env.
Context (P : event → Prop) (X : exn → Prop).
Hypothesis HL : lenient P X.
Hypothesis HE : env_within E X.
Hypothesis HTwice : P (EWarn dataset_given_twice_message).
Hypothesis HPersistent : P (EWarn persistent_workers_message).
Hypothesis HNI : X (NotImplementedError python_dist_message).

Local Ltac phase :=
  repeat first
    [ apply obeys_wlog; [apply _|exact HTwice|done]
    | apply obeys_alloc; done
    | apply obeys_lift; [apply _|];
      match goal with
      | |- match load_ds_from_cfg ?E ?c with _ => _ end =>
          destruct (load_ds_from_cfg E c) eqn:?; [done|by eapply (proj2 HE)]
      end
    | obeys_step HL HE ].

Lemma load_ds_obeys c : obeys (λ _ _, True) P X (λ _, True) (load_ds E c).
Proof. unfold load_ds. phase. Qed.

Lemma load_train_dataset_obeys cfg ds_train ds_train_tensors :
  obeys (λ _ _, True) P X (λ _, True)
    (load_train_dataset E cfg ds_train ds_train_tensors).
Proof.
  unfold load_train_dataset.
  repeat first [apply load_ds_obeys | phase].
Qed.

Lemma find_tensors_obeys cfg ds :
  obeys (λ _ _, True) P X (λ _, True) (find_tensors E cfg ds).
Proof. unfold find_tensors. phase. Qed.

Lemma train_tensors_obeys cfg ds tensors :
  obeys (λ _ _, True) P X (λ _, True) (train_tensors E cfg ds tensors).
Proof. unfold train_tensors. repeat first [apply find_tensors_obeys | phase]. Qed.

Lemma build_ddp_obeys device :
  obeys (λ _ _, True) P X (λ _, True) (build_ddp E device).
Proof. unfold build_ddp. phase. Qed.

Lemma put_model_on_gpus_obeys cfg local_rank distributed :
  obeys (λ _ _, True) P X (λ _, True) (put_model_on_gpus E cfg local_rank distributed).
Proof. unfold put_model_on_gpus. repeat first [apply build_ddp_obeys | phase]. Qed.

Lemma build_runner_and_hooks_obeys cfg distributed :
  obeys (λ _ _, True) P X (λ _, True) (build_runner_and_hooks E cfg distributed).
Proof. unfold build_runner_and_hooks. phase. Qed.

Lemma register_custom_hooks_obeys cfg :
  obeys (λ _ _, True) P X (λ _, True) (register_custom_hooks E cfg).
Proof.
  unfold register_custom_hooks.
  repeat first [apply obeys_for_each; [apply _|intros ?] | phase].
Qed.

Lemma resume_and_run_obeys cfg :
  obeys (λ _ _, True) P X (λ _, True) (resume_and_run E cfg).
Proof. unfold resume_and_run. phase. Qed.

Lemma obeys_lift_eq {A} (r : result A) :
  (∀ e, r = Raise e → not_NotImplementedError e) →
  obeys (λ _ _, True) P X (λ a, r = Ok a) (Eff.lift r).
Proof.
  intros Hr. apply obeys_lift; [apply _|].
  destruct r as [a|e]; [done|]. apply (lenient_exn _ _ HL). by apply Hr.
Qed.

(** The backend [select_dl_impl] returns is the one the flag stands for. *)
Lemma select_dl_impl_obeys cfg :
  obeys (λ _ _, True) P X (dl_impl_spec E cfg) (select_dl_impl E cfg).
Proof.
  unfold select_dl_impl.
  eapply obeys_bind; [apply _|apply obeys_lift_eq; pure_exn|].
  intros flag Hflag. cbn beta.
  eapply obeys_bind; [apply _|apply obeys_lift_eq; pure_exn|].
  intros lowered Hlower.
  destruct flag as [| | |s| |]; try done. cbn in Hlower. injection Hlower as <-.
  eapply (obeys_bind _ _ _ (λ x, x = resolve_dl_impl (indra_available E) (lower s))).
  { unfold resolve_dl_impl.
    destruct (bool_decide (lower s = "auto")); [|destruct (bool_decide _)].
    - eapply (obeys_bind _ _ _ (λ _, True)); [phase|].
      intros ? _. by apply obeys_ret.
    - by apply obeys_ret.
    - by apply obeys_ret. }
  intros dl_impl ->.
  destruct (bool_decide (_ ∈ _)) eqn:Hin; cbn [negb].
  - apply obeys_ret; [apply _|]. exists s. split_and!; [done..|].
    by apply bool_decide_eq_true in Hin.
  - phase.
Qed.

Lemma resolve_val_dataset_obeys cfg ds_val ds_val_tensors :
  obeys (λ _ _, True) P X
    (λ p, tensors_in_effect cfg ds_val ds_val_tensors p.2)
    (resolve_val_dataset E cfg ds_val ds_val_tensors).
Proof.
  unfold resolve_val_dataset.
  eapply (obeys_bind _ _ _
            (λ p, tensors_in_effect cfg ds_val ds_val_tensors p.2)).
  - destruct ds_val as [ds|].
    + eapply (obeys_bind _ _ _ (λ _, True)); [phase|]. intros val _.
      eapply (obeys_bind _ _ _ (λ _, True)); [phase|]. intros cfg_data _.
      eapply (obeys_bind _ _ _ (λ _, True)); [phase|]. intros ? _.
      by apply obeys_ret.
    + eapply (obeys_bind _ _ _ (λ _, True)); [phase|]. intros data _.
      eapply (obeys_bind _ _ _ (λ _, True)); [phase|]. intros cfg_ds_val _.
      destruct (is_none cfg_ds_val); [phase|].
      eapply (obeys_bind _ _ _ (λ _, True)); [phase|]. intros path _.
      destruct (is_none path); [phase|].
      eapply (obeys_bind _ _ _ (λ _, True)); [phase|]. intros val0 _.
      eapply (obeys_bind _ _ _ (λ _, True)); [apply load_ds_obeys|]. intros ds _.
      eapply obeys_bind; [apply _|apply obeys_lift_eq; pure_exn|].
      intros val Hval. cbn beta.
      eapply obeys_bind; [apply _|apply obeys_lift_eq; pure_exn|].
      intros tensors Htensors. cbn beta.
      apply obeys_ret; [apply _|]. cbn beta in Hval, Htensors. by exists val.
  - intros [[ds|] tensors] Heff; cbn [snd] in *.
    + by apply obeys_ret.
    + phase.
Qed.

Lemma val_tensors_obeys cfg ds tensors ds_train_tensors :
  obeys (λ _ _, True) P X
    (λ p, truthy tensors = true →
          py_getitem tensors "img" = Ok p.1
          ∧ py_get ds_train_tensors "gt_semantic_seg" VNone = Ok p.2)
    (val_tensors E cfg ds tensors ds_train_tensors).
Proof.
  unfold val_tensors. destruct (truthy tensors).
  - eapply obeys_bind; [apply _|apply obeys_lift_eq; pure_exn|].
    intros im Him. cbn beta.
    eapply obeys_bind; [apply _|apply obeys_lift_eq; pure_exn|].
    intros mk Hmk. cbn beta.
    by apply obeys_ret.
  - eapply obeys_weaken; [apply find_tensors_obeys|done].
Qed.

(** The defaults are merged over the user's dictionary. *)
Lemma val_dataloader_args_shuffle cfg batch_size num_workers distributed
    ignore_index reduce_zero_label args :
  val_dataloader_args cfg batch_size num_workers distributed ignore_index
    reduce_zero_label = Ok args →
  args !! "shuffle" = Some (VBool false).
Proof.
  unfold val_dataloader_args. intros Hargs.
  repeat (case_match; simplify_eq).
  unfold merge_dicts. apply lookup_union_Some_l. by simplify_map_eq.
Qed.

(** The body of [if validate:]: the loader is built with the tensor
    names of lines 616-626 and with [shuffle=False]. *)
Lemma register_eval_hooks_obeys cfg eval_cfg ds_val ds_val_tensors
    ds_train_tensors distributed dl_impl batch_size num_workers ignore_index
    reduce_zero_label (train_loader_cfg : gmap string pyval) :
  (∀ ds im mk md,
     val_tensors_spec cfg ds_val ds_val_tensors ds_train_tensors im mk →
     P (EBuildDataloader ds im mk dl_impl md)) →
  (∀ backend ds kw,
     kw !! "shuffle" = Some (VBool false) → P (ELoader backend ds kw)) →
  obeys (λ _ _, True) P X (λ _, True)
    (register_eval_hooks E cfg eval_cfg ds_val ds_val_tensors ds_train_tensors
       distributed dl_impl batch_size num_workers ignore_index
       reduce_zero_label train_loader_cfg).
Proof.
  intros HBuild HLoad. unfold register_eval_hooks.
  eapply obeys_bind; [apply _|apply obeys_lift_eq; pure_exn|].
  intros args Hargs. cbn beta in Hargs.
  apply val_dataloader_args_shuffle in Hargs.
  eapply (obeys_bind _ _ _ (λ _, True)); [phase|]. intros ? _.
  rewrite Hargs.
  change (truthy (default (VBool false) (Some (VBool false)))) with false.
  cbn iota.
  eapply (obeys_bind _ _ _ (λ _, True)); [phase|]. intros ? _.
  eapply obeys_bind; [apply _|apply resolve_val_dataset_obeys|].
  intros [ds tensors] Htensors. cbn [snd] in Htensors.
  eapply obeys_bind; [apply _|apply val_tensors_obeys|].
  intros [im mk] Hnames. cbn [fst snd] in Hnames.
  eapply (obeys_bind _ _ _ (λ _, True)); [phase|]. intros test_pipeline _.
  eapply (obeys_bind _ _ _ (λ _, True)).
  { apply call_build_dataloader_obeys; [done..| | |done|done].
    - intros md. apply HBuild. by exists tensors.
    - intros backend kw Hkw. apply HLoad. by rewrite Hkw, Hargs. }
  intros ? _. phase.
Qed.

(** A whole run: every entry into [build_dataloader] carries the backend
    that [select_dl_impl] returned. *)
Lemma train_segmentor_obeys local_rank cfg ds_train ds_train_tensors ds_val
    ds_val_tensors distributed validate :
  (∀ ds im mk impl md,
     dl_impl_spec E cfg impl → P (EBuildDataloader ds im mk impl md)) →
  (∀ backend ds kw, P (ELoader backend ds kw)) →
  obeys (λ _ _, True) P X (λ _, True)
    (_train_segmentor E local_rank cfg ds_train ds_train_tensors ds_val
       ds_val_tensors distributed validate).
Proof.
  intros HBuild HLoad. unfold _train_segmentor.
  do 5 (eapply (obeys_bind _ _ _ (λ _, True)); [phase|]; intros ? _).
  eapply (obeys_bind _ _ _ (λ _, True)); [apply load_train_dataset_obeys|].
  intros [ds tensors] _.
  eapply (obeys_bind _ _ _ (λ _, True)); [phase|]. intros eval_cfg _.
  eapply obeys_bind; [apply _|apply select_dl_impl_obeys|].
  intros dl_impl Himpl.
  repeat first
    [ apply train_tensors_obeys
    | apply put_model_on_gpus_obeys
    | apply build_runner_and_hooks_obeys
    | apply register_custom_hooks_obeys
    | apply resume_and_run_obeys
    | apply call_build_dataloader_obeys;
      [done|done|intros ?; by apply HBuild|intros ? ? _; apply HLoad|done|done]
    | apply register_eval_hooks_obeys;
      [intros ? ? ? ? _; by apply HBuild|intros ? ? ? _; apply HLoad]
    | phase ].
Qed.

End TrainPhases.

(* ===================================================================== *)
(** * [_train_segmentor]: backend, validation loader, validation dataset *)
(* ===================================================================== *)

Lemma lenient_any (P : event → Prop) :
  (∀ name, P (EExt name)) → (∀ msg, P (EPrint msg)) →
  (∀ obj attr, P (ESetAttr obj attr)) →
  lenient P (λ _, True).
Proof. intros. by split. Qed.


(** C9. The keyword arguments of the validation loader have
    [shuffle=False] whatever the user wrote under
    [cfg.data.val.deeplake_dataloader], because the defaults are merged
    last; every loader a backend is asked for in the validation block is
    asked for with [shuffle=False]; and no run of [_train_segmentor] emits
    the warning that the validation shuffle argument will be ignored. *)
Theorem validation_loader_never_shuffles (E : Env) :
  (∀ cfg batch_size num_workers distributed ignore_index reduce_zero_label args,
     val_dataloader_args cfg batch_size num_workers distributed ignore_index
       reduce_zero_label = Ok args →
     args !! "shuffle" = Some (VBool false))
  ∧ (∀ cfg eval_cfg ds_val ds_val_tensors ds_train_tensors distributed dl_impl
       batch_size num_workers ignore_index reduce_zero_label train_loader_cfg
       w r w',
       register_eval_hooks E cfg eval_cfg ds_val ds_val_tensors ds_train_tensors
         distributed dl_impl batch_size num_workers ignore_index
         reduce_zero_label train_loader_cfg w = (r, w') →
       Forall (λ ev,
                 match ev with
                 | ELoader _ _ kwargs => kwargs !! "shuffle" = Some (VBool false)
                 | EWarn msg => msg ≠ shuffle_ignored_message
                 | _ => True
                 end)
              (new_events w w'))
  ∧ (∀ local_rank cfg ds_train ds_train_tensors ds_val ds_val_tensors
       distributed validate w r w',
       _train_segmentor E local_rank cfg ds_train ds_train_tensors ds_val
         ds_val_tensors distributed validate w = (r, w') →
       Forall (λ ev, ev ≠ EWarn shuffle_ignored_message) (new_events w w')).
Proof.
  split_and!.
  - intros. by eapply val_dataloader_args_shuffle.
  - intros cfg eval_cfg ds_val ds_val_tensors ds_train_tensors distributed
      dl_impl batch_size num_workers ignore_index reduce_zero_label
      train_loader_cfg w r w' Hrun.
    set (P := λ ev, match ev with
                    | ELoader _ _ kwargs => kwargs !! "shuffle" = Some (VBool false)
                    | EWarn msg => msg ≠ shuffle_ignored_message
                    | _ => True
                    end).
    assert (HL : lenient P (λ _, True)) by (by apply lenient_any).
    destruct (register_eval_hooks_obeys E P (λ _, True) HL (env_within_any E)
                ltac:(done) ltac:(done) I
                cfg eval_cfg ds_val ds_val_tensors ds_train_tensors distributed
                dl_impl batch_size num_workers ignore_index reduce_zero_label
                train_loader_cfg) with (w := w) (r := r) (w' := w')
      as (_ & (new & Hlog & Hnew) & _); [done|done|done|].
    by rewrite (new_events_app _ _ _ Hlog).
  - intros local_rank cfg ds_train ds_train_tensors ds_val ds_val_tensors
      distributed validate w r w' Hrun.
    set (P := λ ev, ev ≠ EWarn shuffle_ignored_message).
    assert (HL : lenient P (λ _, True)) by (by apply lenient_any).
    destruct (train_segmentor_obeys E P (λ _, True) HL (env_within_any E)
                ltac:(done) ltac:(done) I
                local_rank cfg ds_train ds_train_tensors ds_val ds_val_tensors
                distributed validate) with (w := w) (r := r) (w' := w')
      as (_ & (new & Hlog & Hnew) & _); [done|done|done|].
    by rewrite (new_events_app _ _ _ Hlog).
Qed.


(** The check of lines 591-600, taken alone: without a validation
    dataset, a configuration whose [cfg.data] has no [val] entry, or one
    without a ['deeplake_path'], raises the documented exception and
    touches nothing. *)
Lemma resolve_val_dataset_not_specified (E : Env) (cfg data val : pyval)
    (ds_val_tensors : pyval) (w : world) :
  cfg_attr cfg "data" = Ok data →
  py_get data "val" VNone = Ok val →
  is_none val = true ∨ py_get val "deeplake_path" VNone = Ok VNone →
  resolve_val_dataset E cfg None ds_val_tensors w
  = (Raise (Exception no_validation_dataset_message), w).
Proof.
  intros Hdata Hval Hmissing. unfold resolve_val_dataset.
  unfold Eff.bind at 1. unfold Eff.bind at 1. unfold Eff.lift at 1.
  rewrite Hdata.
  unfold Eff.bind at 1. unfold Eff.lift at 1. rewrite Hval.
  destruct (is_none val) eqn:Hnone; [done|].
  destruct Hmissing as [?|Hpath]; [done|].
  unfold Eff.bind at 1. unfold Eff.lift at 1. rewrite Hpath. done.
Qed.

(** Inside the validation block the check comes too late for a missing
    entry: line 580 has already read [cfg.data.val], so the block raises
    what that access raises, not the documented exception. *)
Lemma register_eval_hooks_missing_val_entry (E : Env) (cfg eval_cfg : pyval)
    (ds_val : option nat) (ds_val_tensors ds_train_tensors : pyval)
    (distributed : bool) (dl_impl : string)
    (batch_size num_workers ignore_index reduce_zero_label : pyval)
    (train_loader_cfg : gmap string pyval) (w : world) (e : exn) :
  cfg_attr2 cfg "data" "val" = Raise e →
  ∃ e', register_eval_hooks E cfg eval_cfg ds_val ds_val_tensors ds_train_tensors
          distributed dl_impl batch_size num_workers ignore_index
          reduce_zero_label train_loader_cfg w = (Raise e', w)
        ∧ e' ≠ Exception no_validation_dataset_message.
Proof.
  intros Hval. unfold register_eval_hooks.
  unfold Eff.bind at 1. unfold Eff.lift at 1.
  destruct (val_dataloader_args cfg batch_size num_workers distributed
              ignore_index reduce_zero_label) as [args|e'] eqn:Hargs.
  - exfalso. unfold val_dataloader_args in Hargs. rewrite Hval in Hargs.
    repeat (case_match; simplify_eq).
  - exists e'. split; [done|].
    intros ->. unfold val_dataloader_args in Hargs.
    unfold cfg_attr2, cfg_attr, py_len, py_get, py_mapping in *.
    repeat (case_match; simplify_eq).
Qed.

(** With an entry that lacks ['deeplake_path'], the block raises the
    documented exception after the persistent-workers check alone: no
    loader, no hook. *)
Lemma register_eval_hooks_no_deeplake_path (E : Env) (cfg eval_cfg : pyval)
    (ds_val_tensors ds_train_tensors : pyval) (distributed : bool)
    (dl_impl : string)
    (batch_size num_workers ignore_index reduce_zero_label : pyval)
    (train_loader_cfg args : gmap string pyval) (w : world) (data val : pyval) :
  val_dataloader_args cfg batch_size num_workers distributed ignore_index
    reduce_zero_label = Ok args →
  ext_raises E "check_persistent_workers" (w_log w) = None →
  cfg_attr cfg "data" = Ok data →
  py_get data "val" VNone = Ok val →
  py_get val "deeplake_path" VNone = Ok VNone →
  register_eval_hooks E cfg eval_cfg None ds_val_tensors ds_train_tensors
    distributed dl_impl batch_size num_workers ignore_index reduce_zero_label
    train_loader_cfg w
  = (Raise (Exception no_validation_dataset_message),
     {| w_datasets := w_datasets w;
        w_log := w_log w ++ [EExt "check_persistent_workers"] |}).
Proof.
  intros Hargs Hext Hdata Hval Hpath. unfold register_eval_hooks.
  unfold Eff.bind at 1. unfold Eff.lift at 1. rewrite Hargs.
  unfold Eff.bind at 1. unfold ext at 1. rewrite Hext.
  rewrite (val_dataloader_args_shuffle _ _ _ _ _ _ _ Hargs).
  change (truthy (default (VBool false) (Some (VBool false)))) with false.
  cbn iota. unfold Eff.bind at 1. cbn [Eff.ret].
  unfold Eff.bind at 1.
  by rewrite (resolve_val_dataset_not_specified E cfg data val); [|done|done|right].
Qed.

(** C2, at the failing input: validation requested, no validation
    dataset passed, [cfg.data] without a [val] entry, every collaborator
    returning.  The run ends in the [AttributeError] of line 580 instead
    of the documented exception of lines 593-596. *)
Theorem train_segmentor_without_val_entry :
  (_train_segmentor (quiet_env false) 0 (sample_cfg [] []) None VNone None VNone
     false true empty_world).1
  = Raise (AttributeError "'ConfigDict' object has no attribute 'val'").
Proof. vm_compute. reflexivity. Qed.

(** The same configuration with validation switched off runs to the end. *)
Lemma train_segmentor_without_validation :
  (_train_segmentor (quiet_env false) 0 (sample_cfg [] []) None VNone None VNone
     false false empty_world).1
  = Ok tt.
Proof. vm_compute. reflexivity. Qed.

(** With a [val] entry that has no ['deeplake_path'] the documented
    exception is raised. *)
Lemma train_segmentor_without_deeplake_path :
  (_train_segmentor (quiet_env false) 0 (sample_cfg [("val", dict [])] []) None
     VNone None VNone false true empty_world).1
  = Raise (Exception no_validation_dataset_message).
Proof. vm_compute. reflexivity. Qed.

(* ===================================================================== *)
(** * The theorems at sample inputs *)
(* ===================================================================== *)

Lemma quiet_env_within indra : env_within (quiet_env indra) not_NotImplementedError.
Proof. split; intros; simplify_eq/=. Defined.

Lemma build_dataloader_python_dist_witness :
  ∃ w',
    build_dataloader (quiet_env false) 0 (VStr "images") (VStr "masks") "python"
      (VList []) (VStr "train") dist_loader_config sample_world
    = (Raise (NotImplementedError python_dist_message), w')
    ∧ Forall (λ ev, ¬ is_ELoader ev) (new_events sample_world w').
Proof.
  eexists. split; [vm_compute; reflexivity|].
  exact (proj1 (build_dataloader_python_dist (quiet_env false) sample_world _ 0
                  (VStr "images") (VStr "masks") (VList []) (VStr "train")
                  dist_loader_config (VBool true) _ eq_refl eq_refl
                  ltac:(vm_compute; reflexivity))).
Defined.

Lemma build_dataloader_error_sets_CLASSES_witness :
  ∃ w', build_dataloader (quiet_env false) 0 (VStr "images") (VStr "masks")
          "python" (VList []) (VStr "train") dist_loader_config sample_world
        = (Raise (NotImplementedError python_dist_message), w')
        ∧ ds_CLASSES <$> w_datasets w' !! 0%nat = Some (Some ["bg"; "cat"]).
Proof.
  eexists. split; [vm_compute; reflexivity|].
  destruct (build_dataloader_error_sets_CLASSES (quiet_env false) sample_world _ 0
              (VStr "images") (VStr "masks") (VList []) (VStr "train") "python"
              dist_loader_config (quiet_env_within false)
              ltac:(vm_compute; reflexivity))
    as (d & classes & Hd & Hclasses & _ & Hafter & _).
  rewrite Hafter. simpl.
  vm_compute in Hd. injection Hd as <-.
  vm_compute in Hclasses. by injection Hclasses as <-.
Defined.

Lemma evaluate_reorders_results_witness :
  results_ordered (num_gpus sample_self) sample_files
  = [RFile "a0"; RFile "a1"; RFile "a2"; RFile "b0"; RFile "b1"; RFile "b2"].
Proof.
  rewrite (proj1 (evaluate_reorders_results sample_nanmean Z.mul Z.div 100
                    sample_around (λ m, m) (λ _ _ _ _ _ _, Ok sample_table)
                    (λ _ _, Ok sample_table) sample_self sample_files
                    (MetricStr "mIoU") None) ltac:(reflexivity)).
  reflexivity.
Defined.

Lemma evaluate_unsupported_metric_witness :
  sample_evaluate (MetricList ["mIoU"; "mAcc"])
  = (Raise (KeyError (unsupported_metric_message ["mIoU"; "mAcc"])), [])
  ∧ ∀ msg, (sample_evaluate (MetricStr "mDice")).1 ≠ Raise (KeyError msg).
Proof.
  split.
  - apply (proj1 (evaluate_unsupported_metric sample_nanmean Z.mul Z.div 100
                    sample_around (λ m, m) (λ _ _ _ _ _ _, Ok sample_table)
                    (λ _ _, Ok sample_table) sample_self sample_results
                    (MetricList ["mIoU"; "mAcc"]) None [])).
    exists "mAcc". split; [by right; left|].
    intros Hin. vm_compute in Hin.
    repeat (apply elem_of_cons in Hin as [Hin|Hin]; [discriminate Hin|]).
    by apply elem_of_nil in Hin.
  - intros msg Hraise.
    destruct (proj2 (evaluate_unsupported_metric sample_nanmean Z.mul Z.div 100
                       sample_around (λ m, m) (λ _ _ _ _ _ _, Ok sample_table)
                       (λ _ _, Ok sample_table) sample_self sample_results
                       (MetricStr "mDice") None [])
                (λ m Hm, ltac:(apply list_elem_of_singleton in Hm as ->;
                               by right; left))
                msg Hraise) as [(g & n & Hg)|Hp]; discriminate.
Defined.

Lemma evaluate_entries_witness :
  ∃ res,
    (sample_evaluate (MetricStr "mIoU")).1 = Ok res
    ∧ res !! "mIoU" = Some (sample_nanmean [8; 6] * 100 / 100)
    ∧ res !! "aAcc" = Some (sample_nanmean [9] * 100 / 100)
    ∧ res !! "IoU.cat" = Some (6 * 100 / 100).
Proof.
  assert (∃ res l', sample_evaluate (MetricStr "mIoU") = (Ok res, l'))
    as (res & l' & Hrun) by (vm_compute; eauto).
  exists res. split; [by rewrite Hrun|].
  destruct (evaluate_entries sample_nanmean Z.mul Z.div 100 sample_around
              (λ m, m) (λ _ _ _ _ _ _, Ok sample_table) (λ _ _, Ok sample_table)
              sample_self sample_results (MetricStr "mIoU") None [] l'
              [EExt "pre_eval_to_metrics"] res sample_table None Hrun)
    as (class_names & Hcls & Hsummary & Hclass & _).
  - vm_compute. reflexivity.
  - vm_compute. repeat constructor; intros Hin;
      repeat (apply elem_of_cons in Hin as [Hin|Hin]; [discriminate Hin|]);
      by apply elem_of_nil in Hin.
  - intros key Hkey. vm_compute in Hkey.
    repeat (apply elem_of_cons in Hkey as [->|Hkey]; [reflexivity|]).
    by apply elem_of_nil in Hkey.
  - injection Hcls as <-. split_and!.
    + apply (Hsummary "IoU" (MArray [8; 6])). by right; left.
    + apply (Hsummary "aAcc" (MScalar 9)). by left.
    + destruct (Hclass "IoU" (MArray [8; 6]) 1%nat "cat") as (x & Hx & Hres);
        [by right; left|done|done|done| |].
      * intros [|[|j]] Hj; [lia|lia|done].
      * by injection Hx as <-.
Defined.

Lemma transform_pipeline_input_witness :
  ∃ d, transform (λ x : Z, x) sample_in "images" "masks" (λ d, Ok d) = Ok d
       ∧ shape (img d) = [1; 2; 3]%nat
       ∧ item (img d) [0; 1; 0]%nat = Some 60
       ∧ gt_semantic_seg d = NDArray [1; 2]%nat [0; 1].
Proof.
  destruct (transform_pipeline_input (λ x : Z, x) sample_in "images" "masks"
              (λ d, Ok d)
              (NDArray [1; 2; 3]%nat [10; 20; 30; 40; 50; 60])
              (NDArray [1; 2]%nat [0; 1]) 1 2 3)
    as (d & Hrun & Hshape & Hitems & _ & _ & Hmask & _).
  - vm_compute. reflexivity.
  - vm_compute. reflexivity.
  - reflexivity.
  - by right.
  - exists d. split_and!; [done|done| |done].
    destruct (Hitems 0 1 0)%nat as (p & Hp & Hitem);
      [unfold output_channels; simpl; lia..|].
    vm_compute in Hp. by injection Hp as <-.
Defined.


Lemma validation_loader_never_shuffles_witness :
  sample_validation.1 = Ok tt
  ∧ Forall (λ ev,
              match ev with
              | ELoader _ _ kwargs => kwargs !! "shuffle" = Some (VBool false)
              | EWarn msg => msg ≠ shuffle_ignored_message
              | _ => True
              end)
           (new_events empty_world sample_validation.2).
Proof.
  split; [vm_compute; reflexivity|].
  apply (proj1 (proj2 (validation_loader_never_shuffles (quiet_env false)))
           (sample_cfg sample_val_entry []) (dict []) None VNone
           (dict [("img", VStr "images"); ("gt_semantic_seg", VStr "masks")])
           false "python" (VInt 2) (VInt 1) (VInt 255) (VBool false) ∅
           empty_world sample_validation.1).
  unfold sample_validation. apply surjective_pairing.
Defined.


(* ===================================================================== *)
(** * More about the reordering of multi-GPU results *)
(* ===================================================================== *)

Section ReorderFacts.

Context {A : Type}.
Implicit Types l : list A.

Lemma slice_step_full_length l (n m i : nat) :
  List.length l = (n * m)%nat → (i < n)%nat →
  List.length (slice_step i n l) = m.
Proof.
  intros Hlen Hi.
  assert (Hn : (0 < n)%nat) by lia.
  destruct (Nat.lt_trichotomy (List.length (slice_step i n l)) m) as [Hlt|[?|Hgt]];
    [exfalso|done|exfalso].
  - assert (Hnone : slice_step i n l !! List.length (slice_step i n l) = None)
      by (by apply lookup_ge_None_2).
    rewrite slice_step_lookup in Hnone by done.
    apply lookup_ge_None in Hnone. nia.
  - assert (is_Some (slice_step i n l !! m)) as [x Hx]
      by (by apply lookup_lt_is_Some_2).
    rewrite slice_step_lookup in Hx by done.
    apply lookup_lt_Some in Hx. nia.
Qed.

Lemma lookup_concat_uniform (ls : list (list A)) (m : nat) :
  Forall (λ x, List.length x = m) ls →
  ∀ i k, (k < m)%nat →
    List.concat ls !! (i * m + k)%nat = ls !! i ≫= (λ x, x !! k).
Proof.
  induction 1 as [|x ls Hx _ IH]; intros i k Hk; [done|].
  cbn [List.concat]. destruct i as [|i].
  - rewrite lookup_app_l by lia. done.
  - rewrite lookup_app_r by lia.
    replace (S i * m + k - List.length x)%nat with (i * m + k)%nat by lia.
    by rewrite IH.
Qed.

Lemma lookup_slices l (n m i k : nat) :
  List.length l = (n * m)%nat → (i < n)%nat → (k < m)%nat →
  List.concat (map (λ i, slice_step i n l) (seq 0 n)) !! (i * m + k)%nat
  = l !! (k * n + i)%nat.
Proof.
  intros Hlen Hi Hk.
  rewrite (lookup_concat_uniform _ m).
  - rewrite list_lookup_fmap, lookup_seq_lt by done. cbn.
    rewrite slice_step_lookup by lia. f_equal. lia.
  - apply Forall_fmap, Forall_forall. intros j Hj. apply elem_of_seq in Hj.
    cbn. apply slice_step_full_length; [done|lia].
  - done.
Qed.

Lemma results_ordered_grid l (n m i k : nat) :
  List.length l = (n * m)%nat → (i < n)%nat → (k < m)%nat →
  results_ordered (Z.of_nat n) l !! (i * m + k)%nat = l !! (k * n + i)%nat.
Proof.
  intros Hlen Hi Hk. rewrite results_ordered_unfold.
  destruct (Z.ltb_spec 1 (Z.of_nat n)) as [Hn|Hn].
  - rewrite Nat2Z.id. by apply lookup_slices.
  - assert (n = 1%nat) as -> by lia. assert (i = 0%nat) as -> by lia.
    f_equal. lia.
Qed.

(** X1. When every GPU contributed [m] results, the reordered list is the
    transpose of the input: position [i * m + k] holds
    [results[k * num_gpus + i]]. *)
Theorem results_ordered_transpose l (n m i k : nat) :
  List.length l = (n * m)%nat → (i < n)%nat → (k < m)%nat →
  results_ordered (Z.of_nat n) l !! (i * m + k)%nat = l !! (k * n + i)%nat.
Proof. apply results_ordered_grid. Qed.

(** X2. Reordering for [n] GPUs and then for [m] gives the input back when
    the list has [n * m] elements. *)
Theorem results_ordered_round_trip l (n m : nat) :
  List.length l = (n * m)%nat → (0 < n)%nat → (0 < m)%nat →
  results_ordered (Z.of_nat m) (results_ordered (Z.of_nat n) l) = l.
Proof.
  intros Hlen Hn Hm.
  assert (Hlen1 : List.length (results_ordered (Z.of_nat n) l) = (m * n)%nat).
  { rewrite (Permutation_length (results_ordered_perm _ l)). lia. }
  apply list_eq. intros j.
  destruct (decide (j < n * m)%nat) as [Hj|Hj].
  - rewrite (Nat.div_mod_eq j n). set (a := (j / n)%nat). set (b := (j mod n)%nat).
    assert (b < n)%nat by (apply Nat.mod_upper_bound; lia).
    assert (a < m)%nat by (apply Nat.Div0.div_lt_upper_bound; lia).
    replace (n * a + b)%nat with (a * n + b)%nat by lia.
    rewrite (results_ordered_grid _ m n a b) by done.
    rewrite (results_ordered_grid l n m b a) by done.
    done.
  - rewrite !lookup_ge_None_2; [done|lia|].
    rewrite (Permutation_length (results_ordered_perm _ _)). lia.
Qed.

End ReorderFacts.

Lemma results_ordered_transpose_witness :
  results_ordered 2 [10; 11; 12; 13; 14; 15] !! 4%nat = Some 13.
Proof.
  exact (results_ordered_transpose [10; 11; 12; 13; 14; 15] 2 3 1 1
           eq_refl ltac:(lia) ltac:(lia)).
Defined.

Lemma results_ordered_round_trip_witness :
  results_ordered 3 (results_ordered 2 [10; 11; 12; 13; 14; 15])
  = [10; 11; 12; 13; 14; 15].
Proof.
  exact (results_ordered_round_trip [10; 11; 12; 13; 14; 15] 2 3
           eq_refl ltac:(lia) ltac:(lia)).
Defined.

(* ===================================================================== *)
(** * More about [transform] *)
(* ===================================================================== *)

Section ArrayFacts.

Context {Px : Type}.

Lemma size_of_app (sh1 sh2 : list nat) :
  size_of (sh1 ++ sh2) = (size_of sh1 * size_of sh2)%nat.
Proof.
  unfold size_of. induction sh1 as [|n sh1 IH]; simpl; [lia|].
  rewrite IH. lia.
Qed.

Lemma flip_index_involutive (c i : nat) :
  (0 < c)%nat →
  let f := λ i, ((i / c) * c + (c - 1 - i mod c))%nat in
  f (f i) = i.
Proof.
  intros Hc f. unfold f.
  pose proof (Nat.mod_upper_bound i c ltac:(lia)) as Hr.
  destruct (split_index (i / c)%nat (c - 1 - i mod c)%nat c ltac:(lia)) as [-> ->].
  replace (c - 1 - (c - 1 - i mod c))%nat with (i mod c)%nat by lia.
  rewrite (Nat.div_mod_eq i c) at 3. lia.
Qed.

(** Reversing the last axis twice gives the array back. *)
Lemma flip_last_involutive (a a' : ndarray Px) :
  List.length (data a) = size_of (shape a) →
  flip_last a = Ok a' →
  flip_last a' = Ok a.
Proof.
  intros Hwf Hflip. unfold flip_last in *.
  destruct (last (shape a)) as [c|] eqn:Hlast; [|done].
  injection Hflip as <-. cbn [shape data]. rewrite Hlast.
  destruct a as [sh d]. cbn [shape data] in *. f_equal. f_equal.
  apply last_Some in Hlast as [sh' ->].
  rewrite size_of_app in Hwf. cbn in Hwf.
  set (f := λ i, ((i / c) * c + (c - 1 - i mod c))%nat).
  assert (Hb : ∀ j, (j < List.length d)%nat → (f j < List.length d)%nat).
  { intros j Hj. rewrite Hwf in *. unfold f.
    replace (size_of sh' * (c * 1))%nat with (size_of sh' * c)%nat in * by lia.
    by apply flip_index_bound. }
  rewrite (gather_length f _ d Hb).
  apply list_eq. intros i.
  destruct (decide (i < List.length d)%nat) as [Hi|Hi].
  - rewrite gather_lookup; [|by rewrite gather_length|done].
    rewrite gather_lookup by auto.
    assert (0 < c)%nat by (destruct c; lia).
    f_equal. by apply (flip_index_involutive c i).
  - rewrite (lookup_ge_None_2 d) by lia. apply lookup_ge_None_2.
    rewrite gather_length; [lia|]. by rewrite gather_length.
Qed.

(** X3. The conversion [transform] applies to a stored image undoes itself
    on colour images: when the image has at least three axes and axis 2
    is not of length one, converting the converted image gives the stored
    image back (the channel order is reversed twice, nothing else
    changes). *)
Theorem convert_image_twice (image out : ndarray Px) (c : nat) :
  List.length (data image) = size_of (shape image) →
  shape image !! 2%nat = Some c →
  c ≠ 1%nat →
  convert_image image = Ok out →
  convert_image out = Ok image.
Proof.
  intros Hwf Hc Hne Hconv.
  assert (Hdim : Nat.eqb (ndim image) 2 = false).
  { apply Nat.eqb_neq. unfold ndim. apply lookup_lt_Some in Hc. lia. }
  unfold convert_image in Hconv. rewrite Hdim in Hconv.
  destruct (flip_last image) as [flipped|e] eqn:Hflip; [|done].
  assert (Hshape : shape flipped = shape image).
  { unfold flip_last in Hflip. destruct (last (shape image)); [|done].
    by injection Hflip as <-. }
  rewrite Hshape, Hc in Hconv.
  destruct (Nat.eqb_spec c 1) as [->|_]; [done|].
  injection Hconv as <-.
  unfold convert_image, ndim. rewrite Hshape. fold (ndim image). rewrite Hdim.
  rewrite (flip_last_involutive _ _ Hwf Hflip), Hc.
  by destruct (Nat.eqb_spec c 1).
Qed.

(** X4. [transform] accepts every well-formed two- or three-dimensional
    image: the converted image is well formed, has three axes, keeps the
    height and the width, and never has a single channel. *)
Theorem convert_image_invariant (image : ndarray Px) (H W C : nat) :
  List.length (data image) = size_of (shape image) →
  (shape image = [H; W] ∧ C = 1%nat) ∨ shape image = [H; W; C] →
  ∃ out, convert_image image = Ok out
         ∧ List.length (data out) = size_of (shape out)
         ∧ shape out = [H; W; output_channels C]
         ∧ output_channels C ≠ 1%nat.
Proof.
  intros Hwf Hshape. destruct image as [sh d]. cbn [shape data] in *.
  assert (Hlen : List.length d = (H * W * C)%nat).
  { destruct Hshape as [[-> ->] | ->]; rewrite Hwf; cbn; lia. }
  assert (Hconv : convert_image (NDArray sh d) = convert_image (NDArray [H; W; C] d)).
  { destruct Hshape as [[-> ->] | ->]; [apply convert_image_2d|done]. }
  rewrite Hconv. clear Hconv Hshape Hwf.
  destruct (flip_last_3d H W C d Hlen) as (d1 & Hflip & Hlen1 & _).
  unfold convert_image. cbn [ndim shape List.length Nat.eqb].
  rewrite Hflip. cbn [shape lookup list_lookup].
  unfold output_channels.
  destruct (Nat.eqb_spec C 1) as [->|HC].
  - eexists. split; [reflexivity|]. split_and!; [|done|done].
    cbn [data shape size_of foldr].
    rewrite gather_length; [lia|].
    intros j Hj. rewrite Nat.div_1_r, Nat.mod_1_r.
    assert (j / (1 * (3 * 1)) < H * W)%nat
      by (apply Nat.Div0.div_lt_upper_bound; lia).
    assert ((j mod (3 * 1)) / 3 = 0)%nat
      by (apply Nat.div_small, Nat.mod_upper_bound; lia).
    lia.
  - exists (NDArray [H; W; C] d1). split_and!; [done| |done|done].
    cbn. lia.
Qed.

End ArrayFacts.

Section TransformEdges.

Context {Px F32 Out : Type}.
Variable to_float32 : Px → F32.

(** X5. [transform] raises, whatever the pipeline is, when the sample lacks
    the images tensor or the masks tensor ([KeyError] with the missing
    name) and when the stored image has fewer than two axes
    ([IndexError]). *)
Theorem transform_rejects (sample_in : gmap string (ndarray Px))
    (images_tensor masks_tensor : string)
    (pipeline : @pipeline_dict Px F32 → result Out) :
  (sample_in !! images_tensor = None →
   transform to_float32 sample_in images_tensor masks_tensor pipeline
   = Raise (KeyError images_tensor))
  ∧ (is_Some (sample_in !! images_tensor) → sample_in !! masks_tensor = None →
     transform to_float32 sample_in images_tensor masks_tensor pipeline
     = Raise (KeyError masks_tensor))
  ∧ (∀ image mask,
       sample_in !! images_tensor = Some image →
       sample_in !! masks_tensor = Some mask →
       (ndim image < 2)%nat →
       ∃ msg, transform to_float32 sample_in images_tensor masks_tensor pipeline
              = Raise (IndexError msg)).
Proof.
  split_and!.
  - intros Himg. unfold transform. by rewrite Himg.
  - intros [image Himg] Hmask. unfold transform. by rewrite Himg, Hmask.
  - intros image mask Himg Hmask Hdim. unfold transform. rewrite Himg, Hmask.
    destruct image as [[|n [|n' sh]] d]; cbn in Hdim; [| |lia].
    + eexists. reflexivity.
    + eexists. reflexivity.
Qed.

End TransformEdges.

Lemma convert_image_twice_witness :
  convert_image (NDArray [1; 2; 3]%nat [30; 20; 10; 60; 50; 40])
  = Ok (NDArray [1; 2; 3]%nat [10; 20; 30; 40; 50; 60]).
Proof.
  exact (convert_image_twice
           (NDArray [1; 2; 3]%nat [10; 20; 30; 40; 50; 60])
           (NDArray [1; 2; 3]%nat [30; 20; 10; 60; 50; 40]) 3
           eq_refl eq_refl ltac:(lia) eq_refl).
Defined.

Lemma convert_image_invariant_witness :
  ∃ out, convert_image (NDArray [2; 2]%nat [1; 2; 3; 4]) = Ok out
         ∧ List.length (data out) = size_of (shape out)
         ∧ shape out = [2; 2; 3]%nat.
Proof.
  destruct (convert_image_invariant (NDArray [2; 2]%nat [1; 2; 3; 4]) 2 2 1
              eq_refl (or_introl (conj eq_refl eq_refl)))
    as (out & Hout & Hwf & Hshape & _).
  by exists out.
Defined.

Lemma transform_rejects_witness :
  transform (λ x : Z, x) sample_in "depth" "masks" (λ d, Ok d)
  = Raise (KeyError "depth")
  ∧ ∃ msg, transform (λ x : Z, x) (<["images" := NDArray [3]%nat [1; 2; 3]]> sample_in)
             "images" "masks" (λ d, Ok d)
           = Raise (IndexError msg).
Proof.
  split.
  - apply (proj1 (transform_rejects (λ x : Z, x) sample_in "depth" "masks"
                    (λ d, Ok d))).
    vm_compute. reflexivity.
  - apply (proj2 (proj2 (transform_rejects (λ x : Z, x)
                           (<["images" := NDArray [3]%nat [1; 2; 3]]> sample_in)
                           "images" "masks" (λ d, Ok d)))
             (NDArray [3]%nat [1; 2; 3]) (NDArray [1; 2]%nat [0; 1])).
    + vm_compute. reflexivity.
    + vm_compute. reflexivity.
    + cbn. lia.
Defined.

(* ===================================================================== *)
(** * More about [MMSegDataset.evaluate] *)
(* ===================================================================== *)

Lemma elem_of_concat {A} (x : A) (ls : list (list A)) :
  x ∈ List.concat ls ↔ ∃ l, x ∈ l ∧ l ∈ ls.
Proof.
  induction ls as [|l ls IH]; cbn [List.concat].
  - split; [by intros ?%elem_of_nil|]. by intros (? & _ & ?%elem_of_nil).
  - rewrite elem_of_app, IH. split.
    + intros [?|(l' & ? & ?)]; [exists l|exists l']; split; auto; by constructor.
    + intros (l' & Hx & [->|?]%elem_of_cons); [by left|right; eauto].
Qed.

Section UpdateDomain.

Context {V : Type}.

Lemma update_is_Some (entries : list (string * V)) : ∀ (d : gmap string V) k,
  is_Some (update d entries !! k) ↔ is_Some (d !! k) ∨ k ∈ entries.*1.
Proof.
  induction entries as [|[k' v'] entries IH]; intros d k.
  - cbn. rewrite elem_of_nil. tauto.
  - change (update d ((k', v') :: entries)) with (update (<[k' := v']> d) entries).
    rewrite IH, fmap_cons, elem_of_cons. cbn [fst].
    destruct (decide (k' = k)) as [->|Hne].
    + rewrite lookup_insert_eq. split; [intros _|]; eauto.
    + rewrite lookup_insert_ne by done. split; intros [?|?]; eauto.
      destruct H as [?|?]; [congruence|eauto].
Qed.

Lemma elem_of_remove_key key (d : list (string * V)) k v :
  (k, v) ∈ remove_key key d ↔ (k, v) ∈ d ∧ k ≠ key.
Proof. unfold remove_key. rewrite list_elem_of_filter. simpl. tauto. Qed.

End UpdateDomain.

Section EvaluateEdges.

Context {F : Type}.
Variable nanmean : list F → F.
Variable fmul fdiv : F → F → F.
Variable hundred : F.
Variable around : F → Z → F.
Context {Arr Pre Mask : Type}.
Variable upcast_array : Mask → Mask.
Variable eval_metrics :
  list (@result_item Arr Pre) → list (result Mask) → nat → Z → list string → bool →
  result (list (string * @mvalue F)).
Variable pre_eval_to_metrics :
  list (@result_item Arr Pre) → list string → result (list (string * @mvalue F)).

Abbreviation evaluate'' :=
  (evaluate nanmean fmul fdiv hundred around upcast_array eval_metrics
            pre_eval_to_metrics).
Abbreviation compute_metrics'' :=
  (compute_metrics upcast_array eval_metrics pre_eval_to_metrics).

(** X6. A dataset whose [CLASSES] is [None] cannot be evaluated: the branch
    of line 254 needs [num_classes], which is only bound after
    [len(self.CLASSES)] has succeeded. *)
Theorem evaluate_needs_CLASSES (self : @MMSegDataset Mask)
    (results : list (@result_item Arr Pre)) (metric : metric_arg)
    (gt_seg_maps : option (list (result Mask))) (l : list event) :
  CLASSES self = None →
  ∃ e, (evaluate'' self results metric gt_seg_maps l).1 = Raise e.
Proof.
  intros Hnone.
  destruct (evaluate'' self results metric gt_seg_maps l) as [r l'] eqn:Hrun.
  cbn [fst].
  destruct (issubset (metric_names metric) allowed_metrics) eqn:Hsub.
  2:{ unfold evaluate in Hrun.
      change (match metric with MetricStr s => [s] | MetricList l0 => l0 end)
        with (metric_names metric) in Hrun.
      rewrite Hsub in Hrun. injection Hrun as <- _. eauto. }
  pose proof (evaluate_checked nanmean fmul fdiv hundred around upcast_array
                eval_metrics pre_eval_to_metrics _ _ _ _ _ Hsub _ _ Hrun) as Hc.
  destruct (compute_metrics'' self _ _ gt_seg_maps l)
    as [[[ret_metrics num_classes]|e] l1] eqn:Hcm.
  - rewrite Hnone in Hc. destruct num_classes as [n|].
    + exfalso.
      apply compute_metrics_source in Hcm
        as [[? ?]|[(g & n' & Hg & _ & _)|Hp]]; [done|congruence|].
      destruct (pre_eval_to_metrics _ _); by simplify_eq.
    + destruct Hc as [msg ->]. eauto.
  - destruct Hc as [-> _]. eauto.
Qed.

Lemma class_entries_total key xs (class_names : list string) :
  (List.length class_names ≤ List.length xs)%nat →
  ∃ entries, class_entries fdiv hundred key (MArray xs) class_names = Ok entries.
Proof.
  unfold class_entries. intros Hlen.
  assert (Hpairs : Forall (λ p : nat * string, (p.1 < List.length xs)%nat)
                     (imap (λ idx name, (idx, name)) class_names)).
  { apply Forall_lookup. intros i [idx name] Hi.
    rewrite list_lookup_imap in Hi.
    destruct (class_names !! i) as [name'|] eqn:Hname; [|done].
    cbn in Hi. injection Hi as <- <-. cbn.
    apply lookup_lt_Some in Hname. lia. }
  induction Hpairs as [|[idx name] pairs Hidx _ [entries IH]]; [by eexists|].
  cbn [foldr]. cbn in Hidx.
  destruct (lookup_lt_is_Some_2 xs idx Hidx) as [x Hx].
  assert (Hx' : mvalue_index (MArray xs) idx = Ok x) by (cbn; by rewrite Hx).
  rewrite Hx', IH. by eexists.
Qed.

Lemma update_classes_total (class_names : list string) ret_metrics_class :
  Forall (λ kv, ∃ xs, kv.2 = MArray xs
                      ∧ (List.length class_names ≤ List.length xs)%nat)
         ret_metrics_class →
  ∀ eval_results,
    ∃ res, update_classes fdiv hundred eval_results ret_metrics_class class_names
           = Ok res.
Proof.
  induction 1 as [|[key value] rest (xs & Hxs & Hlen) _ IH]; intros er.
  - by eexists.
  - cbn in Hxs. subst value. cbn [update_classes].
    destruct (class_entries_total key xs class_names Hlen) as [entries ->].
    apply IH.
Qed.

(** X7. [evaluate] returns a dictionary when the metric names are supported,
    [CLASSES] is set, the metric function returns a table (a dictionary,
    so its keys are distinct), and every per-class metric of the table is
    an array with one entry for each class. *)
Theorem evaluate_succeeds (self : @MMSegDataset Mask)
    (results : list (@result_item Arr Pre)) (metric : metric_arg)
    (gt_seg_maps : option (list (result Mask))) (l l1 : list event)
    (names : list string) (ret_metrics : list (string * @mvalue F))
    (num_classes : option nat) :
  (∀ m, m ∈ metric_names metric → m ∈ allowed_metrics) →
  CLASSES self = Some names →
  compute_metrics'' self (results_ordered (num_gpus self) results)
    (metric_names metric) gt_seg_maps l = (Ok (ret_metrics, num_classes), l1) →
  NoDup ret_metrics.*1 →
  (∀ key value, (key, value) ∈ ret_metrics → key ≠ "aAcc" → key ≠ "Class" →
     ∃ xs, value = MArray xs ∧ List.length xs = List.length names) →
  ∃ res l', evaluate'' self results metric gt_seg_maps l = (Ok res, l').
Proof.
  intros Hsub%issubset_true Hcls Hcm _ Harrays.
  unfold evaluate.
  change (match metric with MetricStr s => [s] | MetricList l0 => l0 end)
    with (metric_names metric).
  rewrite Hsub. cbn [negb].
  unfold Eff.bind at 1. rewrite Hcm.
  rewrite Hcls.
  unfold Eff.bind, Eff.ret, Eff.lift, log, Eff.modify.
  match goal with
  | |- ∃ res l', (update_classes _ _ ?er ?rmc ?cn, _) = _ =>
      destruct (update_classes_total cn rmc) with (eval_results := er) as [res Hres]
  end.
  - apply Forall_forall. intros [key value] Hin.
    apply elem_of_remove_key in Hin as [Hin HClass].
    apply list_elem_of_fmap in Hin as ([key' value'] & [= -> ->] & Hin).
    apply elem_of_remove_key in Hin as [Hin HaAcc]. cbn [fst snd] in *.
    destruct (Harrays _ _ Hin HaAcc HClass) as (xs & -> & Hlen).
    eexists. split; [reflexivity|]. rewrite length_map. lia.
  - rewrite Hres. eauto.
Qed.

(** The per-class keys written by a run of metrics, in order. *)
Lemma written_keys_eq (class_names : list string) ret_metrics_class written :
  Forall2 (λ kv entries,
             class_entries fdiv hundred kv.1 kv.2 class_names = Ok entries)
          ret_metrics_class written →
  (List.concat written).*1
  = List.concat (map (λ kv, map (class_key kv.1) class_names) ret_metrics_class).
Proof.
  induction 1 as [|[key value] entries rest written Hent _ IH]; [done|].
  cbn [List.concat map]. rewrite fmap_app, IH.
  apply class_entries_spec in Hent as [-> _]. done.
Qed.

(** X8. The keys of the dictionary [evaluate] returns are the summary keys
    of the metrics and the per-class keys ['metric.classname'] of the
    metrics other than ['aAcc'] (and of a metric named ['Class'], which
    the class column displaces); there are no others. *)
Theorem evaluate_keys (self : @MMSegDataset Mask)
    (results : list (@result_item Arr Pre)) (metric : metric_arg)
    (gt_seg_maps : option (list (result Mask))) (l l' l1 : list event)
    (res : gmap string F) (ret_metrics : list (string * @mvalue F))
    (num_classes : option nat) (names : list string) :
  evaluate'' self results metric gt_seg_maps l = (Ok res, l') →
  compute_metrics'' self (results_ordered (num_gpus self) results)
    (metric_names metric) gt_seg_maps l = (Ok (ret_metrics, num_classes), l1) →
  CLASSES self = Some names →
  ∀ key,
    is_Some (res !! key) ↔
    (∃ k, k ∈ ret_metrics.*1 ∧ key = summary_key k)
    ∨ (∃ k name, k ∈ ret_metrics.*1 ∧ k ≠ "aAcc" ∧ k ≠ "Class"
                 ∧ name ∈ names ∧ key = class_key k name).
Proof.
  intros Hrun Hcm Hcls key.
  assert (Hsub : issubset (metric_names metric) allowed_metrics = true).
  { destruct (issubset _ _) eqn:Hsub; [done|].
    unfold evaluate in Hrun.
    change (match metric with MetricStr s => [s] | MetricList l0 => l0 end)
      with (metric_names metric) in Hrun.
    by rewrite Hsub in Hrun. }
  pose proof (evaluate_checked nanmean fmul fdiv hundred around upcast_array
                eval_metrics pre_eval_to_metrics _ _ _ _ _ Hsub _ _ Hrun) as Hc.
  rewrite Hcm, Hcls in Hc. symmetry in Hc.
  apply update_classes_spec in Hc as (written & Hwritten & ->).
  rewrite update_app, update_is_Some, lookup_empty, fmap_app, elem_of_app.
  rewrite (written_keys_eq _ _ _ Hwritten).
  rewrite <- !list_fmap_compose.
  split.
  - intros [[? ?]|[Hin|Hin]]; [done|left|right].
    + apply list_elem_of_fmap in Hin as ([k v] & -> & Hin).
      exists k. split; [|done]. apply list_elem_of_fmap. by exists (k, v).
    + apply elem_of_concat in Hin as (keys & Hin & Hkeys).
      apply list_elem_of_fmap in Hkeys as ([k v] & -> & Hkv).
      apply list_elem_of_fmap in Hin as (name & -> & Hname).
      apply elem_of_remove_key in Hkv as [Hkv HClass].
      apply list_elem_of_fmap in Hkv as ([k' v'] & [= -> ->] & Hkv).
      apply elem_of_remove_key in Hkv as [Hkv HaAcc]. cbn [fst] in *.
      exists k', name. split_and!; [|done..].
      apply list_elem_of_fmap. by exists (k', v').
  - intros [(k & Hk & ->)|(k & name & Hk & HaAcc & HClass & Hname & ->)];
      right; [left|right].
    + apply list_elem_of_fmap in Hk as ([k' v] & -> & Hin).
      apply list_elem_of_fmap. by exists (k', v).
    + apply list_elem_of_fmap in Hk as ([k' v] & -> & Hin). cbn [fst] in *.
      apply elem_of_concat.
      exists (map (class_key k') names). split.
      * apply list_elem_of_fmap. by exists name.
      * apply list_elem_of_fmap.
        exists (k', mvalue_map (λ x, around (fmul x hundred) 2) v).
        split; [done|].
        apply elem_of_remove_key. split; [|done].
        apply list_elem_of_fmap. exists (k', v). split; [done|].
        by apply elem_of_remove_key.
Qed.

End EvaluateEdges.

Lemma evaluate_needs_CLASSES_witness :
  ∃ e, (evaluate sample_nanmean Z.mul Z.div 100 sample_around (λ m, m)
          (λ _ _ _ _ _ _, Ok sample_table) (λ _ _, Ok sample_table)
          sample_self_unset sample_results (MetricStr "mIoU") None []).1
       = Raise e.
Proof.
  exact (evaluate_needs_CLASSES sample_nanmean Z.mul Z.div 100 sample_around
           (λ m, m) (λ _ _ _ _ _ _, Ok sample_table) (λ _ _, Ok sample_table)
           sample_self_unset sample_results (MetricStr "mIoU") None [] eq_refl).
Defined.

Lemma evaluate_succeeds_witness :
  ∃ res l', sample_evaluate (MetricStr "mIoU") = (Ok res, l').
Proof.
  apply (evaluate_succeeds sample_nanmean Z.mul Z.div 100 sample_around
           (λ m, m) (λ _ _ _ _ _ _, Ok sample_table) (λ _ _, Ok sample_table)
           sample_self sample_results (MetricStr "mIoU") None []
           [EExt "pre_eval_to_metrics"] ["bg"; "cat"] sample_table None).
  - intros m Hm. vm_compute in Hm.
    apply elem_of_cons in Hm as [->|Hm]; [by left|].
    by apply elem_of_nil in Hm.
  - reflexivity.
  - vm_compute. reflexivity.
  - cbn. repeat constructor; intros Hin;
      repeat (apply elem_of_cons in Hin as [Hin|Hin]; [discriminate Hin|]);
      by apply elem_of_nil in Hin.
  - intros key value Hin HaAcc HClass. unfold sample_table in Hin.
    apply elem_of_cons in Hin as [[= -> ->]|Hin]; [done|].
    apply elem_of_cons in Hin as [[= -> ->]|Hin];
      [eexists; split; reflexivity|].
    apply elem_of_cons in Hin as [[= -> ->]|Hin];
      [eexists; split; reflexivity|].
    by apply elem_of_nil in Hin.
Defined.

Lemma evaluate_keys_witness :
  ∃ res l', sample_evaluate (MetricStr "mIoU") = (Ok res, l')
            ∧ is_Some (res !! "Acc.cat")
            ∧ ¬ is_Some (res !! "aAcc.cat").
Proof.
  assert (∃ res l', sample_evaluate (MetricStr "mIoU") = (Ok res, l'))
    as (res & l' & Hrun) by (vm_compute; eauto).
  exists res, l'. split; [done|].
  pose proof (evaluate_keys sample_nanmean Z.mul Z.div 100 sample_around
                (λ m, m) (λ _ _ _ _ _ _, Ok sample_table) (λ _ _, Ok sample_table)
                sample_self sample_results (MetricStr "mIoU") None [] l'
                [EExt "pre_eval_to_metrics"] res sample_table None ["bg"; "cat"]
                Hrun ltac:(vm_compute; reflexivity) eq_refl) as Hkeys.
  split.
  - apply Hkeys. right. exists "Acc", "cat".
    split_and!; [by right; right; left|done|done|by right; left|done].
  - intros [(k & Hk & Heq)|(k & name & Hk & HaAcc & _ & Hname & Heq)]%Hkeys.
    + cbn in Hk.
      repeat (apply elem_of_cons in Hk as [->|Hk]; [by vm_compute in Heq|]).
      by apply elem_of_nil in Hk.
    + cbn in Hk.
      apply elem_of_cons in Hk as [->|Hk]; [done|].
      repeat (apply elem_of_cons in Hk as [->|Hk];
              [repeat (apply elem_of_cons in Hname as [->|Hname];
                       [by vm_compute in Heq|]);
               by apply elem_of_nil in Hname|]).
      by apply elem_of_nil in Hk.
Defined.

(* ===================================================================== *)
(** * Successful runs, step by step *)
(* ===================================================================== *)

Lemma bind_Ok_inv {S A B} (m : Eff.M S A) (f : A → Eff.M S B) s b s' :
  Eff.bind m f s = (Ok b, s') →
  ∃ a s1, m s = (Ok a, s1) ∧ f a s1 = (Ok b, s').
Proof.
  unfold Eff.bind. destruct (m s) as [[a|e] s1]; [eauto|done].
Qed.

Lemma bind_Raise_inv {S A B} (m : Eff.M S A) (f : A → Eff.M S B) s e s' :
  Eff.bind m f s = (Raise e, s') →
  m s = (Raise e, s') ∨ ∃ a s1, m s = (Ok a, s1) ∧ f a s1 = (Raise e, s').
Proof.
  unfold Eff.bind. destruct (m s) as [[a|e1] s1]; [eauto|].
  intros [= <- <-]. by left.
Qed.

Lemma bind_inv {S A B} (m : Eff.M S A) (f : A → Eff.M S B) s r s' :
  Eff.bind m f s = (r, s') →
  (∃ e, m s = (Raise e, s') ∧ r = Raise e)
  ∨ ∃ a s1, m s = (Ok a, s1) ∧ f a s1 = (r, s').
Proof.
  unfold Eff.bind. destruct (m s) as [[a|e] s1]; [eauto|].
  intros [= <- <-]. left. eauto.
Qed.

Lemma lift_inv {S A} (r r' : result A) (s s' : S) :
  Eff.lift r s = (r', s') → r = r' ∧ s' = s.
Proof. by intros [= <- <-]. Qed.

Lemma ret_inv {S A} (a : A) (r : result A) (s s' : S) :
  Eff.ret a s = (r, s') → r = Ok a ∧ s' = s.
Proof. by intros [= <- <-]. Qed.

Lemma raise_inv {S A} (e : exn) (r : result A) (s s' : S) :
  @Eff.raise S A e s = (r, s') → r = Raise e ∧ s' = s.
Proof. by intros [= <- <-]. Qed.

Lemma wlog_inv ev r w w' :
  wlog ev w = (r, w') →
  r = Ok tt ∧ w_datasets w' = w_datasets w ∧ w_log w' = w_log w ++ [ev].
Proof. by intros [= <- <-]. Qed.

Lemma ext_inv E name r w w' :
  ext E name w = (r, w') →
  w_datasets w' = w_datasets w ∧ w_log w' = w_log w ++ [EExt name]
  ∧ match ext_raises E name (w_log w) with
    | Some e => r = Raise e
    | None => r = Ok tt
    end.
Proof.
  unfold ext. destruct (ext_raises E name (w_log w)); by intros [= <- <-].
Qed.

Lemma construct_loader_inv E backend ds kwargs r w w' :
  construct_loader E backend ds kwargs w = (r, w') →
  w_datasets w' = w_datasets w
  ∧ w_log w' = w_log w ++ [ELoader backend ds kwargs]
  ∧ match ext_raises E backend (w_log w) with
    | Some e => r = Raise e
    | None => r = Ok tt
    end.
Proof.
  unfold construct_loader.
  destruct (ext_raises E backend (w_log w)); by intros [= <- <-].
Qed.

Lemma deref_inv ds r w w' :
  deref ds w = (r, w') →
  w' = w ∧ match w_datasets w !! ds with
           | Some d => r = Ok d
           | None => r = Raise (ExternalError "dangling reference")
           end.
Proof. unfold deref. destruct (w_datasets w !! ds); by intros [= <- <-]. Qed.

Lemma set_CLASSES_inv ds classes r w w' :
  set_CLASSES ds classes w = (r, w') →
  r = Ok tt ∧ w_log w' = w_log w
  ∧ w_datasets w' =
      alter (λ d, {| tensors := tensors d; ds_CLASSES := Some classes |})
            ds (w_datasets w).
Proof. by intros [= <- <-]. Qed.

(** Taking a successful run apart. *)
Ltac inv_ok :=
  repeat match goal with
    | H : Eff.bind _ _ _ = (Ok _, _) |- _ =>
        apply bind_Ok_inv in H as (? & ? & ? & H)
    | H : Eff.lift _ _ = (_, _) |- _ => apply lift_inv in H as [? ->]
    | H : Eff.ret _ _ = (_, _) |- _ => apply ret_inv in H as [? ->]
    | H : Eff.raise _ _ = (_, _) |- _ => apply raise_inv in H as [? ->]
    | H : wlog _ _ = (_, _) |- _ => apply wlog_inv in H as (? & ? & ?)
    | H : ext _ _ _ = (_, _) |- _ => apply ext_inv in H as (? & ? & ?)
    | H : construct_loader _ _ _ _ _ = (_, _) |- _ =>
        apply construct_loader_inv in H as (? & ? & ?)
    | H : deref _ _ = (_, _) |- _ => apply deref_inv in H as [-> ?]
    | H : set_CLASSES _ _ _ = (_, _) |- _ =>
        apply set_CLASSES_inv in H as (? & ? & ?)
    | H : (if ?b then _ else _) _ = (Ok _, _) |- _ => destruct b eqn:?
    | H : (let '(_, _) := ?x in _) _ = (Ok _, _) |- _ => destruct x eqn:?
    | H : match ?x with _ => _ end = Ok _ |- _ => destruct x eqn:?
    | H : match ?x with _ => _ end = Raise _ |- _ => destruct x eqn:?
    | H : Ok _ = Ok _ |- _ => injection H as H
    | H : Raise _ = Ok _ |- _ => discriminate H
    | H : Ok _ = Raise _ |- _ => discriminate H
    end.

Section LoaderReturns.

Variable E : Env.

Lemma MMSegDataset_init_Ok_inv (ds : nat) (tensors_dict : gmap string pyval)
    (mode num_gpus batch_size : pyval) (w w' : world) (self : mmseg_dataset) :
  MMSegDataset_init E ds tensors_dict mode num_gpus batch_size w = (Ok self, w') →
  md_dataset self = ds ∧ md_mode self = mode ∧ md_num_gpus self = num_gpus
  ∧ md_batch_size self = batch_size
  ∧ md_ignore_index self = 255 ∧ md_reduce_zero_label self = false
  ∧ w_datasets w' = w_datasets w
  ∧ (if match mode with
        | VStr m => bool_decide (m ∈ ["val"; "test"])
        | _ => false
        end
     then ∃ d masks_tensor classes,
            w_datasets w !! ds = Some d
            ∧ tensors_dict !! "masks_tensor" = Some masks_tensor
            ∧ dataset_class_names d masks_tensor = Ok classes
            ∧ md_CLASSES self = Some classes
     else md_CLASSES self = None).
Proof.
  unfold MMSegDataset_init. intros Hrun.
  apply bind_Ok_inv in Hrun as ([] & w1 & Hext & Hrun).
  apply ext_inv in Hext as (Hds1 & _ & _).
  destruct (match mode with VStr m => bool_decide (m ∈ ["val"; "test"]) | _ => false end).
  - inv_ok; subst self; cbn [md_dataset md_mode md_num_gpus md_batch_size
                         md_ignore_index md_reduce_zero_label md_CLASSES].
    all: split_and!; try done; try congruence.
    all: match goal with
         | H : py_getitem (VDict ?td) "masks_tensor" = Ok _ |- _ =>
             cbn in H; destruct (td !! "masks_tensor") eqn:Hmk;
             [injection H as ->|done]
         end.
    all: match goal with
         | Hd : match w_datasets ?wx !! ?r with _ => _ end |- _ =>
             destruct (w_datasets wx !! r) as [d|] eqn:Hdd;
             [injection Hd as ->|done]
         end.
    all: eexists _, _, _; split_and!; [|done|done|done]; congruence.
  - inv_ok. subst. by split_and!.
Qed.

(** X9. What [MMSegDataset.__init__] leaves in the object: the arguments, the
    defaults of [ignore_index] and [reduce_zero_label], and in validation
    or test mode the class names of the masks tensor, which therefore has
    to be given. *)
Theorem MMSegDataset_init_returns (ds : nat) (tensors_dict : gmap string pyval)
    (mode num_gpus batch_size : pyval) (w w' : world) (self : mmseg_dataset) :
  MMSegDataset_init E ds tensors_dict mode num_gpus batch_size w = (Ok self, w') →
  md_dataset self = ds ∧ md_mode self = mode ∧ md_num_gpus self = num_gpus
  ∧ md_batch_size self = batch_size
  ∧ md_ignore_index self = 255 ∧ md_reduce_zero_label self = false
  ∧ w_datasets w' = w_datasets w
  ∧ (if match mode with
        | VStr m => bool_decide (m ∈ ["val"; "test"])
        | _ => false
        end
     then ∃ d masks_tensor classes,
            w_datasets w !! ds = Some d
            ∧ tensors_dict !! "masks_tensor" = Some masks_tensor
            ∧ dataset_class_names d masks_tensor = Ok classes
            ∧ md_CLASSES self = Some classes
     else md_CLASSES self = None).
Proof. apply MMSegDataset_init_Ok_inv. Qed.

Lemma build_pipeline_no_loader steps r w w' :
  build_pipeline E steps w = (r, w') →
  w_datasets w' = w_datasets w
  ∧ ∃ new, w_log w' = w_log w ++ new ∧ Forall (λ ev, ¬ is_ELoader ev) new.
Proof.
  intros Hrun.
  destruct (build_pipeline_obeys E (λ ev, ¬ is_ELoader ev) (λ _, True)
              (lenient_no_loader _ (λ _ _, I)) (env_within_any E) eq steps
              _ _ _ Hrun) as (Hds & Hlog & _).
  by split.
Qed.

Lemma MMSegDataset_init_no_loader ds tensors_dict mode num_gpus batch_size r w w' :
  MMSegDataset_init E ds tensors_dict mode num_gpus batch_size w = (r, w') →
  ∃ new, w_log w' = w_log w ++ new ∧ Forall (λ ev, ¬ is_ELoader ev) new.
Proof.
  intros Hrun.
  by destruct (MMSegDataset_init_obeys E (λ ev, ¬ is_ELoader ev) (λ _, True)
              (lenient_no_loader _ (λ _ _, I)) (env_within_any E) eq
              ds tensors_dict mode num_gpus batch_size
              _ _ _ Hrun) as (_ & Hlog & _).
Qed.

(** A successful run of [make_loader], taken apart. *)
Lemma make_loader_Ok_inv ds images masks impl mode (cfg : gmap string pyval)
    classes persistent_workers dist w w' ld :
  make_loader E ds images masks impl mode cfg classes persistent_workers dist w
  = (Ok ld, w') →
  ∃ num_workers batch_size num_gpus pre post,
    get_or_required cfg "num_workers" "workers_per_gpu" = Ok num_workers
    ∧ get_or_required cfg "batch_size" "samples_per_gpu" = Ok batch_size
    ∧ cfg !! "num_gpus" = Some num_gpus
    ∧ ld_CLASSES ld = classes
    ∧ ld_dataset ld = ds
    ∧ ld_backend ld = (if bool_decide (impl = "python") then "python" else "c++")
    ∧ md_ignore_index (ld_mmseg ld) = 255
    ∧ md_reduce_zero_label (ld_mmseg ld) = false
    ∧ md_batch_size (ld_mmseg ld) = batch_size
    ∧ md_num_gpus (ld_mmseg ld) = num_gpus
    ∧ md_mode (ld_mmseg ld) = mode
    ∧ w_datasets w' = w_datasets w
    ∧ w_log w' = w_log w ++ pre ++ [ELoader (backend_call impl) ds (ld_kwargs ld)] ++ post
    ∧ Forall (λ ev, ¬ is_ELoader ev) pre
    ∧ Forall (λ ev, ¬ is_ELoader ev) post
    ∧ ld_kwargs ld !! "shuffle" = Some (default (VBool true) (cfg !! "shuffle"))
    ∧ ld_kwargs ld !! "batch_size" = Some batch_size
    ∧ ld_kwargs ld !! "num_workers" = Some num_workers
    ∧ ld_kwargs ld !! "tensors"
      = Some (VList (if is_none masks then [images] else [images; masks]))
    ∧ (if bool_decide (impl = "python")
       then ld_kwargs ld !! "persistent_workers" = None
            ∧ ld_kwargs ld !! "distributed" = None
            ∧ ld_kwargs ld !! "mode" = Some mode
       else ld_kwargs ld !! "persistent_workers" = Some persistent_workers
            ∧ ld_kwargs ld !! "distributed" = Some dist
            ∧ ld_kwargs ld !! "mode" = None).
Proof.
  unfold make_loader, backend_call. intros Hrun.
  apply bind_Ok_inv in Hrun as (num_workers & w1 & Hnw & Hrun).
  apply lift_inv in Hnw as [Hnw ->].
  assert (∃ pre w3 kwargs post_attrs,
            w_datasets w3 = w_datasets w
            ∧ w_log w3 = w_log w ++ pre
            ∧ Forall (λ ev, ¬ is_ELoader ev) pre
            ∧ ∃ batch_size num_gpus self w4 w5,
                get_or_required cfg "batch_size" "samples_per_gpu" = Ok batch_size
                ∧ cfg !! "num_gpus" = Some num_gpus
                ∧ w_log w4 = w_log w3 ++
                    [ELoader (if bool_decide (impl = "python") then "dataset.pytorch"
                              else "dataloader") ds kwargs]
                ∧ w_datasets w4 = w_datasets w3
                ∧ MMSegDataset_init E ds
                    (if is_none masks then {[ "images_tensor" := images ]}
                     else <["masks_tensor" := masks]> {[ "images_tensor" := images ]})
                    mode num_gpus batch_size w4 = (Ok self, w5)
                ∧ w_datasets w' = w_datasets w5
                ∧ w_log w' = w_log w5 ++ post_attrs
                ∧ Forall (λ ev, ¬ is_ELoader ev) post_attrs
                ∧ ld_kwargs ld = kwargs
                ∧ ld_CLASSES ld = classes
                ∧ ld_dataset ld = ds
                ∧ ld_backend ld = (if bool_decide (impl = "python") then "python" else "c++")
                ∧ md_ignore_index (ld_mmseg ld) = md_ignore_index self
                ∧ md_reduce_zero_label (ld_mmseg ld) = md_reduce_zero_label self
                ∧ md_batch_size (ld_mmseg ld) = md_batch_size self
                ∧ md_num_gpus (ld_mmseg ld) = md_num_gpus self
                ∧ md_mode (ld_mmseg ld) = md_mode self
                ∧ kwargs !! "shuffle" = Some (default (VBool true) (cfg !! "shuffle"))
                ∧ kwargs !! "batch_size" = Some batch_size
                ∧ kwargs !! "num_workers" = Some num_workers
                ∧ kwargs !! "tensors"
                  = Some (VList (if is_none masks then [images] else [images; masks]))
                ∧ (if bool_decide (impl = "python")
                   then kwargs !! "persistent_workers" = None
                        ∧ kwargs !! "distributed" = None
                        ∧ kwargs !! "mode" = Some mode
                   else kwargs !! "persistent_workers" = Some persistent_workers
                        ∧ kwargs !! "distributed" = Some dist
                        ∧ kwargs !! "mode" = None))
    as (pre & w3 & kwargs & post_attrs & Hds3 & Hlog3 & Hpre
        & batch_size & num_gpus & self & w4 & w5 & Hbs & Hng & Hlog4 & Hds4 & Hinit
        & Hds' & Hlog' & Hpost & Hkw & HC & Hd & Hb & Hii & Hrz & Hbatch & Hgpus & Hmode
        & Hshuffle & Hkbs & Hknw & Hkt & Hrest).
  { destruct (is_none masks) eqn:Hmasks;
      apply bind_Ok_inv in Hrun as (batch_size & w2 & Hbs & Hrun);
      apply lift_inv in Hbs as [Hbs ->];
      (destruct (bool_decide (impl = "python")) eqn:Himpl;
       [apply bind_Ok_inv in Hrun as ([] & w3 & Hwarn & Hrun)|]);
      apply bind_Ok_inv in Hrun as ([] & w4 & Hload & Hrun);
      apply bind_Ok_inv in Hrun as (num_gpus & w5 & Hng & Hrun);
      apply lift_inv in Hng as [Hng ->];
      cbn in Hng; (destruct (cfg !! "num_gpus") as [ng|] eqn:Hcfg; [|done]);
      injection Hng as ->;
      apply bind_Ok_inv in Hrun as (self & w6 & Hinit & Hrun);
      inv_ok; subst ld;
      cbn [ld_CLASSES ld_dataset ld_backend ld_mmseg ld_kwargs
           md_ignore_index md_reduce_zero_label md_batch_size md_num_gpus md_mode];
      first [ match goal with
              | H : w_log ?w3 = w_log w ++ [EWarn ?m] |- _ =>
                  exists [EWarn m], w3
              end
            | exists [], w; rewrite ?app_nil_r ];
      eexists _, _;
      (split; [try done; congruence|]);
      (split; [try done|]);
      (split; [first [apply Forall_nil; done
                     | apply Forall_singleton; simpl; tauto]|]);
      eexists batch_size, num_gpus, self, _, _;
      (split; [done|]); (split; [done|]);
      (split; [eassumption|]); (split; [eassumption|]);
      (split; [eassumption|]);
      (split; [congruence|]);
      (split; [repeat match goal with
                      | H : w_log _ = _ |- _ => rewrite H; clear H
                      end; rewrite <- !app_assoc; reflexivity|]);
      (split; [simpl; repeat first [apply Forall_nil; done
                                   | apply Forall_cons; split; [simpl; tauto|]]|]);
      (split; [reflexivity|]);
      split_and!; try done; by simplify_map_eq. }
  destruct (MMSegDataset_init_no_loader _ _ _ _ _ _ _ _ Hinit) as (new & Hlog5 & Hnew).
  apply MMSegDataset_init_Ok_inv in Hinit
    as (_ & Hmode5 & Hgpus5 & Hbatch5 & Hii5 & Hrz5 & Hds5 & _).
  exists num_workers, batch_size, num_gpus, pre, (new ++ post_attrs).
  rewrite Hkw.
  split_and!; try done; try congruence.
  - rewrite Hlog', Hlog5, Hlog4, Hlog3. by rewrite <- !app_assoc.
  - by apply Forall_app.
Qed.

(** A successful run of [build_dataloader], up to the guard of line 702. *)
Lemma build_dataloader_Ok_inv ds images masks impl pipeline mode
    (cfg : gmap string pyval) w w' ld :
  build_dataloader E ds images masks impl pipeline mode cfg w = (Ok ld, w') →
  ∃ d classes dist w2 pre,
    w_datasets w !! ds = Some d
    ∧ dataset_class_names d masks = Ok classes
    ∧ cfg !! "dist" = Some dist
    ∧ truthy dist && bool_decide (impl = "python") = false
    ∧ w_datasets w2 =
        alter (λ d, {| tensors := tensors d; ds_CLASSES := Some classes |})
              ds (w_datasets w)
    ∧ w_log w2 = w_log w ++ EBuildDataloader ds images masks impl mode :: pre
    ∧ Forall (λ ev, ¬ is_ELoader ev) pre
    ∧ make_loader E ds images masks impl mode cfg classes
        (default (VBool false) (cfg !! "persistent_workers")) dist w2
      = (Ok ld, w').
Proof.
  unfold build_dataloader. intros Hrun.
  apply bind_Ok_inv in Hrun as ([] & w1 & Hlog1 & Hrun).
  apply wlog_inv in Hlog1 as (_ & Hds1 & Hlog1).
  apply bind_Ok_inv in Hrun as (d & w1' & Hd & Hrun).
  apply deref_inv in Hd as [-> Hd].
  destruct (w_datasets w1 !! ds) as [d'|] eqn:Hlook; [|done].
  injection Hd as <-.
  apply bind_Ok_inv in Hrun as (classes & w1' & Hclasses & Hrun).
  apply lift_inv in Hclasses as [Hclasses ->].
  apply bind_Ok_inv in Hrun as ([] & w1' & Hset & Hrun).
  apply set_CLASSES_inv in Hset as (_ & Hlog1' & Hds1').
  apply bind_Ok_inv in Hrun as (built & w2 & Hpipe & Hrun).
  apply build_pipeline_no_loader in Hpipe as (Hds2 & pre & Hlog2 & Hpre).
  apply bind_Ok_inv in Hrun as (dist & w2' & Hdist & Hrun).
  apply lift_inv in Hdist as [Hdist ->].
  cbn in Hdist. destruct (cfg !! "dist") as [dist'|] eqn:Hcfg; [|done].
  injection Hdist as ->.
  destruct (truthy dist && bool_decide (impl = "python")) eqn:Hguard; [done|].
  exists d, classes, dist, w2, pre.
  split_and!; try done.
  - by rewrite <- Hds1.
  - by rewrite Hds2, Hds1', Hds1.
  - rewrite Hlog2, Hlog1', Hlog1. by rewrite <- app_assoc.
Qed.

(** X10. What a loader returned by [build_dataloader] carries.  Its class
    names are those of the masks tensor, which have also been assigned to
    the dataset's [CLASSES] and are the only change to the datasets; the
    dataset wrapper has [ignore_index] 255 and [reduce_zero_label] false
    whatever the configuration says under these keys (lines 699-700 read
    them, nothing uses them); its batch size is the configuration's
    [batch_size] and, when that is absent or [None], [samples_per_gpu];
    [num_gpus] is required; and the python backend was not combined with
    a truthy [dist]. *)
Theorem build_dataloader_returns (ds : nat) (images masks : pyval) (impl : string)
    (pipeline mode : pyval) (cfg : gmap string pyval) (w w' : world) (ld : loader) :
  build_dataloader E ds images masks impl pipeline mode cfg w = (Ok ld, w') →
  ∃ d dist,
    w_datasets w !! ds = Some d
    ∧ dataset_class_names d masks = Ok (ld_CLASSES ld)
    ∧ w_datasets w' =
        alter (λ d, {| tensors := tensors d; ds_CLASSES := Some (ld_CLASSES ld) |})
              ds (w_datasets w)
    ∧ ld_dataset ld = ds
    ∧ ld_backend ld = (if bool_decide (impl = "python") then "python" else "c++")
    ∧ md_ignore_index (ld_mmseg ld) = 255
    ∧ md_reduce_zero_label (ld_mmseg ld) = false
    ∧ md_mode (ld_mmseg ld) = mode
    ∧ get_or_required cfg "batch_size" "samples_per_gpu"
      = Ok (md_batch_size (ld_mmseg ld))
    ∧ cfg !! "num_gpus" = Some (md_num_gpus (ld_mmseg ld))
    ∧ cfg !! "dist" = Some dist
    ∧ (impl = "python" → truthy dist = false).
Proof.
  intros Hrun.
  apply build_dataloader_Ok_inv in Hrun
    as (d & classes & dist & w2 & pre & Hd & Hclasses & Hdist & Hguard & Hds2
        & Hlog2 & Hpre & Hrun).
  apply make_loader_Ok_inv in Hrun
    as (num_workers & batch_size & num_gpus & pre' & post & Hnw & Hbs & Hng & HC
        & Hld & Hb & Hii & Hrz & Hbatch & Hgpus & Hmode & Hds' & _).
  exists d, dist. subst classes.
  split_and!; try done; try congruence.
  intros ->. by rewrite bool_decide_eq_true_2, andb_true_r in Hguard.
Qed.

(** X11. A call of [build_dataloader] that returns has asked exactly one
    backend for a loader, after logging its own entry: [dataset.pytorch]
    for the python implementation and [dataloader] otherwise, with the
    keyword arguments the returned loader records.  [shuffle] is the
    configuration's and [True] by default, [batch_size] falls back to
    [samples_per_gpu] and [num_workers] to [workers_per_gpu], the tensors
    are the images tensor followed by the masks tensor unless that is
    [None]; [persistent_workers] and [distributed] reach the C++ backend
    only, [mode] the python backend only. *)
Theorem build_dataloader_requests_one_loader (ds : nat) (images masks : pyval)
    (impl : string) (pipeline mode : pyval) (cfg : gmap string pyval)
    (w w' : world) (ld : loader) :
  build_dataloader E ds images masks impl pipeline mode cfg w = (Ok ld, w') →
  ∃ pre post dist batch_size num_workers,
    new_events w w'
    = EBuildDataloader ds images masks impl mode :: pre
      ++ [ELoader (backend_call impl) ds (ld_kwargs ld)] ++ post
    ∧ Forall (λ ev, ¬ is_ELoader ev) pre
    ∧ Forall (λ ev, ¬ is_ELoader ev) post
    ∧ ld_kwargs ld !! "shuffle" = Some (default (VBool true) (cfg !! "shuffle"))
    ∧ get_or_required cfg "batch_size" "samples_per_gpu" = Ok batch_size
    ∧ ld_kwargs ld !! "batch_size" = Some batch_size
    ∧ get_or_required cfg "num_workers" "workers_per_gpu" = Ok num_workers
    ∧ ld_kwargs ld !! "num_workers" = Some num_workers
    ∧ ld_kwargs ld !! "tensors"
      = Some (VList (if is_none masks then [images] else [images; masks]))
    ∧ cfg !! "dist" = Some dist
    ∧ (if bool_decide (impl = "python")
       then ld_kwargs ld !! "persistent_workers" = None
            ∧ ld_kwargs ld !! "distributed" = None
            ∧ ld_kwargs ld !! "mode" = Some mode
       else ld_kwargs ld !! "persistent_workers"
            = Some (default (VBool false) (cfg !! "persistent_workers"))
            ∧ ld_kwargs ld !! "distributed" = Some dist
            ∧ ld_kwargs ld !! "mode" = None).
Proof.
  intros Hrun.
  apply build_dataloader_Ok_inv in Hrun
    as (d & classes & dist & w2 & pre & Hd & Hclasses & Hdist & Hguard & Hds2
        & Hlog2 & Hpre & Hrun).
  apply make_loader_Ok_inv in Hrun
    as (num_workers & batch_size & num_gpus & pre' & post & Hnw & Hbs & Hng & HC
        & Hld & Hb & Hii & Hrz & Hbatch & Hgpus & Hmode & Hds' & Hlog' & Hpre'
        & Hpost & Hshuffle & Hkbs & Hknw & Hkt & Hrest).
  exists (pre ++ pre'), post, dist, batch_size, num_workers.
  split_and!; try done.
  - apply new_events_app. rewrite Hlog', Hlog2.
    rewrite <- !app_assoc. simpl. by rewrite <- ?app_assoc.
  - by apply Forall_app.
Qed.

(** X12. [NotImplementedError] comes from the guard of line 702 alone: when
    the collaborators raise none, a call of [build_dataloader] that ends
    in it was given the python implementation and a truthy [dist], the
    message is the documented one and no backend was asked for a
    loader. *)
Theorem not_implemented_only_for_python_dist (ds : nat) (images masks : pyval)
    (impl : string) (pipeline mode : pyval) (cfg : gmap string pyval)
    (w w' : world) (msg : string) :
  env_within E not_NotImplementedError →
  build_dataloader E ds images masks impl pipeline mode cfg w
  = (Raise (NotImplementedError msg), w') →
  impl = "python"
  ∧ (∃ dist, cfg !! "dist" = Some dist ∧ truthy dist = true)
  ∧ msg = python_dist_message
  ∧ Forall (λ ev, ¬ is_ELoader ev) (new_events w w').
Proof.
  intros HE Hrun.
  destruct (build_dataloader_prefix _ _ _ _ _ _ _ _ _ _ _ HE Hrun)
    as [(e & [= <-] & Hni & _)
       |(d & classes & built & w2 & dist & Hd & Hclasses & Hpipe & Hds2 & Hnew
         & Hdist & Hguard)].
  { by destruct (Hni msg). }
  destruct (truthy dist && bool_decide (impl = "python")) eqn:Hb.
  - injection Hguard as -> ->. apply andb_true_iff in Hb as [Hb1 Hb2].
    apply bool_decide_eq_true in Hb2. split_and!; eauto.
  - exfalso.
    assert (HL : lenient (λ _ : event, True) not_NotImplementedError)
      by (by split).
    destruct (make_loader_obeys E (λ _, True) not_NotImplementedError HL HE eq
                ds images masks impl mode cfg classes _ dist
                (λ _ _ _, I) I _ _ _ Hguard) as (_ & _ & Hni).
    by destruct (Hni msg).
Qed.

End LoaderReturns.

Lemma MMSegDataset_init_returns_witness :
  ∃ self w',
    MMSegDataset_init (quiet_env true) 0
      sample_tensors_dict (VStr "val") (VInt 1) (VInt 2) sample_world = (Ok self, w')
    ∧ md_ignore_index self = 255
    ∧ md_CLASSES self = Some ["bg"; "cat"].
Proof.
  eexists _, _. split; [vm_compute; reflexivity|].
  destruct (MMSegDataset_init_returns (quiet_env true) 0
              sample_tensors_dict (VStr "val") (VInt 1) (VInt 2) sample_world _ _
              ltac:(vm_compute; reflexivity))
    as (_ & _ & _ & _ & Hii & _ & _ & Hval).
  split; [exact Hii|]. reflexivity.
Defined.

Lemma build_dataloader_returns_witness :
  ∃ ld w',
    build_dataloader (quiet_env true) 0 (VStr "images") (VStr "masks") "c++"
      (VList []) (VStr "train") single_loader_config sample_world = (Ok ld, w')
    ∧ single_loader_config !! "ignore_index" = Some (VInt 0)
    ∧ md_ignore_index (ld_mmseg ld) = 255
    ∧ md_reduce_zero_label (ld_mmseg ld) = false
    ∧ ds_CLASSES <$> w_datasets w' !! 0%nat = Some (Some (ld_CLASSES ld)).
Proof.
  eexists _, _. split; [vm_compute; reflexivity|].
  destruct (build_dataloader_returns (quiet_env true) 0 (VStr "images")
              (VStr "masks") "c++" (VList []) (VStr "train") single_loader_config
              sample_world _ _ ltac:(vm_compute; reflexivity))
    as (d & dist & Hd & _ & Hds & _ & _ & Hii & Hrz & _).
  split; [reflexivity|]. split; [exact Hii|]. split; [exact Hrz|].
  rewrite Hds. rewrite lookup_alter_eq. rewrite Hd. reflexivity.
Defined.

Lemma build_dataloader_requests_one_loader_witness :
  ∃ ld w' pre post,
    build_dataloader (quiet_env true) 0 (VStr "images") (VStr "masks") "c++"
      (VList []) (VStr "train") single_loader_config sample_world = (Ok ld, w')
    ∧ new_events sample_world w'
      = EBuildDataloader 0 (VStr "images") (VStr "masks") "c++" (VStr "train")
        :: pre ++ [ELoader "dataloader" 0 (ld_kwargs ld)] ++ post
    ∧ ld_kwargs ld !! "shuffle" = Some (VBool true)
    ∧ ld_kwargs ld !! "batch_size" = Some (VInt 2).
Proof.
  destruct (build_dataloader_requests_one_loader (quiet_env true) 0 (VStr "images")
              (VStr "masks") "c++" (VList []) (VStr "train") single_loader_config
              sample_world _ _ ltac:(vm_compute; reflexivity))
    as (pre & post & dist & batch_size & num_workers & Hnew & _ & _ & Hshuffle
        & Hbs & Hkbs & _).
  eexists _, _, pre, post. split; [vm_compute; reflexivity|].
  split; [exact Hnew|]. split; [exact Hshuffle|].
  rewrite Hkbs. vm_compute in Hbs. by injection Hbs as <-.
Defined.

Lemma not_implemented_only_for_python_dist_witness :
  ∃ w',
    build_dataloader (quiet_env false) 0 (VStr "images") (VStr "masks") "python"
      (VList []) (VStr "train") dist_loader_config sample_world
    = (Raise (NotImplementedError python_dist_message), w')
    ∧ Forall (λ ev, ¬ is_ELoader ev) (new_events sample_world w').
Proof.
  eexists. split; [vm_compute; reflexivity|].
  exact (proj2 (proj2 (proj2
    (not_implemented_only_for_python_dist (quiet_env false) 0 (VStr "images")
       (VStr "masks") "python" (VList []) (VStr "train") dist_loader_config
       sample_world _ python_dist_message (quiet_env_within false)
       ltac:(vm_compute; reflexivity))))).
Defined.

(* ===================================================================== *)
(** * [build_pipeline] *)
(* ===================================================================== *)

Section PipelineFacts.

Variable E : Env.

Lemma build_steps_Ok_inv steps w built w' :
  build_steps E steps w = (Ok built, w') →
  forallb has_hashable_type steps = true
  ∧ built = kept_steps steps
  ∧ w_datasets w' = w_datasets w
  ∧ w_log w' = w_log w ++ replicate (List.length built) (EExt "build_from_cfg").
Proof.
  revert w built w'. induction steps as [|step rest IH]; intros w built w' Hrun.
  - cbn in Hrun. injection Hrun as <- <-. by rewrite app_nil_r.
  - cbn [build_steps] in Hrun.
    apply bind_Ok_inv in Hrun as (ty & w1 & Hty & Hrun).
    apply lift_inv in Hty as [Hty ->].
    apply bind_Ok_inv in Hrun as (keep & w1 & Hkeep & Hrun).
    assert (has_hashable_type step = true
            ∧ keep = negb (is_loading_step step) ∧ w1 = w) as (Hhash & -> & ->).
    { unfold has_hashable_type, is_loading_step. rewrite Hty.
      destruct ty; inv_ok; by subst. }
    cbn [forallb kept_steps List.filter]. rewrite Hhash.
    destruct (negb (is_loading_step step)).
    + apply bind_Ok_inv in Hrun as ([] & w1 & Hext & Hrun).
      apply ext_inv in Hext as (Hds1 & Hlog1 & _).
      apply bind_Ok_inv in Hrun as (built' & w2 & Hrest & Hrun).
      apply ret_inv in Hrun as [[= ->] ->].
      apply IH in Hrest as (Hall & -> & Hds2 & Hlog2).
      split_and!; [done|done|congruence|].
      rewrite Hlog2, Hlog1. by rewrite <- app_assoc.
    + by apply IH in Hrun.
Qed.

Lemma build_steps_run steps w :
  forallb has_hashable_type steps = true →
  (∀ history, ext_raises E "build_from_cfg" history = None) →
  build_steps E steps w
  = (Ok (kept_steps steps),
     {| w_datasets := w_datasets w;
        w_log := w_log w ++ replicate (List.length (kept_steps steps))
                                      (EExt "build_from_cfg") |}).
Proof.
  intros Hall Hquiet. revert w Hall.
  induction steps as [|step rest IH]; intros w Hall.
  - cbn. rewrite app_nil_r. by destruct w.
  - cbn [forallb] in Hall. apply andb_true_iff in Hall as [Hstep Hall].
    cbn [build_steps kept_steps List.filter].
    unfold has_hashable_type in Hstep. unfold is_loading_step.
    unfold Eff.bind at 1. unfold Eff.lift at 1.
    destruct (py_getitem step "type") as [ty|e]; [|done].
    assert (∃ keep,
              match ty with
              | VStr s => Eff.ret (negb (bool_decide (s ∈ ["LoadImageFromFile"; "LoadAnnotations"])))
              | VList _ | VDict _ => Eff.raise (TypeError "unhashable type")
              | _ => Eff.ret true
              end w = (Ok keep, w)
              ∧ keep = negb match ty with
                            | VStr s => bool_decide (s ∈ ["LoadImageFromFile"; "LoadAnnotations"])
                            | _ => false
                            end) as (keep & Hkeep & Hk).
    { destruct ty; try done; by eexists. }
    unfold Eff.bind at 1. rewrite Hkeep. rewrite <- Hk.
    destruct keep.
    + unfold Eff.bind at 1. unfold ext at 1. rewrite Hquiet.
      unfold Eff.bind at 1. rewrite IH by done. cbn.
      by rewrite <- app_assoc.
    + by apply IH.
Qed.

Lemma build_steps_log steps w r w' :
  build_steps E steps w = (r, w') →
  ∃ n, w_log w' = w_log w ++ replicate n (EExt "build_from_cfg").
Proof.
  revert w r w'. induction steps as [|step rest IH]; intros w r w' Hrun.
  - cbn in Hrun. injection Hrun as <- <-. exists 0%nat. by rewrite app_nil_r.
  - cbn [build_steps] in Hrun.
    apply bind_inv in Hrun as [(e & Hty & ->)|(ty & w1 & Hty & Hrun)];
      apply lift_inv in Hty as [_ ->].
    { exists 0%nat. by rewrite app_nil_r. }
    apply bind_inv in Hrun as [(e & Hkeep & ->)|(keep & w1 & Hkeep & Hrun)].
    { destruct ty; first [apply ret_inv in Hkeep as [_ ->]
                         | apply raise_inv in Hkeep as [_ ->]];
        exists 0%nat; by rewrite app_nil_r. }
    assert (w1 = w) as ->.
    { destruct ty; first [by apply ret_inv in Hkeep as [_ ->]
                         | by apply raise_inv in Hkeep as [_ ->]]. }
    destruct keep; [|by eapply IH].
    apply bind_inv in Hrun as [(e & Hext & ->)|([] & w1 & Hext & Hrun)];
      apply ext_inv in Hext as (_ & Hlog1 & _).
    { by exists 1%nat. }
    apply bind_inv in Hrun as [(e & Hrest & ->)|(built & w2 & Hrest & Hrun)];
      [|apply ret_inv in Hrun as [_ ->]];
      apply IH in Hrest as (n & Hlog); exists (S n);
      rewrite Hlog, Hlog1; cbn; by rewrite <- app_assoc.
Qed.

(** X13. A pipeline that [build_pipeline] returns: every step of the
    configuration had a ["type"] that can be looked up in a set, the
    result holds, in the order of the configuration, exactly the steps
    whose type is neither ['LoadImageFromFile'] nor ['LoadAnnotations'],
    [build_from_cfg] was called once for each of them and [Compose] once,
    last; no dataset changed. *)
Theorem build_pipeline_returns (steps : pyval) (w w' : world) (built : list pyval) :
  build_pipeline E steps w = (Ok built, w') →
  ∃ l, py_iter steps = Ok l
       ∧ forallb has_hashable_type l = true
       ∧ built = kept_steps l
       ∧ w_datasets w' = w_datasets w
       ∧ new_events w w'
         = replicate (List.length built) (EExt "build_from_cfg") ++ [EExt "Compose"].
Proof.
  unfold build_pipeline. intros Hrun.
  apply bind_Ok_inv in Hrun as (l & w1 & Hl & Hrun).
  apply lift_inv in Hl as [Hl ->].
  apply bind_Ok_inv in Hrun as (built' & w2 & Hsteps & Hrun).
  apply build_steps_Ok_inv in Hsteps as (Hall & -> & Hds2 & Hlog2).
  apply bind_Ok_inv in Hrun as ([] & w3 & Hext & Hrun).
  apply ext_inv in Hext as (Hds3 & Hlog3 & _).
  apply ret_inv in Hrun as [[= ->] ->].
  exists l. split_and!; [done|done|done|congruence|].
  apply new_events_app. rewrite Hlog3, Hlog2. by rewrite <- app_assoc.
Qed.

(** X14. [build_pipeline] returns whenever every step has a ["type"] that can
    be looked up in a set and neither [build_from_cfg] nor [Compose]
    raises; the loading steps are dropped, also when the configuration
    holds nothing else. *)
Theorem build_pipeline_succeeds (steps : pyval) (l : list pyval) (w : world) :
  py_iter steps = Ok l →
  forallb has_hashable_type l = true →
  (∀ history, ext_raises E "build_from_cfg" history = None) →
  (∀ history, ext_raises E "Compose" history = None) →
  build_pipeline E steps w
  = (Ok (kept_steps l),
     {| w_datasets := w_datasets w;
        w_log := w_log w
                 ++ replicate (List.length (kept_steps l)) (EExt "build_from_cfg")
                 ++ [EExt "Compose"] |}).
Proof.
  intros Hl Hall Hbuild Hcompose. unfold build_pipeline.
  unfold Eff.bind at 1. rewrite Hl. unfold Eff.lift at 1.
  unfold Eff.bind at 1. rewrite build_steps_run by done.
  unfold Eff.bind at 1. unfold ext at 1. rewrite Hcompose. cbn.
  by rewrite <- app_assoc.
Qed.

(** X15. A step without a ["type"] key makes [build_pipeline] raise, whatever
    the other steps are, and [Compose] is never reached. *)
Theorem build_pipeline_step_without_type (l : list pyval) (d : gmap string pyval)
    (w : world) :
  VDict d ∈ l →
  d !! "type" = None →
  ∃ e w', build_pipeline E (VList l) w = (Raise e, w')
          ∧ EExt "Compose" ∉ new_events w w'.
Proof.
  intros Hin Hd.
  assert (Hbad : forallb has_hashable_type l = true → False).
  { rewrite forallb_forall. intros Hall.
    apply list_elem_of_In in Hin. apply Hall in Hin.
    unfold has_hashable_type in Hin. cbn in Hin. by rewrite Hd in Hin. }
  destruct (build_pipeline E (VList l) w) as [[built|e] w'] eqn:Hrun.
  - unfold build_pipeline in Hrun.
    apply bind_Ok_inv in Hrun as (l' & w1 & Hl & Hrun).
    apply lift_inv in Hl as [[= <-] ->].
    apply bind_Ok_inv in Hrun as (built' & w2 & Hsteps & _).
    by apply build_steps_Ok_inv in Hsteps as (Hall & _).
  - exists e, w'. split; [done|].
    unfold build_pipeline in Hrun.
    apply bind_Raise_inv in Hrun as [Hrun|(l' & w1 & Hl & Hrun)].
    { by apply lift_inv in Hrun as [? _]. }
    apply lift_inv in Hl as [[= <-] ->].
    apply bind_Raise_inv in Hrun as [Hrun|(built & w2 & Hsteps & Hrun)].
    + apply build_steps_log in Hrun as (n & Hlog).
      rewrite (new_events_app _ _ _ Hlog).
      intros Hc. by apply elem_of_replicate in Hc as [[=] _].
    + by apply build_steps_Ok_inv in Hsteps as (Hall & _).
Qed.

End PipelineFacts.

Lemma build_pipeline_returns_witness :
  ∃ built w' l,
    build_pipeline (quiet_env true) sample_pipeline sample_world = (Ok built, w')
    ∧ py_iter sample_pipeline = Ok l
    ∧ built = kept_steps l
    ∧ List.length built = 2%nat.
Proof.
  destruct (build_pipeline_returns (quiet_env true) sample_pipeline sample_world
              _ _ ltac:(vm_compute; reflexivity))
    as (l & Hl & _ & Hbuilt & _).
  eexists _, _, l. split; [vm_compute; reflexivity|].
  split; [exact Hl|]. split; [exact Hbuilt|]. reflexivity.
Defined.

Lemma build_pipeline_succeeds_witness :
  ∃ l w',
    py_iter sample_pipeline = Ok l
    ∧ build_pipeline (quiet_env true) sample_pipeline sample_world
      = (Ok (kept_steps l), w').
Proof.
  eexists _, _. split; [reflexivity|].
  exact (build_pipeline_succeeds (quiet_env true) sample_pipeline _ sample_world
           eq_refl ltac:(vm_compute; reflexivity) (λ _, eq_refl) (λ _, eq_refl)).
Defined.

Lemma build_pipeline_step_without_type_witness :
  ∃ e w',
    build_pipeline (quiet_env true)
      (VList [dict [("type", VStr "Resize")]; VDict untyped_step]) sample_world
    = (Raise e, w')
    ∧ EExt "Compose" ∉ new_events sample_world w'.
Proof.
  apply (build_pipeline_step_without_type (quiet_env true)
           [dict [("type", VStr "Resize")]; VDict untyped_step] untyped_step
           sample_world).
  - right. left.
  - vm_compute. reflexivity.
Defined.

(* ===================================================================== *)
(** * [_train_segmentor]: the shuffle setting of every loader *)
(* ===================================================================== *)

Section TrainLoaderShuffle.

Variable E : Env.
Variable cfg : pyval.
Variable validate : bool.

Local Lemma shuffle_lenient :
  lenient (shuffles_as_configured cfg validate) (λ _, True).
Proof. by apply lenient_any. Qed.

Local Ltac quiet_phase :=
  repeat first
    [ apply obeys_wlog; [apply _|done|done]
    | obeys_step shuffle_lenient (env_within_any E) ].

(** X16. Every loader a run of [_train_segmentor] asks a backend for is asked
    for with the [shuffle] of the training configuration
    ([cfg.data.train.deeplake_dataloader] before [cfg.data.train_dataloader]
    before [True]: here the user's entries override the defaults) or,
    when [validate] is set, with [shuffle=False]. *)
Theorem loaders_shuffle_as_configured (local_rank : Z)
    (ds_train : option nat) (ds_train_tensors : pyval)
    (ds_val : option nat) (ds_val_tensors : pyval) (distributed : bool)
    (w w' : world) (r : result unit) :
  _train_segmentor E local_rank cfg ds_train ds_train_tensors ds_val
    ds_val_tensors distributed validate w = (r, w') →
  Forall (shuffles_as_configured cfg validate) (new_events w w').
Proof.
  intros Hrun.
  pose proof shuffle_lenient as HL. pose proof (env_within_any E) as HE.
  assert (Hobeys : obeys (λ _ _, True) (shuffles_as_configured cfg validate)
            (λ _, True) (λ _, True)
            (_train_segmentor E local_rank cfg ds_train ds_train_tensors ds_val
               ds_val_tensors distributed validate)).
  { unfold _train_segmentor.
    eapply obeys_bind; [apply _|apply obeys_lift_eq; [exact HL|pure_exn]|].
    intros data Hdata. cbn beta.
    do 4 (eapply (obeys_bind _ _ _ (λ _, True)); [quiet_phase|]; intros ? _).
    eapply (obeys_bind _ _ _ (λ _, True));
      [by apply load_train_dataset_obeys|].
    intros [ds tensors] _.
    eapply (obeys_bind _ _ _ (λ _, True)); [quiet_phase|]. intros eval_cfg _.
    eapply obeys_bind; [apply _|by apply select_dl_impl_obeys|].
    intros dl_impl _.
    eapply (obeys_bind _ _ _ (λ _, True)); [by apply train_tensors_obeys|].
    intros [train_images_tensor train_masks_tensor] _.
    do 6 (eapply (obeys_bind _ _ _ (λ _, True)); [quiet_phase|]; intros ? _).
    do 4 (eapply (obeys_bind _ _ _ (λ _, True)); [quiet_phase|]; intros ? _).
    eapply obeys_bind; [apply _|apply obeys_lift_eq; [exact HL|pure_exn]|].
    intros td0 Htd0. cbn beta in Htd0 |- *.
    eapply obeys_bind; [apply _|apply obeys_lift_eq; [exact HL|pure_exn]|].
    intros td Htd. cbn beta in Htd |- *.
    eapply obeys_bind; [apply _|apply obeys_lift_eq; [exact HL|pure_exn]|].
    intros train Htrain. cbn beta in Htrain |- *.
    eapply obeys_bind; [apply _|apply obeys_lift_eq; [exact HL|pure_exn]|].
    intros dd0 Hdd0. cbn beta in Hdd0 |- *.
    eapply obeys_bind; [apply _|apply obeys_lift_eq; [exact HL|pure_exn]|].
    intros dd Hdd. cbn beta in Hdd |- *.
    eapply (obeys_bind _ _ _ (λ _, True));
      [by apply put_model_on_gpus_obeys|]. intros ? _.
    eapply (obeys_bind _ _ _ (λ _, True)); [quiet_phase|]. intros train_pipeline _.
    eapply (obeys_bind _ _ _ (λ _, True)).
    { apply call_build_dataloader_obeys; [done|done|done| |done|done].
      intros backend kw Hkw. left. eexists. split; [|exact Hkw].
      unfold train_loader_shuffle.
      cbn beta in Hdata. rewrite Hdata, Htd0, Htd, Htrain, Hdd0, Hdd.
      f_equal. unfold merge_dicts. rewrite !lookup_union.
      destruct (dd !! "shuffle"), (td !! "shuffle"); by simplify_map_eq. }
    intros ? _.
    eapply (obeys_bind _ _ _ (λ _, True));
      [by apply build_runner_and_hooks_obeys|]. intros cfg' _.
    eapply (obeys_bind _ _ _ (λ _, True)).
    { destruct validate eqn:Hv.
      - apply register_eval_hooks_obeys; [done|done|done|done|done|done|].
        intros backend ds' kw Hkw. right. by split.
      - by apply obeys_ret. }
    intros ? _.
    eapply (obeys_bind _ _ _ (λ _, True));
      [by apply register_custom_hooks_obeys|]. intros ? _.
    by apply resume_and_run_obeys. }
  destruct (Hobeys _ _ _ Hrun) as (_ & (new & Hlog & Hnew) & _).
  by rewrite (new_events_app _ _ _ Hlog).
Qed.

End TrainLoaderShuffle.

Lemma loaders_shuffle_as_configured_witness :
  ∃ w',
    _train_segmentor (quiet_env false) 0 unshuffled_cfg None VNone None VNone
      false false empty_world = (Ok tt, w')
    ∧ train_loader_shuffle unshuffled_cfg = Ok (VBool false)
    ∧ Forall (shuffles_as_configured unshuffled_cfg false)
             (new_events empty_world w').
Proof.
  eexists. split; [vm_compute; reflexivity|].
  split; [vm_compute; reflexivity|].
  apply (loaders_shuffle_as_configured (quiet_env false) unshuffled_cfg false 0
           None VNone None VNone false empty_world _ (Ok tt)).
  vm_compute. reflexivity.
Defined.

(* ===================================================================== *)
(** * [_train_segmentor]: runner, checkpoints *)
(* ===================================================================== *)

Section RunnerFacts.

Variable E : Env.

(** The case distinction of lines 528-531, by string comparison. *)
Lemma runner_type_cases {A} (ty : pyval) (a b c : A) :
  match ty with
  | VStr "IterBasedRunner" => a
  | VStr "EpochBasedRunner" => b
  | _ => c
  end
  = match ty with
    | VStr s => if String.eqb s "IterBasedRunner" then a
                else if String.eqb s "EpochBasedRunner" then b else c
    | _ => c
    end.
Proof.
  destruct ty as [| | |s| |]; try reflexivity.
  repeat match goal with
         | |- context [match ?x with _ => _ end] => is_var x; destruct x
         end; reflexivity.
Qed.

Lemma runner_kept (d rd : gmap string pyval) (ty : pyval) :
  d !! "runner" = Some (VDict rd) →
  rd !! "type" = Some ty →
  let cfg' := VDict (<["custom_imports" := deeplake_custom_imports]> d) in
  cfg_attr2 cfg' "runner" "type" = Ok ty
  ∧ cfg_attr cfg' "custom_imports" = Ok deeplake_custom_imports
  ∧ ∀ key, key ≠ "runner" → key ≠ "custom_imports" →
      cfg_attr cfg' key = cfg_attr (VDict d) key.
Proof.
  intros Hd Hrd. unfold cfg_attr2. cbn.
  rewrite lookup_insert_ne by done. rewrite Hd. cbn. rewrite Hrd.
  split; [done|]. split; [by rewrite lookup_insert_eq|].
  intros key _ Hkey. by rewrite lookup_insert_ne.
Qed.

Lemma runner_replaced (d rd : gmap string pyval) (ty : pyval) :
  let cfg' := VDict (<["runner" := VDict (<["type" := ty]> rd)]>
                       (<["custom_imports" := deeplake_custom_imports]> d)) in
  cfg_attr2 cfg' "runner" "type" = Ok ty
  ∧ cfg_attr cfg' "custom_imports" = Ok deeplake_custom_imports
  ∧ ∀ key, key ≠ "runner" → key ≠ "custom_imports" →
      cfg_attr cfg' key = cfg_attr (VDict d) key.
Proof.
  unfold cfg_attr2. cbn.
  rewrite lookup_insert_eq. cbn. rewrite lookup_insert_eq.
  split; [done|]. split.
  - rewrite lookup_insert_ne by done. by rewrite lookup_insert_eq.
  - intros key Hk1 Hk2. by rewrite !lookup_insert_ne.
Qed.

(** X17. When the block of lines 520-564 returns, the configuration has the
    runner type replaced by its Deep Lake counterpart
    (['IterBasedRunner'] and ['EpochBasedRunner'] only; any other type is
    kept), [custom_imports] overwritten by the import of the Deep Lake
    runners, and every other entry as before. *)
Theorem build_runner_and_hooks_renames (cfg cfg' : pyval) (distributed : bool)
    (w w' : world) :
  build_runner_and_hooks E cfg distributed w = (Ok cfg', w') →
  ∃ ty,
    cfg_attr2 cfg "runner" "type" = Ok ty
    ∧ cfg_attr2 cfg' "runner" "type" = Ok (deeplake_runner_type ty)
    ∧ cfg_attr cfg' "custom_imports" = Ok deeplake_custom_imports
    ∧ ∀ key, key ≠ "runner" → key ≠ "custom_imports" →
        cfg_attr cfg' key = cfg_attr cfg key.
Proof.
  unfold build_runner_and_hooks. intros Hrun.
  apply bind_Ok_inv in Hrun as (optimizer & w1 & Hopt & Hrun).
  apply lift_inv in Hopt as [Hopt ->].
  apply bind_Ok_inv in Hrun as ([] & w1 & _ & Hrun).
  apply bind_Ok_inv in Hrun as (cfg1 & w2 & Hcfg1 & Hrun).
  apply lift_inv in Hcfg1 as [Hcfg1 ->].
  apply bind_Ok_inv in Hrun as (runner & w2 & Hrunner & Hrun).
  apply lift_inv in Hrunner as [Hrunner ->].
  apply bind_Ok_inv in Hrun as (ty & w2 & Hty & Hrun).
  apply lift_inv in Hty as [Hty ->].
  apply bind_Ok_inv in Hrun as (cfg2 & w2 & Hcfg2 & Hrun).
  assert (cfg' = cfg2) as ->.
  { clear -Hrun. inv_ok; congruence. }
  clear Hrun Hopt.
  destruct cfg as [| | | | |d]; try done.
  cbn in Hcfg1. injection Hcfg1 as <-.
  cbn in Hrunner. rewrite lookup_insert_ne in Hrunner by done.
  destruct (d !! "runner") as [runner'|] eqn:Hd; [|done].
  injection Hrunner as ->.
  destruct runner as [| | | | |rd]; try done.
  cbn in Hty. destruct (rd !! "type") as [ty'|] eqn:Hrd; [|done].
  injection Hty as ->.
  exists ty.
  split. { unfold cfg_attr2. cbn. rewrite Hd. cbn. by rewrite Hrd. }
  fold deeplake_custom_imports in Hcfg2.
  rewrite runner_type_cases in Hcfg2.
  unfold deeplake_runner_type. rewrite runner_type_cases.
  destruct ty as [| | |s| |];
    try (apply ret_inv in Hcfg2 as [[= ->] _]; exact (runner_kept d rd _ Hd Hrd)).
  destruct (String.eqb s "IterBasedRunner").
  { cbn in Hcfg2. injection Hcfg2 as <- _. exact (runner_replaced d rd _). }
  destruct (String.eqb s "EpochBasedRunner").
  { cbn in Hcfg2. injection Hcfg2 as <- _. exact (runner_replaced d rd _). }
  apply ret_inv in Hcfg2 as [[= ->] _]. exact (runner_kept d rd _ Hd Hrd).
Qed.

(** X18. Checkpoints (lines 662-672).  Whatever happens, [runner.resume] and
    [runner.load_checkpoint] are never both called and
    [find_latest_checkpoint] is not consulted when [cfg.resume_from] is
    set; when the block returns, its last call was [runner.run]. *)
Theorem resume_and_run_checkpoints (cfg : pyval) (w w' : world) (r : result unit) :
  resume_and_run E cfg w = (r, w') →
  (EExt "runner.resume" ∈ new_events w w' →
   EExt "runner.load_checkpoint" ∉ new_events w w')
  ∧ (∀ resume_from, cfg_attr cfg "resume_from" = Ok resume_from →
       is_none resume_from = false →
       EExt "find_latest_checkpoint" ∉ new_events w w')
  ∧ (r = Ok tt → last (new_events w w') = Some (EExt "runner.run")).
Proof.
  intros Hrun.
  assert (∃ new, w_log w' = w_log w ++ new
            ∧ (EExt "runner.resume" ∈ new → EExt "runner.load_checkpoint" ∉ new)
            ∧ (∀ resume_from, cfg_attr cfg "resume_from" = Ok resume_from →
                 is_none resume_from = false →
                 EExt "find_latest_checkpoint" ∉ new)
            ∧ (r = Ok tt → last new = Some (EExt "runner.run")))
    as (new & Hlog & H).
  2:{ by rewrite (new_events_app _ _ _ Hlog). }
  unfold resume_and_run in Hrun.
  unfold Eff.bind, Eff.lift, Eff.ret, ext in Hrun. cbn [w_log w_datasets] in Hrun.
  repeat (case_match; simplify_eq; cbn [w_log w_datasets] in * ).
  all: eexists; split; [rewrite <- ?app_assoc; try reflexivity;
                       by rewrite app_nil_r|].
  all: cbn [app]; split_and!.
  all: try (intros Hr Hl;
            first [ clear Hr;
                    repeat (apply elem_of_cons in Hl as [Hl|Hl]; [discriminate Hl|]);
                    by apply elem_of_nil in Hl
                  | clear Hl;
                    repeat (apply elem_of_cons in Hr as [Hr|Hr]; [discriminate Hr|]);
                    by apply elem_of_nil in Hr ]).
  all: try (intros rf Hrf Hnone Hc;
            first [ repeat (apply elem_of_cons in Hc as [Hc|Hc]; [discriminate Hc|]);
                    by apply elem_of_nil in Hc
                  | simplify_eq; congruence ]).
  all: try (intros Hr; first [discriminate Hr | reflexivity]).
Qed.

End RunnerFacts.

Lemma build_runner_and_hooks_renames_witness :
  ∃ cfg' w',
    build_runner_and_hooks (quiet_env false) (sample_cfg [] []) false empty_world
    = (Ok cfg', w')
    ∧ cfg_attr2 (sample_cfg [] []) "runner" "type" = Ok (VStr "IterBasedRunner")
    ∧ cfg_attr2 cfg' "runner" "type" = Ok (VStr "DeeplakeIterBasedRunner").
Proof.
  destruct (build_runner_and_hooks_renames (quiet_env false) (sample_cfg [] [])
              _ false empty_world _ ltac:(vm_compute; reflexivity))
    as (ty & Hty & Hty' & _).
  eexists _, _. split; [vm_compute; reflexivity|].
  vm_compute in Hty. injection Hty as <-.
  split; [vm_compute; reflexivity|]. exact Hty'.
Defined.

Lemma resume_and_run_checkpoints_witness :
  ∃ w',
    resume_and_run (quiet_env false) (sample_cfg [] [("auto_resume", VBool true)])
      empty_world = (Ok tt, w')
    ∧ last (new_events empty_world w') = Some (EExt "runner.run").
Proof.
  eexists. split; [vm_compute; reflexivity|].
  apply (proj2 (proj2
    (resume_and_run_checkpoints (quiet_env false)
       (sample_cfg [] [("auto_resume", VBool true)]) empty_world _ (Ok tt)
       ltac:(vm_compute; reflexivity)))).
  reflexivity.
Defined.

(* ===================================================================== *)
(** * [pre_eval] *)
(* ===================================================================== *)

Section PreEvalFacts.

Context {Mask Pred Areas : Type}.
Variable upcast_array : Mask → Mask.
Variable intersect_and_union : Pred → Mask → nat → Z → bool → result Areas.

Abbreviation pre_eval' := (pre_eval upcast_array intersect_and_union).
Abbreviation pre_eval_loop' := (pre_eval_loop upcast_array intersect_and_union).

Lemma list_getitem_Ok {A} (l : list A) (i : Z) (x : A) :
  list_getitem l i = Ok x →
  - Z.of_nat (List.length l) ≤ i < Z.of_nat (List.length l)
  ∧ l !! Z.to_nat (if i <? 0 then i + Z.of_nat (List.length l) else i) = Some x.
Proof.
  unfold list_getitem. intros Hget.
  destruct (Z.ltb_spec i 0);
    destruct (Z.leb_spec 0 (i + Z.of_nat (List.length l)));
    destruct (Z.leb_spec 0 i);
    destruct (Z.ltb_spec (i + Z.of_nat (List.length l)) (Z.of_nat (List.length l)));
    destruct (Z.ltb_spec i (Z.of_nat (List.length l)));
    cbn in Hget; try done; try lia.
  all: match type of Hget with
       | match ?o with _ => _ end = _ => destruct o eqn:Hl; [|done]
       end.
  all: injection Hget as ->; split; [lia|done].
Qed.

Lemma list_getitem_in_range {A} (l : list A) (i : Z) :
  - Z.of_nat (List.length l) ≤ i < Z.of_nat (List.length l) →
  ∃ x, list_getitem l i = Ok x.
Proof.
  intros Hi. unfold list_getitem.
  set (j := if i <? 0 then i + Z.of_nat (List.length l) else i).
  assert (0 ≤ j < Z.of_nat (List.length l)) as [Hj1 Hj2].
  { unfold j. destruct (Z.ltb_spec i 0); lia. }
  destruct (Z.leb_spec 0 j); [|lia].
  destruct (Z.ltb_spec j (Z.of_nat (List.length l))); [|lia]. cbn.
  destruct (lookup_lt_is_Some_2 l (Z.to_nat j)) as [x ->]; [lia|]. eauto.
Qed.

Lemma pre_eval_loop_Ok_inv (self : @MMSegDataset Mask) (pairs : list (Pred * Z))
    (results : list Areas) :
  pre_eval_loop' self pairs = Ok results →
  List.length results = List.length pairs
  ∧ ∀ i pred index, pairs !! i = Some (pred, index) →
      ∃ m classes areas,
        list_getitem (masks_data self) index = Ok m
        ∧ CLASSES self = Some classes
        ∧ intersect_and_union pred (upcast_array m) (List.length classes)
            (ignore_index self) (reduce_zero_label self) = Ok areas
        ∧ results !! i = Some areas.
Proof.
  revert results. induction pairs as [|[pred index] rest IH]; intros results Hrun.
  - cbn in Hrun. injection Hrun as <-. split; [done|]. intros i ? ? Hi.
    by rewrite lookup_nil in Hi.
  - cbn [pre_eval_loop] in Hrun. unfold get_gt_seg_map_by_idx in Hrun.
    destruct (list_getitem (masks_data self) index) as [m|] eqn:Hm; [|done].
    destruct (CLASSES self) as [classes|] eqn:Hcls; [|done].
    destruct (intersect_and_union pred _ _ _ _) as [areas|] eqn:Hareas; [|done].
    destruct (pre_eval_loop' self rest) as [rs|] eqn:Hrest; [|done].
    injection Hrun as <-.
    destruct (IH rs eq_refl) as [Hlen Hitems].
    split; [cbn; by rewrite Hlen|].
    intros [|i] pred' index' Hi; cbn in Hi.
    + injection Hi as <- <-. by exists m, classes, areas.
    + destruct (Hitems i pred' index' Hi) as (m' & classes' & areas' & ? & ? & ? & ?).
      by exists m', classes', areas'.
Qed.

(** X19. What [pre_eval] returns.  A prediction or an index that is not a
    list counts as a list of one; predictions and indices are paired in
    order and the longer list is cut to the shorter one without an error;
    result [i] is [intersect_and_union] on prediction [i] and the
    up-cast mask at index [i] (a negative index counting from the end),
    with the number of classes of [CLASSES]; so every paired index is
    within the masks in memory and [CLASSES] is set as soon as there is a
    pair. *)
Theorem pre_eval_returns (self : @MMSegDataset Mask) (preds : one_or_list Pred)
    (indices : one_or_list Z) (results : list Areas) :
  pre_eval' self preds indices = Ok results →
  List.length results
  = (List.length (as_list preds) `min` List.length (as_list indices))%nat
  ∧ ∀ i pred index,
      as_list preds !! i = Some pred → as_list indices !! i = Some index →
      - Z.of_nat (List.length (masks_data self)) ≤ index
        < Z.of_nat (List.length (masks_data self))
      ∧ ∃ m classes areas,
          list_getitem (masks_data self) index = Ok m
          ∧ CLASSES self = Some classes
          ∧ intersect_and_union pred (upcast_array m) (List.length classes)
              (ignore_index self) (reduce_zero_label self) = Ok areas
          ∧ results !! i = Some areas.
Proof.
  unfold pre_eval. intros Hrun.
  apply pre_eval_loop_Ok_inv in Hrun as [Hlen Hitems].
  split; [by rewrite Hlen, length_zip|].
  intros i pred index Hpred Hindex.
  destruct (Hitems i pred index) as (m & classes & areas & Hm & Hcls & Ha & Hr).
  { apply lookup_zip_with_Some. by exists pred, index. }
  split; [by apply list_getitem_Ok in Hm as [? _]|].
  by exists m, classes, areas.
Qed.

(** X20. [pre_eval] returns when [CLASSES] is set, every paired index is
    within the masks in memory and [intersect_and_union] returns on the
    pairs. *)
Theorem pre_eval_succeeds (self : @MMSegDataset Mask) (preds : one_or_list Pred)
    (indices : one_or_list Z) (classes : list string) :
  CLASSES self = Some classes →
  (∀ i pred index,
     as_list preds !! i = Some pred → as_list indices !! i = Some index →
     - Z.of_nat (List.length (masks_data self)) ≤ index
       < Z.of_nat (List.length (masks_data self))
     ∧ ∀ m, ∃ areas,
         intersect_and_union pred m (List.length classes) (ignore_index self)
           (reduce_zero_label self) = Ok areas) →
  ∃ results, pre_eval' self preds indices = Ok results.
Proof.
  intros Hcls Hpairs. unfold pre_eval.
  assert (Hzip : ∀ i pred index,
            zip (as_list preds) (as_list indices) !! i = Some (pred, index) →
            - Z.of_nat (List.length (masks_data self)) ≤ index
              < Z.of_nat (List.length (masks_data self))
            ∧ ∀ m, ∃ areas,
                intersect_and_union pred m (List.length classes)
                  (ignore_index self) (reduce_zero_label self) = Ok areas).
  { intros i pred index Hi.
    apply lookup_zip_with_Some in Hi as (p & x & [= <- <-] & Hp & Hx). eauto. }
  clear Hpairs.
  induction (zip (as_list preds) (as_list indices)) as [|[pred index] rest IH].
  - by exists [].
  - cbn [pre_eval_loop]. unfold get_gt_seg_map_by_idx.
    destruct (Hzip 0%nat pred index eq_refl) as [Hrange Hareas].
    destruct (list_getitem_in_range _ _ Hrange) as [m ->].
    rewrite Hcls. destruct (Hareas (upcast_array m)) as [areas ->].
    destruct IH as [rs ->]; [|by eexists].
    intros i pred' index' Hi. by apply (Hzip (S i)).
Qed.

End PreEvalFacts.

Lemma pre_eval_returns_witness :
  ∃ results,
    pre_eval (λ m, m) sample_areas sample_val_self (Many [7; 8; 9])
      (Many [-1; 0]) = Ok results
    ∧ List.length results = 2%nat
    ∧ results !! 0%nat = Some (7, 1, 2%nat).
Proof.
  eexists. split; [vm_compute; reflexivity|].
  destruct (pre_eval_returns (λ m, m) sample_areas sample_val_self
              (Many [7; 8; 9]) (Many [-1; 0]) _ ltac:(vm_compute; reflexivity))
    as [Hlen _].
  split; [exact Hlen|reflexivity].
Defined.

Lemma pre_eval_succeeds_witness :
  ∃ results,
    pre_eval (λ m, m) sample_areas sample_val_self (One 7) (One 1) = Ok results.
Proof.
  apply (pre_eval_succeeds (λ m, m) sample_areas sample_val_self (One 7) (One 1)
           ["bg"; "cat"] eq_refl).
  intros [|i] pred index Hpred Hindex; [|done].
  injection Hpred as <-. injection Hindex as <-.
  split; [cbn; lia|]. intros m. by eexists.
Defined.
